(** * material-tools: the build orchestrator and its version quirk

    A shallow embedding of [lib/MaterialTools.ts] (class [MaterialTools]),
    of the collaborators it calls and of [LocalResolver] as the
    specification describes it, followed by the properties of the
    specification that concern them.

    Conventions.
    - JavaScript strings are modelled by [string] (8-bit characters; the
      strings the orchestrator inspects are version numbers and file names).
    - JavaScript numbers are IEEE doubles.  They are modelled by exact
      rationals plus [NaN].  Every number that occurs below is either an
      integer of at most three digits, or such an integer plus [n/100] or
      [n/1000] for the release-candidate number [n]; rounding to the nearest
      double is monotone and leaves integers of this size unchanged, so the
      comparisons with an integer key that the theorems state are the ones
      the doubles give whenever [n] itself is exactly representable.
    - A method that can throw (or a promise that can reject) returns an
      [outcome]; methods with effects run in the monad [M], whose state is
      the file store and the trace of calls made to the outside.
    - The file system is part of the state.  Reading looks a path up in
      the store; whether a write is refused is the file system's to say, in
      the state it is in; the package resolver may leave files behind (its
      cache), the other resolvers and the builders read the store.  A copy
      started with [fse.copy] and not awaited completes after the promise
      of [build] has settled. *)

From Stdlib Require Import ZArith QArith Lia Lqa List Ascii String DecimalString.
From stdpp Require Import base strings gmap list.

Local Open Scope string_scope.
Local Open Scope list_scope.

(** ** JavaScript values *)

Module JS.

(** What a [throw] (or a rejected promise) carries. *)
Inductive error : Type :=
| TypeError (msg : string)   (* raised by the runtime, e.g. a property of [null] *)
| Error (msg : string)       (* [new Error(msg)] *)
| Rejected (who : string).   (* a failure reported by a collaborator *)

Inductive outcome (A : Type) : Type :=
| Return (a : A)
| Throw (e : error).
Arguments Return {A} a.
Arguments Throw {A} e.

Definition bind {A B} (x : outcome A) (f : A -> outcome B) : outcome B :=
  match x with
  | Return a => f a
  | Throw e => Throw e
  end.

(** Numbers: [NaN] or a finite value. *)
Inductive number : Type :=
| NaN
| Num (q : Q).

Definition of_N (n : N) : number := Num (inject_Z (Z.of_N n)).

Definition add (x y : number) : number :=
  match x, y with
  | Num a, Num b => Num (a + b)
  | _, _ => NaN
  end.

Definition sub (x y : number) : number :=
  match x, y with
  | Num a, Num b => Num (a - b)
  | _, _ => NaN
  end.

(** Division, for a finite non-zero divisor (the only one used). *)
Definition div (x y : number) : number :=
  match x, y with
  | Num a, Num b => if Qeq_bool b 0 then NaN else Num (a / b)
  | _, _ => NaN
  end.

(** [x < y] and [x > y]: false as soon as one side is [NaN]. *)
Definition lt (x y : number) : bool :=
  match x, y with
  | Num a, Num b => negb (Qle_bool b a)
  | _, _ => false
  end.

Definition gt (x y : number) : bool := lt y x.

(** [x === y] on numbers. *)
Definition strict_eq (x y : number) : bool :=
  match x, y with
  | Num a, Num b => Qeq_bool a b
  | _, _ => false
  end.

(** Truthiness of a number: neither [NaN] nor zero. *)
Definition truthy (x : number) : bool :=
  match x with
  | NaN => false
  | Num a => negb (Qeq_bool a 0)
  end.

Definition is_digit (c : ascii) : bool :=
  (48 <=? nat_of_ascii c)%nat && (nat_of_ascii c <=? 57)%nat.

Definition digit_value (c : ascii) : N := N.of_nat (nat_of_ascii c - 48).

(** The longest prefix of decimal digits of [s], read as a number with
    [acc] as the value of the digits already consumed, and the number of
    digits read. *)
Fixpoint read_digits (acc : N) (s : string) : N * nat :=
  match s with
  | String c s' =>
      if is_digit c then
        let '(v, k) := read_digits (10 * acc + digit_value c) s' in (v, S k)
      else (acc, O)
  | EmptyString => (acc, O)
  end.

(** [parseInt(x)] for an argument that is [undefined] or a string without
    leading white space, sign or radix prefix (the captures of [[0-9]]
    groups have none): the decimal value of the leading digits, [NaN]
    when there is none.  [undefined] is converted to the string
    ["undefined"], which starts with no digit. *)
Definition parseInt (x : option string) : number :=
  match x with
  | None => NaN
  | Some s =>
      match read_digits 0 s with
      | (_, O) => NaN
      | (v, S _) => of_N v
      end
  end.

(** [xs.join(sep)] on an array of strings. *)
Fixpoint join (sep : string) (xs : list string) : string :=
  match xs with
  | [] => ""
  | [x] => x
  | x :: rest => x +:+ sep +:+ join sep rest
  end.

(** [xs.indexOf(x) !== -1]. *)
Fixpoint includes (x : string) (xs : list string) : bool :=
  match xs with
  | [] => false
  | y :: rest => if String.eqb y x then true else includes x rest
  end.

End JS.

Import JS.

(** ** The version pattern

    [versionDigitRegex = /([0-9])\.([0-9])\.([0-9])(?:-rc(?:.|-)([0-9]+))?/]
    has no anchor and no flag: [String.prototype.match] tries it at every
    start index from the left and returns the first match. *)

Module VersionRegex.

(** [.] matches every character but a line terminator; among 8-bit
    characters these are the line feed and the carriage return. *)
Definition is_line_terminator (c : ascii) : bool :=
  (nat_of_ascii c =? 10)%nat || (nat_of_ascii c =? 13)%nat.

(** [[0-9]+], greedy: the longest run of digits in front of [s]. *)
Fixpoint take_digits (s : string) : string :=
  match s with
  | String c s' => if is_digit c then String c (take_digits s') else ""
  | EmptyString => ""
  end.

(** [(?:-rc(?:.|-)([0-9]+))?] in front of [s]: the text matched by the
    whole group and capture 4.  After [-rc] both alternatives of [(?:.|-)]
    take one character, [.] any but a line terminator and [-] a dash,
    which [.] takes as well; then at least one digit must follow.  The
    group is optional and nothing comes after it, so when it fails the
    match succeeds without it, capture 4 being [undefined]. *)
Definition rc_suffix (s : string) : string * option string :=
  match s with
  | String "-" (String "r" (String "c" (String sep rest))) =>
      if negb (is_line_terminator sep) || Ascii.eqb sep "-" then
        match take_digits rest with
        | "" => ("", None)
        | ds => (String "-" (String "r" (String "c" (String sep ds))), Some ds)
        end
      else ("", None)
  | _ => ("", None)
  end.

(** The pattern at the start of [s]: the match array, that is the matched
    text followed by the four captures ([None] is [undefined]). *)
Definition match_here (s : string) : option (list (option string)) :=
  match s with
  | String a (String "." (String b (String "." (String c rest)))) =>
      if is_digit a && is_digit b && is_digit c then
        let '(txt, rc) := rc_suffix rest in
        Some [Some (String a (String "." (String b (String "." (String c txt)))));
              Some (String a ""); Some (String b ""); Some (String c ""); rc]
      else None
  | _ => None
  end.

(** [s.match(versionDigitRegex)]: [None] is [null]. *)
Fixpoint exec (s : string) : option (list (option string)) :=
  match match_here s with
  | Some m => Some m
  | None =>
      match s with
      | String _ s' => exec s'
      | EmptyString => None
      end
  end.

End VersionRegex.

(** ** The world outside the orchestrator *)

(** The types exchanged with the resolvers and builders.  Their
    declarations live with the collaborators; the fields are the ones
    [MaterialTools.ts] and the tests read. *)

Record LocalBuildFiles : Type := {
  root : string;
  js : list string;
  css : list string;
  scss : list string;
  themes : list string
}.

(** [dependencies: any]; only [_flat], the ordered module ids, is read. *)
Record Dependencies : Type := { _flat : list string }.

Record MaterialToolsData : Type := {
  files : LocalBuildFiles;
  dependencies : Dependencies
}.

Record MaterialToolsOutput : Type := {
  source : string;
  compressed : string;
  map : option string
}.

(** The result of [CSSBuilder.build]. *)
Record CSSBuildOutput : Type := {
  layout : MaterialToolsOutput;
  noLayout : MaterialToolsOutput
}.

(** The result of [PackageResolver.resolve]. *)
Record VersionData : Type := {
  resolvedVersion : string;      (* [versionData.version] *)
  moduleRoot : string            (* [versionData.module] *)
}.

(** [interface MaterialToolsOptions]: every field is optional.  [Theme] is
    [MdTheme], declared with the theming builder. *)
Record MaterialToolsOptions (Theme : Type) : Type := {
  destination : option string;
  modules : option (list string);
  version : option string;
  theme : option Theme;
  mainFilename : option string;
  cache : option string;
  destinationFilename : option string
}.
Arguments destination {Theme} _.
Arguments modules {Theme} _.
Arguments version {Theme} _.
Arguments theme {Theme} _.
Arguments mainFilename {Theme} _.
Arguments cache {Theme} _.
Arguments destinationFilename {Theme} _.

(** What [new Date()] gives, in local time. *)
Record Date : Type := {
  fullYear : N;
  month : N;
  day : N;
  milliseconds : N
}.

(** The collaborators of [MaterialTools]: the resolvers, the builders, the
    theming builder, Node's [path] module, [require] and the file system
    calls that can be refused.  Their code is not part of
    [MaterialTools.ts].

    The last argument of a resolver or a builder is the disk it finds: the
    dependency resolver parses the entry file, the local resolver lists
    directories, the builders read the resolved files, and each returns
    or throws by what it finds.  The package resolver also returns the
    disk it leaves, on which it may have materialised the package in its
    cache, whether it returns or throws.  The theming builder, the SCSS
    compiler and the stylesheet finisher work on the text they are given.
    [fse_mkdirp] and [fse_writeFileSync] say whether the file system
    refuses the call, and with which error; for a write it is asked in the
    state of the disk at the time of the call. *)
Class Collaborators : Type := {
  MdTheme : Type;
  ThemingBuilder : Type;
  ThemingBuilder_new : MdTheme -> outcome ThemingBuilder;
  ThemingBuilder_build : ThemingBuilder -> string -> outcome string;
  PackageResolver_resolve :
    option string -> option string -> gmap string string ->
    outcome VersionData * gmap string string;
  DependencyResolver_resolve :
    string -> option (list string) -> gmap string string -> outcome Dependencies;
  LocalResolver_resolve :
    list string -> string -> gmap string string -> outcome LocalBuildFiles;
  JSBuilder_build :
    MaterialToolsData -> string -> gmap string string -> outcome MaterialToolsOutput;
  CSSBuilder_build : MaterialToolsData -> gmap string string -> outcome CSSBuildOutput;
  CSSBuilder_buildStylesheet : option string -> outcome MaterialToolsOutput;
  CSSBuilder_compileSCSS : string -> outcome string;
  path_join : list string -> string;
  path_resolve : list string -> string;
  path_basename : string -> string;
  require_config : string -> outcome (MaterialToolsOptions MdTheme);
  fse_mkdirp : string -> option error;
  fse_writeFileSync : gmap string string -> string -> option error
}.

(** Calls that leave the orchestrator, in the order they are made. *)
Inductive event : Type :=
| Require (path : string)
| PackageResolve (version cache : option string)
| DependencyResolve (entry : string) (modules : option (list string))
| LocalResolve (modules : list string) (root : string)
| Mkdirp (path : string)
| Copy (src dst : string) (copied : option string)
| ReadFile (path : string)
| WriteFile (path content : string)
| FailedWrite (path : string).

(** The state a build runs in: the files on disk, the clock, and the
    calls made so far. *)
Record World : Type := {
  disk : gmap string string;
  now : Date;
  trace : list event
}.

(** The world after one more call. *)
Definition record (e : event) (w : World) : World :=
  {| disk := disk w; now := now w; trace := trace w ++ [e] |}.

(** The world after [content] has been written at [path]. *)
Definition store (path content : string) (w : World) : World :=
  {| disk := <[path := content]> (disk w); now := now w; trace := trace w |}.

(** The world with another disk. *)
Definition with_disk (d : gmap string string) (w : World) : World :=
  {| disk := d; now := now w; trace := trace w |}.

(** Computations with effects: a result or an exception, and the world
    after.  A rejected promise is the exception of the chain. *)
Definition M (A : Type) : Type := World -> outcome A * World.

Definition ret {A} (a : A) : M A := fun w => (Return a, w).
Definition throw {A} (e : error) : M A := fun w => (Throw e, w).

(** Sequencing, as [then] on a promise or [;] in a block: an exception
    skips what follows and keeps the world it happened in. *)
Definition and_then {A B} (c : M A) (k : A -> M B) : M B :=
  fun w =>
    match c w with
    | (Return a, w') => k a w'
    | (Throw e, w') => (Throw e, w')
    end.

(** A call to a collaborator that works on what it is given, one that
    reads the disk, one that may also change it, and the note of a call
    in the trace. *)
Definition lift {A} (x : outcome A) : M A := fun w => (x, w).
Definition reading {A} (f : gmap string string -> outcome A) : M A :=
  fun w => (f (disk w), w).
Definition updating {A} (f : gmap string string -> outcome A * gmap string string) : M A :=
  fun w => (fst (f (disk w)), with_disk (snd (f (disk w))) w).
Definition emit (e : event) : M unit := fun w => (Return tt, record e w).

Notation "'let*' x ':=' c 'in' k" := (and_then c (fun x => k))
  (at level 10, x name, c at level 100, k at level 200).
Notation "c ';;' k" := (and_then c (fun _ => k))
  (at level 100, k at level 200, right associativity).

(** A path argument must be a string: [path.join(undefined)] throws. *)
Definition path_arg (x : option string) : M string :=
  match x with
  | Some s => ret s
  | None => throw (TypeError "Path must be a string.")
  end.

(** The line feed, ['\n']. *)
Definition LF : string := String (ascii_of_nat 10) "".

(** String concatenation with a value that may be [undefined]. *)
Definition to_string (x : option string) : string :=
  match x with
  | Some s => s
  | None => "undefined"
  end.

(** Decimal digits of a non-negative integer, as [String(n)] gives. *)
Definition N_to_string (n : N) : string :=
  DecimalString.NilZero.string_of_uint (N.to_uint n).

(** [xs.map(f)] for an [f] with effects: left to right, the first
    exception ends the loop. *)
Fixpoint mapM {A B} (f : A -> M B) (xs : list A) : M (list B) :=
  match xs with
  | [] => ret []
  | x :: rest =>
      let* y := f x in
      let* ys := mapM f rest in
      ret (y :: ys)
  end.

(** [fse.readFileSync(path).toString()]. *)
Definition readFileSync (path : string) : M string :=
  fun w =>
    match disk w !! path with
    | Some content => (Return content, record (ReadFile path) w)
    | None => (Throw (Error "ENOENT"), record (ReadFile path) w)
    end.

(** [fse.writeFileSync(path, content)]: the file is written, or the file
    system refuses and the call throws (no such directory, no
    permission). *)
Definition writeFileSync {collaborators : Collaborators} (path content : string) : M unit :=
  fun w =>
    match fse_writeFileSync (disk w) path with
    | Some e => (Throw e, record (FailedWrite path) w)
    | None => (Return tt, record (WriteFile path content) (store path content w))
    end.

(** [fse.copy(src, dst)] with neither callback nor handler on the promise
    it returns.  The call starts the copy and returns at once; every step
    of the copy waits for the event loop, to which neither the
    synchronous writes nor the reactions of the promise of [build] yield:
    the disk is as it was when [build] settles.  The event keeps what the
    source held at the call. *)
Definition fse_copy (src dst : string) : M unit :=
  fun w => (Return tt, record (Copy src dst (disk w !! src)) w).

(** A copy that was started completes: the destination holds what the
    source holds then; a copy whose source exists is taken to succeed.  A
    copy whose source is missing copies nothing, and its failure is a
    rejection that nothing handles: the promise of [build] does not see
    it. *)
Definition complete (e : event) (disk : gmap string string) : gmap string string :=
  match e with
  | Copy src dst _ =>
      match disk !! src with
      | Some content => <[dst := content]> disk
      | None => disk
      end
  | _ => disk
  end.

(** The disk after the copies started in [events] have completed. *)
Definition after_copies (events : list event) (disk : gmap string string)
    : gmap string string :=
  List.fold_left (fun disk e => complete e disk) events disk.

(** ** class MaterialTools *)

Module MaterialTools.
Section Class.

Context {collaborators : Collaborators}.

(** The fields of an instance. *)
Record t : Type := {
  options : MaterialToolsOptions MdTheme;
  themeBuilder : option ThemingBuilder
}.

(** The argument of the constructor, [MaterialToolsOptions | string], or
    none ([undefined], [null]). *)
Inductive argument : Type :=
| Missing
| ConfigFile (path : string)
| Given (o : MaterialToolsOptions MdTheme).

Definition DEFAULTS : MaterialToolsOptions MdTheme := {|
  destination := None;
  modules := None;
  version := Some "node";
  theme := None;
  mainFilename := Some "angular-material.js";
  cache := Some "./.material-cache/";
  destinationFilename := Some "angular-material"
|}.

Definition or_default {A} (x d : option A) : option A :=
  match x with
  | Some _ => x
  | None => d
  end.

(** The loop over [Object.keys(DEFAULTS)], whose keys are [version],
    [mainFilename], [destinationFilename] and [cache]. *)
Definition with_defaults (o : MaterialToolsOptions MdTheme) : MaterialToolsOptions MdTheme := {|
  destination := destination o;
  modules := modules o;
  version := or_default (version o) (version DEFAULTS);
  theme := theme o;
  mainFilename := or_default (mainFilename o) (mainFilename DEFAULTS);
  cache := or_default (cache o) (cache DEFAULTS);
  destinationFilename := or_default (destinationFilename o) (destinationFilename DEFAULTS)
|}.

Definition set_destination (d : string) (o : MaterialToolsOptions MdTheme)
  : MaterialToolsOptions MdTheme := {|
  destination := Some d;
  modules := modules o;
  version := version o;
  theme := theme o;
  mainFilename := mainFilename o;
  cache := cache o;
  destinationFilename := destinationFilename o
|}.

Definition set_version (v : string) (o : MaterialToolsOptions MdTheme)
  : MaterialToolsOptions MdTheme := {|
  destination := destination o;
  modules := modules o;
  version := Some v;
  theme := theme o;
  mainFilename := mainFilename o;
  cache := cache o;
  destinationFilename := destinationFilename o
|}.

(** A non-empty string is truthy. *)
Definition truthy_string (x : option string) : bool :=
  match x with
  | Some s => negb (String.eqb s "")
  | None => false
  end.

Definition constructor (_options : argument) : M t :=
  let* o :=
    match _options with
    | Missing => throw (Error "No options have been specified.")
    | ConfigFile path =>
        if String.eqb path "" then throw (Error "No options have been specified.")
        else (emit (Require (path_resolve [path])) ;;
              lift (require_config (path_resolve [path])))
    | Given o => ret o
    end in
  let o := with_defaults o in
  let* o :=
    if truthy_string (destination o)
    then ret (set_destination (path_resolve [to_string (destination o)]) o)
    else throw (Error "You have to specify a destination.") in
  let* tb :=
    match theme o with
    | Some th => let* b := lift (ThemingBuilder_new th) in ret (Some b)
    | None => ret None
    end in
  ret {| options := o; themeBuilder := tb |}.

(** An element of an array of captures as [join] prints it. *)
Definition element_text (x : option string) : string :=
  match x with
  | Some s => s
  | None => ""
  end.

(** [_getVersionNumber(version = this.options.version)]. *)
Definition _getVersionNumber (this : t) (version_arg : option string) : outcome number :=
  let version := or_default version_arg (version (options this)) in
  match version with
  | None => Throw (TypeError "Cannot read property 'match' of undefined")
  | Some v =>
      match VersionRegex.exec v with
      | None => Throw (TypeError "Cannot read property 'slice' of null")
      | Some found =>
          let matches := skipn 1 found in
          let digits := firstn 3 matches in
          let rcVersion := parseInt (nth 3 matches None) in
          let versionNumber := parseInt (Some (join "" (List.map element_text digits))) in
          Return
            (if truthy rcVersion
             then add (sub versionNumber (of_N 1))
                      (div rcVersion (if gt rcVersion (of_N 9) then of_N 100 else of_N 1000))
             else versionNumber)
      end
  end.

(** The list [baseSCSSFiles] when the filter runs. *)
Definition baseSCSSFiles (this : t) : outcome (list string) :=
  let baseSCSSFiles := ["variables.scss"; "mixins.scss"] in
  bind (_getVersionNumber this None) (fun current =>
  bind (_getVersionNumber this (Some "1.1.0")) (fun threshold =>
  Return (if lt current threshold
          then baseSCSSFiles ++ ["themes.scss"]
          else baseSCSSFiles))).

Definition _buildStaticTheme (this : t) (buildFiles : LocalBuildFiles) : M (option string) :=
  match themeBuilder this with
  | None => ret None
  | Some builder =>
      let* baseSCSSFiles := lift (baseSCSSFiles this) in
      let scssFiles :=
        List.filter (fun file => includes (path_basename file) baseSCSSFiles)
                    (scss buildFiles) in
      let* scssContents := mapM readFileSync scssFiles in
      let scssBaseContent := join "" scssContents in
      let* themeContents := mapM readFileSync (themes buildFiles) in
      let themeSCSS := join "" themeContents in
      let* themeCSS := lift (CSSBuilder_compileSCSS (scssBaseContent +:+ themeSCSS)) in
      let* sheet := lift (ThemingBuilder_build builder themeCSS) in
      ret (Some sheet)
  end.

Definition _makeDirectory (path : string) : M string :=
  emit (Mkdirp path) ;;
  match fse_mkdirp path with
  | Some e => throw e
  | None => ret path
  end.

Definition license_lines (version : option string) (modules : list string) (year : N)
  : list string :=
  ["Angular Material Design";
   "https://github.com/angular/material";
   "@license MIT";
   "v" +:+ to_string version;
   "Built with: material-tools";
   "Includes modules: " +:+ join ", " modules;
   "";
   "Copyright " +:+ N_to_string year +:+ " Google Inc. All Rights Reserved.";
   "Use of this source code is governed by an MIT-style license that can be " +:+
     "found in the LICENSE file at http://material.angularjs.org/LICENSE."].

Definition _getLicense (this : t) (modules : list string) : M string :=
  fun w =>
    let lines :=
      List.map (fun line => " * " +:+ line)
               (license_lines (version (options this)) modules (fullYear (now w))) in
    let lines := "/*!" :: lines in
    let lines := lines ++ [" */"; LF] in
    (Return (join LF lines), w).

(** [_writeFile(destination, content, license = '')].  [content] may be
    [undefined] (the [map] of a [MaterialToolsOutput] is optional). *)
Definition _writeFile (destination : string) (content : option string)
                      (license : option string) : M unit :=
  writeFileSync destination (element_text license +:+ to_string content).

Definition _getData (this : t) : M (t * MaterialToolsData) :=
  let options0 := options this in
  emit (PackageResolve (version options0) (cache options0)) ;;
  let* versionData :=
    updating (PackageResolver_resolve (version options0) (cache options0)) in
  let this := {| options := set_version (resolvedVersion versionData) options0;
                 themeBuilder := themeBuilder this |} in
  let versionRoot := path_resolve [moduleRoot versionData; "../"] in
  let* mainFilename := path_arg (mainFilename options0) in
  let entry := path_join [moduleRoot versionData; mainFilename] in
  emit (DependencyResolve entry (modules options0)) ;;
  let* dependencies := reading (DependencyResolver_resolve entry (modules options0)) in
  emit (LocalResolve (_flat dependencies) versionRoot) ;;
  let* files := reading (LocalResolver_resolve (_flat dependencies) versionRoot) in
  ret (this, {| files := files; dependencies := dependencies |}).

Definition build (this : t) : M (t * MaterialToolsData) :=
  let* got := _getData this in
  let this := fst got in
  let buildData := snd got in
  let* destination := path_arg (destination (options this)) in
  _makeDirectory destination ;;
  let filename := "LICENSE" in
  let source_path := path_join [root (files buildData); "module"; filename] in
  let destination_path := path_join [destination; filename] in
  fse_copy source_path destination_path ;;
  let* destinationFilename := path_arg (destinationFilename (options this)) in
  let base := path_join [destination; destinationFilename] in
  let minifiedJSName := base +:+ ".min.js" in
  let* js := reading (JSBuilder_build buildData minifiedJSName) in
  let* css := reading (CSSBuilder_build buildData) in
  let* license := _getLicense this (_flat (dependencies buildData)) in
  _writeFile (base +:+ ".js") (Some (source js)) (Some license) ;;
  _writeFile minifiedJSName (Some (compressed js)) (Some license) ;;
  _writeFile (minifiedJSName +:+ ".map") (map js) None ;;
  _writeFile (base +:+ ".css") (Some (source (layout css))) (Some license) ;;
  _writeFile (base +:+ ".min.css") (Some (compressed (layout css))) (Some license) ;;
  _writeFile (base +:+ "-no-layout.css") (Some (source (noLayout css))) (Some license) ;;
  _writeFile (base +:+ "-no-layout.min.css") (Some (compressed (noLayout css))) (Some license) ;;
  match theme (options this) with
  | Some _ =>
      let* compiledCSS := _buildStaticTheme this (files buildData) in
      let* themeStylesheet := lift (CSSBuilder_buildStylesheet compiledCSS) in
      _writeFile (base +:+ "-theme.min.css") (Some (compressed themeStylesheet)) (Some license) ;;
      _writeFile (base +:+ "-theme.css") (Some (source themeStylesheet)) (Some license) ;;
      ret (this, buildData)
  | None => ret (this, buildData)
  end.

(** [new MaterialTools(_options).build()]. *)
Definition run (_options : argument) : M (t * MaterialToolsData) :=
  let* this := constructor _options in
  build this.

End Class.
End MaterialTools.

(** ** LocalResolver

    [lib/resolvers/LocalResolver.ts] is imported by [MaterialTools.ts] and
    exercised by [tests/local-resolver.spec.ts].  The definitions below
    follow what the specification says of it, in sections 3 and 4.3. *)

Module LocalResolver.

(** Modelled from the spec: the two conventions that section 4.3 names
    without fixing them, where the directory of a module lies under the
    package root and which file names are those of theme stylesheets. *)
Class Conventions : Type := {
  module_directory : string -> string -> string;
  is_theme : string -> bool
}.

(** Modelled from the spec: [ResolvedModuleFiles], the JS paths, the
    style paths that are no theme stylesheets, and the theme stylesheet
    paths. *)
Record ResolvedModuleFiles : Type := {
  js : list string;
  css : list string;
  themes : list string
}.

(** [s.includes(pat)]. *)
Fixpoint contains (pat s : string) : bool :=
  String.prefix pat s ||
  match s with
  | String _ s' => contains pat s'
  | EmptyString => false
  end.

(** [s.endsWith(suffix)]. *)
Fixpoint ends_with (suffix s : string) : bool :=
  String.eqb suffix s ||
  match s with
  | String _ s' => ends_with suffix s'
  | EmptyString => false
  end.

(** Modelled from the spec: a file is minified when its name contains
    the marker [.min.], whatever its extension. *)
Definition minified (name : string) : bool := contains ".min." name.

(** Modelled from the spec: a JS source is a file with the extension
    [.js], a style source one with the extension [.css] or [.scss]. *)
Definition is_script (name : string) : bool := ends_with ".js" name.

Definition is_style (name : string) : bool :=
  ends_with ".css" name || ends_with ".scss" name.

(** Modelled from the spec: the path of a file of a module, its directory
    and its name. *)
Definition in_directory (dir name : string) : string := dir +:+ "/" +:+ name.

Section Resolve.

Context {conventions : Conventions}.

(** The file system the resolver looks at: for each directory that
    exists, the names of the files in it. *)
Variable tree : gmap string (list string).

(** Modelled from the spec: minified files are left out before anything
    else; the scripts and the style files of a module are taken from the
    rest. *)
Definition plain (names : list string) : list string :=
  List.filter (fun name => negb (minified name)) names.

Definition scripts (names : list string) : list string :=
  List.filter is_script (plain names).

Definition styles (names : list string) : list string :=
  List.filter is_style (plain names).

(** Modelled from the spec: the files of one module (4.3).  The
    directory must exist; exactly one file that is not minified must be
    a script; the style files that are not minified are split by the
    theme naming pattern, and there may be none. *)
Definition resolve_module (root id : string) : outcome ResolvedModuleFiles :=
  let dir := module_directory root id in
  match tree !! dir with
  | None => Throw (Rejected "ModuleDirectoryNotFoundError")
  | Some names =>
      match scripts names with
      | [script] =>
          Return {|
            js := [in_directory dir script];
            css := List.map (in_directory dir)
                     (List.filter (fun name => negb (is_theme name)) (styles names));
            themes := List.map (in_directory dir)
                        (List.filter is_theme (styles names))
          |}
      | _ => Throw (Rejected "InvalidModuleLayoutError")
      end
  end.

(** The files of two modules, one after the other. *)
Definition merge (a b : ResolvedModuleFiles) : ResolvedModuleFiles := {|
  js := js a ++ js b;
  css := css a ++ css b;
  themes := themes a ++ themes b
|}.

(** Modelled from the spec: the modules are resolved in the order of
    [moduleIds], the first failure aborts, and the lists are
    aggregated in that order. *)
Fixpoint resolve_modules (root : string) (moduleIds : list string)
  : outcome ResolvedModuleFiles :=
  match moduleIds with
  | [] => Return {| js := []; css := []; themes := [] |}
  | id :: rest =>
      bind (resolve_module root id) (fun first =>
      bind (resolve_modules root rest) (fun others =>
      Return (merge first others)))
  end.

(** Modelled from the spec: [resolve(moduleIds, packageRoot)], which
    fails when [packageRoot] does not exist. *)
Definition resolve (moduleIds : list string) (packageRoot : string)
  : outcome ResolvedModuleFiles :=
  match tree !! packageRoot with
  | None => Throw (Rejected "ModuleDirectoryNotFoundError")
  | Some _ => resolve_modules packageRoot moduleIds
  end.

End Resolve.

End LocalResolver.

(** ** Vocabulary of the properties *)

(** The text [a.b.c] followed by [suffix], for three characters. *)
Definition version_text (a b c : ascii) (suffix : string) : string :=
  String a (String "." (String b (String "." (String c suffix)))).

(** The text [-rc], a separator and the release-candidate number. *)
Definition rc_text (sep : ascii) (ds : string) : string :=
  String "-" (String "r" (String "c" (String sep ds))).

(** The key of a version with three single digits. *)
Definition plain_key (a b c : ascii) : N :=
  10 * (10 * digit_value a + digit_value b) + digit_value c.

(** The key computed from the integer [versionNumber] of the three digits
    and from [rcVersion]. *)
Definition rc_key (versionNumber : N) (rcVersion : number) : number :=
  if truthy rcVersion
  then add (sub (of_N versionNumber) (of_N 1))
           (div rcVersion (if gt rcVersion (of_N 9) then of_N 100 else of_N 1000))
  else of_N versionNumber.

(** A string made of decimal digits only. *)
Fixpoint all_digits (s : string) : bool :=
  match s with
  | String c s' => is_digit c && all_digits s'
  | EmptyString => true
  end.



(** A release as the specification orders it: the three numbers, and the
    number of the release candidate when it is one. *)
Record Release : Type := {
  release_major : N;
  release_minor : N;
  release_patch : N;
  release_candidate : option N
}.

(** The order of the specification: by the three numbers, and a release
    candidate before the release of the same numbers. *)
Definition precedes (v w : Release) : bool :=
  match (release_major v ?= release_major w)%N with
  | Lt => true
  | Gt => false
  | Eq =>
      match (release_minor v ?= release_minor w)%N with
      | Lt => true
      | Gt => false
      | Eq =>
          match (release_patch v ?= release_patch w)%N with
          | Lt => true
          | Gt => false
          | Eq =>
              match release_candidate v, release_candidate w with
              | Some n, Some m => (n <? m)%N
              | Some _, None => true
              | None, _ => false
              end
          end
      end
  end.

(** A string without a slash. *)
Fixpoint no_slash (s : string) : bool :=
  match s with
  | String c s' => negb (Ascii.eqb c "/") && no_slash s'
  | EmptyString => true
  end.

(** The files a run leaves behind, with their contents: the ones written
    with [writeFileSync] and the ones [copy] copies, each with what its
    source held when the copy was started. *)
Definition output (e : event) : option (string * string) :=
  match e with
  | WriteFile path content => Some (path, content)
  | Copy _ dst (Some content) => Some (dst, content)
  | _ => None
  end.

Definition outputs (events : list event) : list (string * string) :=
  omap output events.

(** A call to one of the three resolvers. *)
Definition is_resolution (e : event) : bool :=
  match e with
  | PackageResolve _ _ | DependencyResolve _ _ | LocalResolve _ _ => true
  | _ => false
  end.

(** [s] starts with [p]. *)
Definition starts_with (p s : string) : Prop := exists rest, s = p +:+ rest.

(** [s] contains [p]. *)
Definition has_infix (p s : string) : Prop := exists before after, s = before +:+ p +:+ after.

(** The static theme input in the words of the specification: the
    contents of the base files, selected by name among the resolved SCSS
    files, then the contents of all the theme files. *)
Definition is_base_name (quirk : bool) (name : string) : bool :=
  String.eqb name "variables.scss" || String.eqb name "mixins.scss" ||
  (quirk && String.eqb name "themes.scss").

Definition contents (disk : gmap string string) (paths : list string) : string :=
  String.concat "" (List.map (fun path => default "" (disk !! path)) paths).

Definition static_theme_input (basename : string -> string) (quirk : bool)
    (disk : gmap string string) (buildFiles : LocalBuildFiles) : string :=
  contents disk (List.filter (fun path => is_base_name quirk (basename path)) (scss buildFiles))
  +:+ contents disk (themes buildFiles).

(** The world after the files [paths] have been read. *)
Definition after_reading (paths : list string) (w : World) : World :=
  {| disk := disk w; now := now w; trace := trace w ++ List.map ReadFile paths |}.

(** The files written with [writeFileSync], with their contents. *)
Definition written (events : list event) : list (string * string) :=
  omap (fun e => match e with
                 | WriteFile path content => Some (path, content)
                 | _ => None
                 end) events.

(** The disk after the files [written] were written, in order. *)
Definition write_all (written : list (string * string)) (disk : gmap string string)
    : gmap string string :=
  List.fold_left (fun disk file => <[fst file := snd file]> disk) written disk.

(** The calls that write the files [written]. *)
Definition writes (written : list (string * string)) : list event :=
  List.map (fun file => WriteFile (fst file) (snd file)) written.

(** [_writeFile] on each of [files] in turn, as [build] calls it on the
    files of the bundle: the first write that the file system refuses
    ends the sequence. *)
Fixpoint write_files {collaborators : Collaborators} (files : list (string * string))
    : M unit :=
  match files with
  | [] => ret tt
  | file :: rest => writeFileSync (fst file) (snd file) ;; write_files rest
  end.


(** Two disks that hold the same at each of [paths]. *)
Definition agree_on (paths : list string) (d1 d2 : gmap string string) : Prop :=
  forall path, In path paths -> d1 !! path = d2 !! path.

(** The constructor is given no options, or options without a usable
    destination. *)
Definition without_destination {collaborators : Collaborators}
    (arg : MaterialTools.argument) : Prop :=
  match arg with
  | MaterialTools.Missing => True
  | MaterialTools.ConfigFile path =>
      path = "" \/
      exists o, require_config (path_resolve [path]) = Return o /\
                MaterialTools.truthy_string (destination o) = false
  | MaterialTools.Given o => MaterialTools.truthy_string (destination o) = false
  end.

(** The banner of a build: the lines of the license between the comment
    marks, joined by line feeds. *)
Definition banner (version : option string) (modules : list string) (year : N) : string :=
  join LF ("/*!" :: List.map (fun line => " * " +:+ line)
                             (MaterialTools.license_lines version modules year)
                 ++ [" */"; LF]).

(** ** A package on disk, for the examples *)

Module Fixture.

Fixpoint basename_from (s acc : string) : string :=
  match s with
  | String c s' =>
      if Ascii.eqb c "/" then basename_from s' "" else basename_from s' (acc +:+ String c "")
  | EmptyString => acc
  end.

Definition basename (p : string) : string := basename_from p "".

Definition dirname (p : string) : string :=
  String.substring 0 (String.length p - String.length (basename p) - 1) p.

(** Enough of Node's [path] for absolute, normalised paths. *)
Definition resolve (parts : list string) : string :=
  match parts with
  | [p; "../"] => dirname p
  | _ => join "/" parts
  end.

Definition buildFiles (root : string) : LocalBuildFiles := {|
  root := root;
  js := ["/pkg/module/modules/js/core/core.js";
         "/pkg/module/modules/js/tooltip/tooltip.js"];
  css := ["/pkg/module/modules/js/core/core.css";
          "/pkg/module/modules/js/tooltip/tooltip.css"];
  scss := ["/pkg/module/modules/scss/variables.scss";
           "/pkg/module/modules/scss/mixins.scss";
           "/pkg/module/modules/scss/themes.scss";
           "/pkg/module/modules/scss/layout.scss"];
  themes := ["/pkg/module/modules/js/core/core-default-theme.scss";
             "/pkg/module/modules/js/tooltip/tooltip-default-theme.scss"]
|}.

(** Collaborators that succeed: the package resolver finds the version
    asked for under [/pkg/module] and notes the fetch in its cache, the
    builders join the contents of the resolved files, and the file system
    takes writes into [/out] and refuses those below it, where no
    directory was made. *)
#[export] Instance collaborators : Collaborators := {|
  MdTheme := string;
  ThemingBuilder := string;
  ThemingBuilder_new := fun theme => Return theme;
  ThemingBuilder_build := fun builder css => Return ("[" +:+ builder +:+ "]" +:+ css);
  PackageResolver_resolve := fun version cache d =>
    (Return {| resolvedVersion := to_string version; moduleRoot := "/pkg/module" |},
     <[to_string cache +:+ to_string version := "fetched"]> d);
  DependencyResolver_resolve := fun _ modules _ =>
    Return {| _flat := "core" :: default [] modules |};
  LocalResolver_resolve := fun _ root _ => Return (buildFiles root);
  JSBuilder_build := fun data name d =>
    Return {| source := contents d (js (files data));
              compressed := "min(" +:+ contents d (js (files data)) +:+ ")";
              map := Some ("{file:" +:+ name +:+ "}") |};
  CSSBuilder_build := fun data d =>
    Return {| layout := {| source := contents d (css (files data)) +:+ ".layout{}";
                           compressed := "min(" +:+ contents d (css (files data)) +:+ ")";
                           map := None |};
              noLayout := {| source := contents d (css (files data));
                             compressed := "min(" +:+ contents d (css (files data)) +:+ ")";
                             map := None |} |};
  CSSBuilder_buildStylesheet := fun css =>
    Return {| source := to_string css; compressed := "min:" +:+ to_string css; map := None |};
  CSSBuilder_compileSCSS := fun scss => Return ("css(" +:+ scss +:+ ")");
  path_join := join "/";
  path_resolve := resolve;
  path_basename := basename;
  require_config := fun _ => Throw (Error "Cannot find module");
  fse_mkdirp := fun _ => None;
  fse_writeFileSync := fun _ path =>
    if String.eqb (dirname path) "/out" then None else Some (Error "ENOENT")
|}.

Definition package : gmap string string :=
  list_to_map
    [("/pkg/module/LICENSE", "The MIT License");
     ("/pkg/module/modules/js/core/core.js", "core();");
     ("/pkg/module/modules/js/tooltip/tooltip.js", "tooltip();");
     ("/pkg/module/modules/js/core/core.css", "a{}");
     ("/pkg/module/modules/js/tooltip/tooltip.css", ".tip{}");
     ("/pkg/module/modules/scss/variables.scss", "$v;");
     ("/pkg/module/modules/scss/mixins.scss", "@m;");
     ("/pkg/module/modules/scss/themes.scss", "@t;");
     ("/pkg/module/modules/scss/layout.scss", "@l;");
     ("/pkg/module/modules/js/core/core-default-theme.scss", ".core{}");
     ("/pkg/module/modules/js/tooltip/tooltip-default-theme.scss", ".tip{}")].

Definition world (year : N) : World := {|
  disk := package;
  now := {| fullYear := year; month := 6; day := 15; milliseconds := 0 |};
  trace := []
|}.

(** The disk after the package resolver has fetched [version]. *)
Definition fetched (version : string) : gmap string string :=
  <["./.material-cache/" +:+ version := "fetched"]> package.



(** Options with a destination, a version and possibly a theme. *)
Definition options (version : string) (theme : option string) : MaterialToolsOptions string := {|
  destination := Some "/out";
  modules := Some ["tooltip"];
  version := Some version;
  theme := theme;
  mainFilename := None;
  cache := None;
  destinationFilename := None
|}.

(** Options that lack nothing but the destination. *)
Definition options_without_destination : MaterialToolsOptions string := {|
  destination := None;
  modules := Some ["tooltip"];
  version := Some "1.1.0";
  theme := Some "indigo";
  mainFilename := None;
  cache := None;
  destinationFilename := Some "material"
|}.

(** An instance as the constructor leaves it, for a given version. *)
Definition instance (version : string) (theme : option string) : MaterialTools.t := {|
  MaterialTools.options :=
    MaterialTools.set_destination "/out" (MaterialTools.with_defaults (options version theme));
  MaterialTools.themeBuilder := theme
|}.

(** What a build of that instance returns: the instance with the
    version resolved, and the resolved data. *)
Definition built (version : string) (theme : option string) : MaterialTools.t := {|
  MaterialTools.options :=
    MaterialTools.set_version version (MaterialTools.options (instance version theme));
  MaterialTools.themeBuilder := theme
|}.

Definition data : MaterialToolsData := {|
  files := buildFiles "/pkg";
  dependencies := {| _flat := ["core"; "tooltip"] |}
|}.

(** The same instance, whose bundle is to go into a directory below the
    destination. *)
Definition nested (version : string) (theme : option string) : MaterialTools.t := {|
  MaterialTools.options :=
    {| destination := Some "/out";
       modules := Some ["tooltip"];
       version := Some version;
       theme := theme;
       mainFilename := Some "angular-material.js";
       cache := Some "./.material-cache/";
       destinationFilename := Some "sub/angular-material" |};
  MaterialTools.themeBuilder := theme
|}.

(** A directory tree for the local resolver: a module with minified and
    plain files, one without style, one without script. *)
#[export] Instance conventions : LocalResolver.Conventions := {|
  LocalResolver.module_directory := fun root id => root +:+ "/" +:+ id;
  LocalResolver.is_theme := fun name =>
    LocalResolver.ends_with "-theme.css" name || LocalResolver.ends_with "-theme.scss" name
|}.

Definition tree : gmap string (list string) :=
  list_to_map
    [("/fixtures", []);
     ("/fixtures/tooltip",
      ["tooltip.js"; "tooltip.min.js"; "tooltip.css"; "tooltip.min.css";
       "tooltip-default-theme.css"; "tooltip-default-theme.min.css"]);
     ("/fixtures/noCSS", ["noCSS.js"; "noCSS.min.js"]);
     ("/fixtures/noJS", ["noJS.css"; "noJS.min.js"])].

(** The same module under a root whose name holds the marker. *)
Definition marked_tree : gmap string (list string) :=
  list_to_map
    [("/pkg.min.d", []);
     ("/pkg.min.d/tooltip", ["tooltip.js"; "tooltip.min.js"; "tooltip.css"; "tooltip.min.css"])].

End Fixture.

(** ** Vocabulary of the further properties *)

(** What [_getVersionNumber] adds to [versionNumber - 1] for the
    release-candidate number [n]: [n / 1000] up to 9, [n / 100] beyond. *)
Definition rc_fraction (n : N) : Q :=
  (inject_Z (Z.of_N n) / (if (9 <? n)%N then inject_Z 100 else inject_Z 1000))%Q.

(** The text after the patch number of a release: nothing for a final
    release, [-rc.ds] or [-rc-ds] for the candidate whose number [ds]
    reads. *)
Definition suffix_of (candidate : option N) (suffix : string) : Prop :=
  match candidate with
  | None => suffix = ""
  | Some n =>
      exists sep ds,
        suffix = rc_text sep ds /\ (sep = "."%char \/ sep = "-"%char) /\
        all_digits ds = true /\ parseInt (Some ds) = of_N n
  end.

(** The release written with the digits [a], [b], [c]. *)
Definition release_of (a b c : ascii) (candidate : option N) : Release :=
  {| release_major := digit_value a;
     release_minor := digit_value b;
     release_patch := digit_value c;
     release_candidate := candidate |}.

(** A string without any decimal digit. *)
Fixpoint no_digit (s : string) : bool :=
  match s with
  | String c s' => negb (is_digit c) && no_digit s'
  | EmptyString => true
  end.

(** The seven bundle files of a build with their contents, in the order
    [build] writes them. *)
Definition bundle_files (base license : string) (js : MaterialToolsOutput)
    (css : CSSBuildOutput) : list (string * string) :=
  [(base +:+ ".js", license +:+ source js);
   (base +:+ ".min.js", license +:+ compressed js);
   ((base +:+ ".min.js") +:+ ".map", to_string (map js));
   (base +:+ ".css", license +:+ source (layout css));
   (base +:+ ".min.css", license +:+ compressed (layout css));
   (base +:+ "-no-layout.css", license +:+ source (noLayout css));
   (base +:+ "-no-layout.min.css", license +:+ compressed (noLayout css))].

(** The two theme files of a build with their contents, in the order
    [build] writes them. *)
Definition theme_files (base license : string) (sheet : MaterialToolsOutput)
    : list (string * string) :=
  [(base +:+ "-theme.min.css", license +:+ compressed sheet);
   (base +:+ "-theme.css", license +:+ source sheet)].

(** The names of these files. *)
Definition bundle_names (base : string) : list string :=
  [base +:+ ".js"; base +:+ ".min.js"; (base +:+ ".min.js") +:+ ".map";
   base +:+ ".css"; base +:+ ".min.css";
   base +:+ "-no-layout.css"; base +:+ "-no-layout.min.css"].

Definition theme_names (base : string) : list string :=
  [base +:+ "-theme.min.css"; base +:+ "-theme.css"].

(** ** Collaborators that fail, for the examples *)

Module Faulty.

(** The collaborators of the package on disk, of which the package
    resolver, [mkdirp] or the JS builder fail when asked to. *)
Definition collaborators (package_fails mkdirp_fails js_fails : bool) : Collaborators := {|
  MdTheme := string;
  ThemingBuilder := string;
  ThemingBuilder_new := @ThemingBuilder_new Fixture.collaborators;
  ThemingBuilder_build := @ThemingBuilder_build Fixture.collaborators;
  PackageResolver_resolve := fun version cache d =>
    if package_fails then (Throw (Rejected "VersionNotFoundError"), d)
    else @PackageResolver_resolve Fixture.collaborators version cache d;
  DependencyResolver_resolve := @DependencyResolver_resolve Fixture.collaborators;
  LocalResolver_resolve := @LocalResolver_resolve Fixture.collaborators;
  JSBuilder_build := fun data name d =>
    if js_fails then Throw (Rejected "MinificationError")
    else @JSBuilder_build Fixture.collaborators data name d;
  CSSBuilder_build := @CSSBuilder_build Fixture.collaborators;
  CSSBuilder_buildStylesheet := @CSSBuilder_buildStylesheet Fixture.collaborators;
  CSSBuilder_compileSCSS := @CSSBuilder_compileSCSS Fixture.collaborators;
  path_join := @path_join Fixture.collaborators;
  path_resolve := @path_resolve Fixture.collaborators;
  path_basename := @path_basename Fixture.collaborators;
  require_config := @require_config Fixture.collaborators;
  fse_mkdirp := fun _ => if mkdirp_fails then Some (Error "EACCES") else None;
  fse_writeFileSync := @fse_writeFileSync Fixture.collaborators
|}.

(** An instance for version 1.0.9 without theme, as the constructor
    leaves it. *)
Definition instance (package_fails mkdirp_fails js_fails : bool)
  : @MaterialTools.t (collaborators package_fails mkdirp_fails js_fails) :=
  @MaterialTools.Build_t (collaborators package_fails mkdirp_fails js_fails)
    (MaterialTools.options (Fixture.instance "1.0.9" None)) None.

End Faulty.

(** The three resolver calls of [_getData], in the order they are made. *)
Definition resolution_calls {collaborators : Collaborators}
    (o : MaterialToolsOptions MdTheme) (versionData : VersionData) (entryName : string)
    (resolved : Dependencies) : list event :=
  [PackageResolve (version o) (cache o);
   DependencyResolve (path_join [moduleRoot versionData; entryName]) (modules o);
   LocalResolve (_flat resolved) (path_resolve [moduleRoot versionData; "../"])].

(** A path under the bundle: it starts with the destination joined with
    the file name. *)
Definition under_destination {collaborators : Collaborators}
    (o : MaterialToolsOptions MdTheme) (path : string) : Prop :=
  exists dest name,
    destination o = Some dest /\ destinationFilename o = Some name /\
    starts_with (path_join [dest; name]) path.

(** * Properties *)

(** ** The version key *)

Section VersionKey.

Context {collaborators : Collaborators}.
Variable this : MaterialTools.t.

Lemma exec_match_here (s : string) (found : list (option string)) :
  VersionRegex.match_here s = Some found -> VersionRegex.exec s = Some found.
Proof.
  intros H. destruct s; simpl in *; rewrite H; reflexivity.
Qed.

Lemma exec_skip (c : ascii) (s : string) :
  VersionRegex.match_here (String c s) = None ->
  VersionRegex.exec (String c s) = VersionRegex.exec s.
Proof.
  intros H. change (VersionRegex.exec (String c s)) with
    (match VersionRegex.match_here (String c s) with
     | Some m => Some m
     | None => VersionRegex.exec s
     end).
  rewrite H. reflexivity.
Qed.

(** At three single digits separated by dots the pattern matches at
    once, whatever follows. *)
Lemma exec_version_text (a b c : ascii) (suffix : string) :
  is_digit a = true -> is_digit b = true -> is_digit c = true ->
  VersionRegex.exec (version_text a b c suffix) =
    Some [Some (version_text a b c (fst (VersionRegex.rc_suffix suffix)));
          Some (String a ""); Some (String b ""); Some (String c "");
          snd (VersionRegex.rc_suffix suffix)].
Proof.
  intros Ha Hb Hc. apply exec_match_here.
  unfold version_text. cbn [VersionRegex.match_here].
  rewrite Ha, Hb, Hc. cbn [andb].
  destruct (VersionRegex.rc_suffix suffix); reflexivity.
Qed.

Lemma parseInt_three_digits (a b c : ascii) :
  is_digit a = true -> is_digit b = true -> is_digit c = true ->
  parseInt (Some (join "" [String a ""; String b ""; String c ""])) = of_N (plain_key a b c).
Proof.
  intros Ha Hb Hc. unfold parseInt, plain_key. cbv [join String.append].
  cbn [read_digits]. rewrite Ha, Hb, Hc. cbn. reflexivity.
Qed.

Lemma getVersionNumber_version_text (a b c : ascii) (suffix : string) :
  is_digit a = true -> is_digit b = true -> is_digit c = true ->
  MaterialTools._getVersionNumber this (Some (version_text a b c suffix)) =
    Return (rc_key (plain_key a b c) (parseInt (snd (VersionRegex.rc_suffix suffix)))).
Proof.
  intros Ha Hb Hc. unfold MaterialTools._getVersionNumber.
  cbn [MaterialTools.or_default].
  rewrite exec_version_text by assumption.
  cbn [skipn firstn nth List.map MaterialTools.element_text].
  rewrite parseInt_three_digits by assumption. reflexivity.
Qed.

Lemma take_digits_all (ds : string) :
  all_digits ds = true -> VersionRegex.take_digits ds = ds.
Proof.
  induction ds as [|c ds IH]; simpl; [reflexivity|].
  intros H. apply andb_prop in H as [Hc Hds]. rewrite Hc, IH by assumption. reflexivity.
Qed.

Lemma rc_suffix_rc_text (sep : ascii) (ds : string) :
  VersionRegex.is_line_terminator sep = false ->
  all_digits ds = true -> ds <> "" ->
  VersionRegex.rc_suffix (rc_text sep ds) = (rc_text sep ds, Some ds).
Proof.
  intros Hsep Hds Hne. unfold rc_text. cbn [VersionRegex.rc_suffix].
  rewrite Hsep. cbn [negb orb]. rewrite take_digits_all by assumption.
  destruct ds; [contradiction|reflexivity].
Qed.

(** Numbers. *)
Lemma lt_rc_key_small (V n : N) :
  (1 <= n <= 99)%N -> lt (rc_key V (of_N n)) (of_N V) = true.
Proof.
  intros [Hlo Hhi]. unfold rc_key, truthy, gt, lt, add, sub, div, of_N.
  assert (Hq1 : (1 <= inject_Z (Z.of_N n))%Q)
    by (rewrite <- (Zle_Qle 1); lia).
  assert (Hq2 : (inject_Z (Z.of_N n) <= 99)%Q)
    by (rewrite <- (Zle_Qle _ 99); lia).
  set (q := inject_Z (Z.of_N n)) in *. set (v := inject_Z (Z.of_N V)).
  change (inject_Z (Z.of_N 1)) with 1%Q. change (inject_Z (Z.of_N 9)) with 9%Q.
  change (inject_Z (Z.of_N 100)) with 100%Q. change (inject_Z (Z.of_N 1000)) with 1000%Q.
  destruct (Qeq_bool q 0) eqn:E0.
  { apply Qeq_bool_iff in E0. lra. }
  cbn [negb].
  destruct (Qle_bool q 9) eqn:E9; cbn [negb];
    match goal with
    | |- context [Qeq_bool ?c 0] => change (Qeq_bool c 0) with false
    end; cbv iota;
    destruct (Qle_bool v _) eqn:E; [apply Qle_bool_iff in E|reflexivity|apply Qle_bool_iff in E|reflexivity].
  - unfold Qdiv in E. change (/ 1000)%Q with (1 # 1000)%Q in E. lra.
  - unfold Qdiv in E. change (/ 100)%Q with (1 # 100)%Q in E. lra.
Qed.

Lemma lt_rc_key_large (V n : N) :
  (100 <= n)%N -> lt (rc_key V (of_N n)) (of_N V) = false.
Proof.
  intros Hlo. unfold rc_key, truthy, gt, lt, add, sub, div, of_N.
  assert (Hq1 : (100 <= inject_Z (Z.of_N n))%Q)
    by (rewrite <- (Zle_Qle 100); lia).
  set (q := inject_Z (Z.of_N n)) in *. set (v := inject_Z (Z.of_N V)).
  change (inject_Z (Z.of_N 1)) with 1%Q. change (inject_Z (Z.of_N 9)) with 9%Q.
  change (inject_Z (Z.of_N 100)) with 100%Q. change (inject_Z (Z.of_N 1000)) with 1000%Q.
  destruct (Qeq_bool q 0) eqn:E0.
  { apply Qeq_bool_iff in E0. lra. }
  cbn [negb].
  destruct (Qle_bool q 9) eqn:E9.
  { apply Qle_bool_iff in E9. lra. }
  cbn [negb]. change (Qeq_bool 100 0) with false. cbv iota.
  destruct (Qle_bool v _) eqn:E; [reflexivity|].
  assert (Hle : (v <= v - 1 + q / 100)%Q).
  { unfold Qdiv. change (/ 100)%Q with (1 # 100)%Q. lra. }
  apply Qle_bool_iff in Hle. congruence.
Qed.

(** *** Where the pattern finds nothing *)

Lemma match_here_inv (s : string) (found : list (option string)) :
  VersionRegex.match_here s = Some found ->
  exists a b c rest,
    s = version_text a b c rest /\
    is_digit a = true /\ is_digit b = true /\ is_digit c = true.
Proof.
  intros H.
  destruct s as [|a [|d1 [|b [|d2 [|c rest]]]]]; try discriminate H.
  all: destruct d1 as [[] [] [] [] [] [] [] []]; try discriminate H.
  all: destruct d2 as [[] [] [] [] [] [] [] []]; try discriminate H.
  cbn [VersionRegex.match_here] in H.
  destruct (is_digit a) eqn:Ha, (is_digit b) eqn:Hb, (is_digit c) eqn:Hc;
    try discriminate H.
  exists a, b, c, rest. repeat split; (reflexivity || assumption).
Qed.

End VersionKey.


Section NoMatch.


Lemma append_cons (c : ascii) (s t : string) : String c s +:+ t = String c (s +:+ t).
Proof. reflexivity. Qed.

Lemma append_nil (t : string) : "" +:+ t = t.
Proof. reflexivity. Qed.






End NoMatch.


Section VersionOrder.

Context {collaborators : Collaborators}.
Variable this : MaterialTools.t.

(** The key of a release candidate [a.b.c-rc.n] with [1 <= n <= 99] lies
    strictly below the key of [a.b.c]. *)
Lemma rc_key_below_final (a b c sep : ascii) (ds : string) (n : N) :
  is_digit a = true -> is_digit b = true -> is_digit c = true ->
  sep = "."%char \/ sep = "-"%char ->
  all_digits ds = true -> parseInt (Some ds) = of_N n -> (1 <= n <= 99)%N ->
  exists candidate final,
    MaterialTools._getVersionNumber this (Some (version_text a b c (rc_text sep ds)))
      = Return candidate /\
    MaterialTools._getVersionNumber this (Some (version_text a b c "")) = Return final /\
    lt candidate final = true.
Proof.
  intros Ha Hb Hc Hsep Hds Hn Hrange.
  assert (Hne : ds <> "") by (intros ->; discriminate Hn).
  rewrite !getVersionNumber_version_text by assumption.
  rewrite rc_suffix_rc_text by (try assumption; destruct Hsep as [->| ->]; reflexivity).
  cbn [snd]. rewrite Hn. do 2 eexists. repeat split.
  change (parseInt (snd (VersionRegex.rc_suffix ""))) with NaN.
  apply lt_rc_key_small, Hrange.
Qed.

(** From [n = 100] on the key of [a.b.c-rc.n] is no longer below the key
    of [a.b.c]. *)
Lemma rc_key_not_below_final (a b c sep : ascii) (ds : string) (n : N) :
  is_digit a = true -> is_digit b = true -> is_digit c = true ->
  sep = "."%char \/ sep = "-"%char ->
  all_digits ds = true -> parseInt (Some ds) = of_N n -> (100 <= n)%N ->
  exists candidate final,
    MaterialTools._getVersionNumber this (Some (version_text a b c (rc_text sep ds)))
      = Return candidate /\
    MaterialTools._getVersionNumber this (Some (version_text a b c "")) = Return final /\
    lt candidate final = false.
Proof.
  intros Ha Hb Hc Hsep Hds Hn Hrange.
  assert (Hne : ds <> "") by (intros ->; discriminate Hn).
  rewrite !getVersionNumber_version_text by assumption.
  rewrite rc_suffix_rc_text by (try assumption; destruct Hsep as [->| ->]; reflexivity).
  cbn [snd]. rewrite Hn. do 2 eexists. repeat split.
  change (parseInt (snd (VersionRegex.rc_suffix ""))) with NaN.
  apply lt_rc_key_large, Hrange.
Qed.

(** The three versions the specification orders. *)
Lemma version_order_examples :
  exists k1 k2 k3,
    MaterialTools._getVersionNumber this (Some "1.1.0-rc.1") = Return k1 /\
    MaterialTools._getVersionNumber this (Some "1.1.0") = Return k2 /\
    MaterialTools._getVersionNumber this (Some "1.2.0") = Return k3 /\
    lt k1 k2 = true /\ lt k2 k3 = true.
Proof. do 3 eexists. repeat split; vm_compute; reflexivity. Qed.

(** C1, at the input where the code leaves it: the key of [1.1.0-rc.100]
    is computed, and it is equal to the key of [1.1.0], not below it. *)
Theorem rc_100_key_equals_final :
  exists candidate final,
    MaterialTools._getVersionNumber this (Some "1.1.0-rc.100") = Return candidate /\
    MaterialTools._getVersionNumber this (Some "1.1.0") = Return final /\
    lt candidate final = false /\ strict_eq candidate final = true.
Proof. do 2 eexists. repeat split; vm_compute; reflexivity. Qed.


End VersionOrder.

(** The key of [1.1.0-rc.12] lies below the key of [1.1.0]. *)
Example rc_12_key_below_final :
  exists candidate final,
    MaterialTools._getVersionNumber (Fixture.instance "node" None)
      (Some (version_text "1" "1" "0" (rc_text "." "12"))) = Return candidate /\
    MaterialTools._getVersionNumber (Fixture.instance "node" None)
      (Some (version_text "1" "1" "0" "")) = Return final /\
    lt candidate final = true.
Proof.
  apply (rc_key_below_final _ "1" "1" "0" "." "12" 12%N); try reflexivity; try lia.
  left. reflexivity.
Qed.



(** C2, at inputs where the code leaves it.  [1.1.0-rc.100] precedes
    [1.1.0], and [themes.scss] is not in the base set; [10.0.0] follows
    [1.1.0], and [themes.scss] is in the base set; for [0.10.0], which
    precedes [1.1.0], no base set is computed at all. *)
Theorem themes_scss_quirk_misfires :
  MaterialTools.baseSCSSFiles (Fixture.instance "1.1.0-rc.100" (Some "indigo"))
    = Return ["variables.scss"; "mixins.scss"] /\
  MaterialTools.baseSCSSFiles (Fixture.instance "10.0.0" (Some "indigo"))
    = Return ["variables.scss"; "mixins.scss"; "themes.scss"] /\
  MaterialTools.baseSCSSFiles (Fixture.instance "0.10.0" (Some "indigo"))
    = Throw (TypeError "Cannot read property 'slice' of null").
Proof. repeat split; vm_compute; reflexivity. Qed.

(** ** Running a computation *)

Section Running.

Context {collaborators : Collaborators}.

Lemma bind_returns {A B} (c : M A) (k : A -> M B) (w w' : World) (b : B) :
  and_then c k w = (Return b, w') ->
  exists a w1, c w = (Return a, w1) /\ k a w1 = (Return b, w').
Proof.
  unfold and_then. destruct (c w) as [[a|e] w1]; [|discriminate].
  intros H. exists a, w1. split; [reflexivity|exact H].
Qed.

Lemma bind_throws {A B} (c : M A) (k : A -> M B) (w w' : World) (e : error) :
  c w = (Throw e, w') -> and_then c k w = (Throw e, w').
Proof. unfold and_then. intros ->. reflexivity. Qed.

Lemma bind_continues {A B} (c : M A) (k : A -> M B) (w w1 : World) (a : A) :
  c w = (Return a, w1) -> and_then c k w = k a w1.
Proof. unfold and_then. intros ->. reflexivity. Qed.

Lemma ret_returns {A} (a b : A) (w w' : World) :
  ret a w = (Return b, w') -> b = a /\ w' = w.
Proof. unfold ret. intros H. injection H as -> ->. split; reflexivity. Qed.

Lemma throw_returns {A} (e : error) (b : A) (w w' : World) :
  throw e w = (Return b, w') -> False.
Proof. discriminate. Qed.

Lemma lift_returns {A} (x : outcome A) (a : A) (w w' : World) :
  lift x w = (Return a, w') -> x = Return a /\ w' = w.
Proof. unfold lift. intros H. injection H as -> ->. split; reflexivity. Qed.

Lemma emit_returns (e : event) (u : unit) (w w' : World) :
  emit e w = (Return u, w') -> w' = record e w.
Proof. unfold emit. intros H. injection H as _ ->. reflexivity. Qed.

Lemma path_arg_returns (x : option string) (s : string) (w w' : World) :
  path_arg x w = (Return s, w') -> x = Some s /\ w' = w.
Proof.
  destruct x as [s'|]; [|discriminate]. cbn. intros H.
  injection H as -> ->. split; reflexivity.
Qed.

Lemma reading_returns {A} (f : gmap string string -> outcome A) (a : A) (w w' : World) :
  reading f w = (Return a, w') -> f (disk w) = Return a /\ w' = w.
Proof. unfold reading. intros H. injection H as -> ->. split; reflexivity. Qed.

Lemma updating_returns {A} (f : gmap string string -> outcome A * gmap string string)
      (a : A) (w w' : World) :
  updating f w = (Return a, w') ->
  fst (f (disk w)) = Return a /\ w' = with_disk (snd (f (disk w))) w.
Proof. unfold updating. intros H. injection H as -> ->. split; reflexivity. Qed.

(** A write that returns was not refused. *)
Lemma writeFileSync_returns (path content : string) (u : unit) (w w' : World) :
  writeFileSync path content w = (Return u, w') ->
  fse_writeFileSync (disk w) path = None /\
  w' = record (WriteFile path content) (store path content w).
Proof.
  unfold writeFileSync. destruct (fse_writeFileSync (disk w) path); [discriminate|].
  intros H. injection H as _ ->. split; reflexivity.
Qed.

Lemma fse_copy_returns (src dst : string) (u : unit) (w w' : World) :
  fse_copy src dst w = (Return u, w') ->
  w' = record (Copy src dst (disk w !! src)) w.
Proof. unfold fse_copy. intros H. injection H as _ ->. reflexivity. Qed.

Lemma outputs_app (xs ys : list event) : outputs (xs ++ ys) = outputs xs ++ outputs ys.
Proof. apply omap_app. Qed.

Lemma outputs_cons (e : event) (es : list event) :
  outputs (e :: es) =
    match output e with
    | Some o => o :: outputs es
    | None => outputs es
    end.
Proof. reflexivity. Qed.

Lemma outputs_reads (paths : list string) : outputs (List.map ReadFile paths) = [].
Proof. induction paths; [reflexivity|assumption]. Qed.

Lemma outputs_writes (files : list (string * string)) : outputs (writes files) = files.
Proof.
  induction files as [|[path content] files IH]; [reflexivity|].
  cbn [writes List.map]. rewrite outputs_cons. cbn [output fst snd].
  f_equal. exact IH.
Qed.

Lemma written_app (xs ys : list event) : written (xs ++ ys) = written xs ++ written ys.
Proof. apply omap_app. Qed.

Lemma written_reads (paths : list string) : written (List.map ReadFile paths) = [].
Proof. induction paths; [reflexivity|assumption]. Qed.

Lemma written_writes (files : list (string * string)) : written (writes files) = files.
Proof.
  induction files as [|[path content] files IH]; [reflexivity|].
  cbn [writes List.map fst snd]. unfold written. cbn [omap list_omap].
  f_equal. exact IH.
Qed.

Lemma write_all_app (xs ys : list (string * string)) (d : gmap string string) :
  write_all (xs ++ ys) d = write_all ys (write_all xs d).
Proof. apply fold_left_app. Qed.

(** Writing leaves the paths it does not name as they were. *)
Lemma write_all_other (files : list (string * string)) (d : gmap string string)
      (path : string) :
  ~ In path (List.map fst files) -> write_all files d !! path = d !! path.
Proof.
  revert d. induction files as [|[p c] files IH]; intros d Hnot; [reflexivity|].
  cbn [write_all List.fold_left fst snd]. change (List.fold_left _ files ?x) with (write_all files x).
  rewrite IH by (intros Hin; apply Hnot; right; exact Hin).
  apply lookup_insert_ne. intros ->. apply Hnot. left. reflexivity.
Qed.


Lemma agree_on_app (xs ys : list string) (d1 d2 : gmap string string) :
  agree_on (xs ++ ys) d1 d2 <-> agree_on xs d1 d2 /\ agree_on ys d1 d2.
Proof.
  unfold agree_on. split.
  - intros H. split; intros path Hin; apply H, in_or_app; [left|right]; exact Hin.
  - intros [Hx Hy] path [Hin|Hin]%in_app_or; [apply Hx|apply Hy]; exact Hin.
Qed.

(** The fields of a world, one by one. *)
Lemma world_eq (w1 w2 : World) :
  disk w1 = disk w2 -> now w1 = now w2 -> trace w1 = trace w2 -> w1 = w2.
Proof. destruct w1, w2. cbn. intros -> -> ->. reflexivity. Qed.

Lemma disk_record (e : event) (w : World) : disk (record e w) = disk w.
Proof. reflexivity. Qed.

Lemma disk_store (path content : string) (w : World) :
  disk (store path content w) = <[path := content]> (disk w).
Proof. reflexivity. Qed.

Lemma now_record (e : event) (w : World) : now (record e w) = now w.
Proof. reflexivity. Qed.

Lemma now_store (path content : string) (w : World) : now (store path content w) = now w.
Proof. reflexivity. Qed.

Lemma trace_record (e : event) (w : World) : trace (record e w) = trace w ++ [e].
Proof. reflexivity. Qed.

Lemma trace_store (path content : string) (w : World) :
  trace (store path content w) = trace w.
Proof. reflexivity. Qed.

(** The writes of a list of files: all of them, or the ones before the
    first that the file system refuses. *)
Lemma write_files_run (files : list (string * string)) (w : World) :
  write_files files w =
    (Return tt,
     {| disk := write_all files (disk w); now := now w;
        trace := trace w ++ writes files |}) \/
  exists done failed rest e,
    files = done ++ failed :: rest /\
    fse_writeFileSync (write_all done (disk w)) (fst failed) = Some e /\
    write_files files w =
      (Throw e,
       {| disk := write_all done (disk w); now := now w;
          trace := trace w ++ writes done ++ [FailedWrite (fst failed)] |}).
Proof.
  revert w. induction files as [|file files IH]; intros [d n t].
  - left. cbn. rewrite app_nil_r. reflexivity.
  - cbn [write_files]. unfold and_then, writeFileSync. cbn [disk].
    destruct (fse_writeFileSync d (fst file)) as [e|] eqn:Hverdict.
    + right. exists [], file, files, e. repeat split; assumption.
    + destruct (IH (record (WriteFile (fst file) (snd file))
                           (store (fst file) (snd file) {| disk := d; now := n; trace := t |})))
        as [Hall|(done & failed & rest & e & -> & Hrefused & Hrun)].
      * left. rewrite Hall. cbn [record store disk now trace write_all List.fold_left writes
                                  List.map].
        rewrite <- app_assoc. reflexivity.
      * right. exists (file :: done), failed, rest, e.
        split; [reflexivity|]. split; [exact Hrefused|].
        rewrite Hrun. cbn [record store disk now trace write_all List.fold_left writes
                           List.map].
        rewrite <- !app_assoc. reflexivity.
Qed.

(** Writes that the file system takes. *)
Lemma write_files_accepted (files : list (string * string)) (w : World) :
  (forall d path, In path (List.map fst files) -> fse_writeFileSync d path = None) ->
  write_files files w =
    (Return tt,
     {| disk := write_all files (disk w); now := now w;
        trace := trace w ++ writes files |}).
Proof.
  intros Haccepted.
  destruct (write_files_run files w)
    as [Hall|(done & failed & rest & e & -> & Hrefused & _)]; [exact Hall|].
  rewrite Haccepted in Hrefused; [discriminate Hrefused|].
  rewrite map_app. apply in_or_app. right. left. reflexivity.
Qed.

Lemma append_assoc (s t u : string) : (s +:+ t) +:+ u = s +:+ t +:+ u.
Proof. induction s as [|c s IH]; [reflexivity|]. rewrite !append_cons, IH. reflexivity. Qed.

Lemma append_nil_r (s : string) : s +:+ "" = s.
Proof. induction s as [|c s IH]; [reflexivity|]. rewrite append_cons, IH. reflexivity. Qed.

Lemma has_infix_refl (s : string) : has_infix s s.
Proof. exists "", "". rewrite append_nil_r. reflexivity. Qed.

Lemma has_infix_append (p before after s : string) :
  has_infix p s -> has_infix p (before +:+ s +:+ after).
Proof.
  intros (b & a & ->). exists (before +:+ b), (a +:+ after).
  rewrite !append_assoc. reflexivity.
Qed.

(** Every element of an array is part of its [join]. *)
Lemma join_has_infix (sep x : string) (xs : list string) :
  In x xs -> has_infix x (join sep xs).
Proof.
  induction xs as [|y [|z rest] IH]; [contradiction| |].
  - intros [->|[]]. apply has_infix_refl.
  - intros [->|Hin].
    + exists "", (sep +:+ join sep (z :: rest)). reflexivity.
    + change (join sep (y :: z :: rest)) with (y +:+ sep +:+ join sep (z :: rest)).
      rewrite <- (append_nil_r (join sep (z :: rest))), <- append_assoc.
      apply has_infix_append, IH, Hin.
Qed.

Lemma join_concat (sep : string) (xs : list string) : join sep xs = String.concat sep xs.
Proof.
  induction xs as [|x [|y xs] IH]; [reflexivity..|].
  change (join sep (x :: y :: xs)) with (x +:+ sep +:+ join sep (y :: xs)).
  rewrite IH. reflexivity.
Qed.

End Running.

(** Takes apart a hypothesis that says a computation returned. *)
Ltac returned :=
  repeat
    (cbn beta zeta in *;
     match goal with
     | H : and_then _ _ _ = (Return _, _) |- _ =>
         let a := fresh "r" in
         let w := fresh "w" in
         let H1 := fresh "Hrun" in
         apply bind_returns in H as (a & w & H1 & H)
     | H : ret _ _ = (Return _, _) |- _ => apply ret_returns in H as [? ?]; subst
     | H : throw _ _ = (Return _, _) |- _ => apply throw_returns in H; contradiction
     | H : lift _ _ = (Return _, _) |- _ => apply lift_returns in H as [H ?]; subst
     | H : reading _ _ = (Return _, _) |- _ => apply reading_returns in H as [H ?]; subst
     | H : updating _ _ = (Return _, _) |- _ => apply updating_returns in H as [H ?]; subst
     | H : emit _ _ = (Return _, _) |- _ => apply emit_returns in H; subst
     | H : path_arg _ _ = (Return _, _) |- _ => apply path_arg_returns in H as [H ?]; subst
     | H : MaterialTools._writeFile _ _ _ _ = (Return _, _) |- _ =>
         apply writeFileSync_returns in H as [? ?]; subst
     | H : fse_copy _ _ _ = (Return _, _) |- _ => apply fse_copy_returns in H; subst
     | H : (_, _) = (_, _) |- _ => injection H as ? ?; subst
     end).

(** Brings the trace of a world built with [record] and [store] to the
    form [trace w ++ events]. *)
Ltac traces :=
  cbn [trace record store with_disk disk now] in *;
  rewrite <- ?app_assoc; cbn [app].

(** Reads the fields of a world built with [record] and [store]. *)
Ltac fields :=
  repeat (progress (rewrite ?disk_record, ?disk_store, ?now_record, ?now_store,
                      ?trace_record, ?trace_store;
                    cbn [disk now trace with_disk fst snd])).

(** ** The static theme *)

Section StaticTheme.

Context {collaborators : Collaborators}.

(** Reading files changes nothing on disk and writes nothing. *)
Lemma mapM_readFileSync_returns (paths : list string) (texts : list string) (w w' : World) :
  mapM readFileSync paths w = (Return texts, w') ->
  texts = List.map (fun path => default "" (disk w !! path)) paths /\
  disk w' = disk w /\ now w' = now w /\
  trace w' = trace w ++ List.map ReadFile paths.
Proof.
  revert texts w. induction paths as [|path paths IH]; intros texts w H.
  - cbn [mapM] in H. returned. rewrite app_nil_r. repeat split; reflexivity.
  - cbn [mapM] in H. returned.
    unfold readFileSync in Hrun. destruct (disk w !! path) as [text|] eqn:Hpath;
      [|discriminate Hrun].
    injection Hrun as <- <-.
    apply IH in Hrun0 as (-> & Hdisk & Hnow & Htrace).
    cbn [List.map]. rewrite Hpath, Hdisk, Hnow, Htrace. cbn [default record disk now trace].
    rewrite <- app_assoc. repeat split; reflexivity.
Qed.

Lemma mapM_readFileSync_present (paths : list string) (w : World) :
  (forall path, In path paths -> is_Some (disk w !! path)) ->
  mapM readFileSync paths w =
    (Return (List.map (fun path => default "" (disk w !! path)) paths),
     after_reading paths w).
Proof.
  revert w. induction paths as [|path paths IH]; intros w Hpresent.
  - unfold after_reading. cbn. rewrite app_nil_r. destruct w; reflexivity.
  - destruct (Hpresent path) as [text Htext]; [left; reflexivity|].
    cbn [mapM]. erewrite bind_continues; cycle 1.
    { unfold readFileSync. rewrite Htext. reflexivity. }
    erewrite bind_continues; cycle 1.
    { apply IH. intros p Hp. cbn [disk record]. apply Hpresent. right. exact Hp. }
    unfold ret, after_reading. cbn [List.map disk now trace record].
    rewrite Htext, <- app_assoc. reflexivity.
Qed.

(** The key of [1.1.0], the threshold of the quirk. *)
Lemma key_of_1_1_0 (this : MaterialTools.t) :
  MaterialTools._getVersionNumber this (Some "1.1.0") = Return (of_N 110).
Proof. reflexivity. Qed.

Lemma baseSCSSFiles_key (this : MaterialTools.t) (key : number) :
  MaterialTools._getVersionNumber this None = Return key ->
  MaterialTools.baseSCSSFiles this =
    Return (if lt key (of_N 110)
            then ["variables.scss"; "mixins.scss"; "themes.scss"]
            else ["variables.scss"; "mixins.scss"]).
Proof.
  intros Hkey. unfold MaterialTools.baseSCSSFiles.
  rewrite Hkey, key_of_1_1_0. reflexivity.
Qed.

(** Searching the list of base names is the test on the name that the
    specification words. *)
Lemma includes_base_name (quirk : bool) (name : string) :
  includes name (if quirk
                 then ["variables.scss"; "mixins.scss"; "themes.scss"]
                 else ["variables.scss"; "mixins.scss"])
  = is_base_name quirk name.
Proof.
  unfold is_base_name. rewrite !(String.eqb_sym name).
  destruct quirk; cbn [includes andb];
    destruct (String.eqb "variables.scss" name), (String.eqb "mixins.scss" name),
             (String.eqb "themes.scss" name); reflexivity.
Qed.

(** C3: with a theme builder, a version that has a key and the resolved
    files on disk, the input of the static theme is the text of the base
    SCSS files, selected by name among the resolved SCSS files, followed
    by the text of all the theme files in their order; it is compiled,
    and the result goes to the [build] of the theming builder. *)
Theorem static_theme_assembly (this : MaterialTools.t) (buildFiles : LocalBuildFiles)
        (w : World) (builder : ThemingBuilder) (key : number) :
  MaterialTools.themeBuilder this = Some builder ->
  MaterialTools._getVersionNumber this None = Return key ->
  (forall path, In path (scss buildFiles ++ themes buildFiles) -> is_Some (disk w !! path)) ->
  fst (MaterialTools._buildStaticTheme this buildFiles w) =
    bind (CSSBuilder_compileSCSS
            (static_theme_input path_basename (lt key (of_N 110)) (disk w) buildFiles))
         (fun themeCSS =>
            bind (ThemingBuilder_build builder themeCSS)
                 (fun sheet => Return (Some sheet))).
Proof.
  intros Hbuilder Hkey Hpresent.
  unfold MaterialTools._buildStaticTheme. rewrite Hbuilder.
  erewrite bind_continues; cycle 1.
  { unfold lift. rewrite (baseSCSSFiles_key this key Hkey). reflexivity. }
  cbv zeta.
  erewrite bind_continues; cycle 1.
  { apply mapM_readFileSync_present. intros path Hin.
    apply Hpresent, in_or_app. left. apply filter_In in Hin as [Hin _]. exact Hin. }
  erewrite bind_continues; cycle 1.
  { apply mapM_readFileSync_present. intros path Hin. cbn [disk after_reading].
    apply Hpresent, in_or_app. right. exact Hin. }
  cbn [disk after_reading].
  assert (Hinput :
    join "" (List.map (fun path => default "" (disk w !! path))
               (List.filter
                  (fun file => includes (path_basename file)
                     (if lt key (of_N 110)
                      then ["variables.scss"; "mixins.scss"; "themes.scss"]
                      else ["variables.scss"; "mixins.scss"]))
                  (scss buildFiles)))
    +:+ join "" (List.map (fun path => default "" (disk w !! path)) (themes buildFiles))
    = static_theme_input path_basename (lt key (of_N 110)) (disk w) buildFiles).
  { unfold static_theme_input, contents. rewrite !join_concat.
    do 3 f_equal. apply filter_ext. intros file. apply includes_base_name. }
  rewrite Hinput. unfold and_then, lift, ret.
  destruct (CSSBuilder_compileSCSS _) as [themeCSS|e]; [|reflexivity].
  cbn [bind]. destruct (ThemingBuilder_build builder themeCSS); reflexivity.
Qed.

Lemma in_firstn {A} (k : nat) (xs : list A) (x : A) : In x (firstn k xs) -> In x xs.
Proof.
  revert xs. induction k as [|k IH]; intros [|y xs]; cbn; try tauto.
  intros [->|Hin]; [left; reflexivity|right; exact (IH xs Hin)].
Qed.

(** Reading a list of files stops at the first that is missing; it
    changes nothing on disk. *)
Lemma mapM_readFileSync_effects (paths : list string) (w : World) :
  disk (snd (mapM readFileSync paths w)) = disk w /\
  now (snd (mapM readFileSync paths w)) = now w /\
  exists k, trace (snd (mapM readFileSync paths w)) =
            trace w ++ List.map ReadFile (firstn k paths).
Proof.
  revert w. induction paths as [|path paths IH]; intros w.
  - cbn. repeat split. exists 0. rewrite app_nil_r. reflexivity.
  - cbn [mapM]. unfold and_then.
    assert (snd (readFileSync path w) = record (ReadFile path) w) as Hw.
    { unfold readFileSync. destruct (disk w !! path); reflexivity. }
    destruct (readFileSync path w) as [[text|e] w0]; cbn [snd] in Hw; subst w0.
    + specialize (IH (record (ReadFile path) w)).
      destruct (mapM readFileSync paths (record (ReadFile path) w)) as [[texts|e] w1];
        cbn [fst snd ret] in *.
      all: destruct IH as (Hd & Hn & k & Ht).
      all: split; [exact Hd|split; [exact Hn|]].
      all: exists (S k); rewrite Ht; traces; reflexivity.
    + cbn [snd]. split; [reflexivity|split; [reflexivity|]]. exists 1. reflexivity.
Qed.

(** The names in [baseSCSSFiles] are among the three base names. *)
Lemma baseSCSSFiles_names (this : MaterialTools.t) (names : list string) (name : string) :
  MaterialTools.baseSCSSFiles this = Return names ->
  includes name names = true -> is_base_name true name = true.
Proof.
  unfold MaterialTools.baseSCSSFiles.
  destruct (MaterialTools._getVersionNumber this None) as [current|]; [|discriminate].
  cbn [bind]. rewrite key_of_1_1_0. cbn [bind]. intros [= <-].
  destruct (lt current (of_N 110)).
  - cbn [app]. rewrite (includes_base_name true). auto.
  - rewrite (includes_base_name false). unfold is_base_name. cbn [andb].
    rewrite !orb_false_r. intros ->. reflexivity.
Qed.

(** Whatever its outcome, [_buildStaticTheme] leaves the disk and the
    clock alone and only reads files. *)
Lemma buildStaticTheme_effects (this : MaterialTools.t) (buildFiles : LocalBuildFiles)
      (w : World) :
  disk (snd (MaterialTools._buildStaticTheme this buildFiles w)) = disk w /\
  now (snd (MaterialTools._buildStaticTheme this buildFiles w)) = now w /\
  exists paths,
    trace (snd (MaterialTools._buildStaticTheme this buildFiles w)) =
      trace w ++ List.map ReadFile paths /\
    (forall path, In path paths ->
       (In path (scss buildFiles) /\ is_base_name true (path_basename path) = true) \/
       In path (themes buildFiles)) /\
    (MaterialTools.themeBuilder this = None -> paths = []).
Proof.
  remember (MaterialTools._buildStaticTheme this buildFiles w) as r eqn:Hr. revert Hr.
  unfold MaterialTools._buildStaticTheme.
  destruct (MaterialTools.themeBuilder this) as [builder|].
  2:{ intros ->. cbn. split; [reflexivity|]. split; [reflexivity|]. exists []. rewrite app_nil_r.
      split; [reflexivity|]. split; [intros path []|reflexivity]. }
  unfold and_then at 1. unfold lift at 1.
  destruct (MaterialTools.baseSCSSFiles this) as [names|e] eqn:Hnames.
  2:{ intros ->. cbn. split; [reflexivity|]. split; [reflexivity|]. exists []. rewrite app_nil_r.
      split; [reflexivity|]. split; [intros path []|discriminate]. }
  cbv zeta. unfold and_then at 1.
  set (selected := List.filter (fun file => includes (path_basename file) names)
                               (scss buildFiles)).
  assert (forall path, In path selected ->
            In path (scss buildFiles) /\ is_base_name true (path_basename path) = true)
    as Hselected.
  { intros path [Hin Hname]%filter_In. split; [exact Hin|].
    exact (baseSCSSFiles_names this names _ Hnames Hname). }
  destruct (mapM_readFileSync_effects selected w) as (Hd0 & Hn0 & k0 & Ht0).
  destruct (mapM readFileSync selected w) as [[scssContents|e] w1]; cbn [fst snd] in *.
  2:{ intros ->. cbn [fst snd]. split; [exact Hd0|]. split; [exact Hn0|]. exists (firstn k0 selected).
      split; [exact Ht0|]. split; [|discriminate].
      intros path Hin. left. apply Hselected. eapply in_firstn. exact Hin. }
  unfold and_then at 1.
  destruct (mapM_readFileSync_effects (themes buildFiles) w1) as (Hd1 & Hn1 & k1 & Ht1).
  assert (forall path, In path (firstn k0 selected ++ firstn k1 (themes buildFiles)) ->
            (In path (scss buildFiles) /\ is_base_name true (path_basename path) = true) \/
            In path (themes buildFiles)) as Hpaths.
  { intros path [Hin|Hin]%in_app_or.
    - left. apply Hselected. eapply in_firstn. exact Hin.
    - right. eapply in_firstn. exact Hin. }
  destruct (mapM readFileSync (themes buildFiles) w1) as [[themeContents|e] w2];
    cbn [fst snd] in *.
  2:{ intros ->. cbn [fst snd]. split; [congruence|]. split; [congruence|].
      exists (firstn k0 selected ++ firstn k1 (themes buildFiles)).
      split; [rewrite Ht1, Ht0, map_app, <- app_assoc; reflexivity|].
      split; [exact Hpaths|discriminate]. }
  unfold and_then, lift, ret.
  destruct (CSSBuilder_compileSCSS _) as [themeCSS|e];
    [destruct (ThemingBuilder_build builder themeCSS) as [sheet|e]|];
    intros ->; cbn [fst snd].
  all: split; [congruence|].
  all: split; [congruence|].
  all: exists (firstn k0 selected ++ firstn k1 (themes buildFiles)).
  all: split; [rewrite Ht1, Ht0, map_app, <- app_assoc; reflexivity|].
  all: split; [exact Hpaths|discriminate].
Qed.

(** The static theme is produced as soon as the version has a key, the
    resolved files are on disk, and the compiler and the theming builder
    return. *)
Lemma buildStaticTheme_succeeds (this : MaterialTools.t) (buildFiles : LocalBuildFiles)
      (w : World) (key : number) :
  MaterialTools._getVersionNumber this None = Return key ->
  (forall path, In path (scss buildFiles ++ themes buildFiles) -> is_Some (disk w !! path)) ->
  (forall text, exists compiledCSS, CSSBuilder_compileSCSS text = Return compiledCSS) ->
  (forall builder compiledCSS,
      exists sheet, ThemingBuilder_build builder compiledCSS = Return sheet) ->
  exists sheet w', MaterialTools._buildStaticTheme this buildFiles w = (Return sheet, w').
Proof.
  intros Hkey Hpresent Hcompile Htheme.
  unfold MaterialTools._buildStaticTheme.
  destruct (MaterialTools.themeBuilder this) as [builder|]; [|exists None, w; reflexivity].
  erewrite bind_continues; cycle 1.
  { unfold lift. rewrite (baseSCSSFiles_key this key Hkey). reflexivity. }
  cbv zeta.
  erewrite bind_continues; cycle 1.
  { apply mapM_readFileSync_present. intros path Hin.
    apply Hpresent, in_or_app. left. apply filter_In in Hin as [Hin _]. exact Hin. }
  erewrite bind_continues; cycle 1.
  { apply mapM_readFileSync_present. intros path Hin. cbn [disk after_reading].
    apply Hpresent, in_or_app. right. exact Hin. }
  lazymatch goal with
  | |- context [CSSBuilder_compileSCSS ?text] =>
      destruct (Hcompile text) as [compiledCSS HcompiledCSS]
  end.
  erewrite bind_continues by (unfold lift; rewrite HcompiledCSS; reflexivity).
  destruct (Htheme builder compiledCSS) as [sheet Hsheet].
  erewrite bind_continues by (unfold lift; rewrite Hsheet; reflexivity).
  eexists _, _. reflexivity.
Qed.




End StaticTheme.

(** The theme of the package on disk, for a version below [1.1.0]: the
    three base files, then the two theme files. *)
Lemma static_theme_assembly_witness :
  fst (MaterialTools._buildStaticTheme (Fixture.instance "1.0.9" (Some "indigo"))
         (Fixture.buildFiles "/pkg") (Fixture.world 2016))
  = Return (Some "[indigo]css($v;@m;@t;.core{}.tip{})").
Proof.
  rewrite (static_theme_assembly (Fixture.instance "1.0.9" (Some "indigo"))
             (Fixture.buildFiles "/pkg") (Fixture.world 2016) "indigo" (of_N 109)).
  - vm_compute. reflexivity.
  - reflexivity.
  - vm_compute. reflexivity.
  - intros path Hin. cbn in Hin.
    repeat (destruct Hin as [<-|Hin]; [vm_compute; eexists; reflexivity|]).
    contradiction.
Defined.

(** ** The orchestrator *)

Section Build.

Context {collaborators : Collaborators}.

Lemma makeDirectory_returns (path made : string) (w w' : World) :
  MaterialTools._makeDirectory path w = (Return made, w') ->
  fse_mkdirp path = None /\ made = path /\ w' = record (Mkdirp path) w.
Proof.
  unfold MaterialTools._makeDirectory. intros H. returned.
  destruct (fse_mkdirp path); returned. repeat split; reflexivity.
Qed.

Lemma getLicense_run (this : MaterialTools.t) (modules : list string) (w : World) :
  MaterialTools._getLicense this modules w =
    (Return (banner (version (MaterialTools.options this)) modules (fullYear (now w))), w).
Proof. reflexivity. Qed.

Lemma and_then_ext {A B} (c : M A) (k k' : A -> M B) (w : World) :
  (forall a w', k a w' = k' a w') -> and_then c k w = and_then c k' w.
Proof.
  intros H. unfold and_then. destruct (c w) as [[a|e] w']; [apply H|reflexivity].
Qed.

Lemma write_files_cons_then {B} (file : string * string) (rest : list (string * string))
      (k : M B) (w : World) :
  and_then (write_files (file :: rest)) (fun _ => k) w =
  and_then (writeFileSync (fst file) (snd file))
           (fun _ => and_then (write_files rest) (fun _ => k)) w.
Proof.
  cbn [write_files]. unfold and_then.
  destruct (writeFileSync (fst file) (snd file) w) as [[u|e] w']; reflexivity.
Qed.

Lemma write_files_nil_then {B} (k : M B) (w : World) :
  and_then (write_files []) (fun _ => k) w = k w.
Proof. reflexivity. Qed.

(** Each line of the license is part of the banner. *)
Lemma banner_has_line (version : option string) (modules : list string) (year : N)
      (line : string) :
  In line (MaterialTools.license_lines version modules year) ->
  has_infix line (banner version modules year).
Proof.
  intros Hin. unfold banner.
  assert (Hjoin : has_infix (" * " +:+ line)
                    (join LF ("/*!" :: List.map (fun l => " * " +:+ l)
                                 (MaterialTools.license_lines version modules year)
                               ++ [" */"; LF]))).
  { apply join_has_infix. right. apply in_or_app. left.
    apply in_map_iff. exists line. split; [reflexivity|exact Hin]. }
  destruct Hjoin as (before & after & ->).
  exists (before +:+ " * "), after. rewrite !append_assoc. reflexivity.
Qed.

(** *** The steps of a build

    What [build] does once the three resolvers have returned, step by
    step.  [fetched] is the disk as the package resolver leaves it. *)

Section Steps.

Variables (this : MaterialTools.t) (w : World).
Variables (entryName dest : string) (versionData : VersionData).
Variables (fetched : gmap string string) (resolved : Dependencies) (found : LocalBuildFiles).

Hypothesis Hpkg :
  PackageResolver_resolve (version (MaterialTools.options this))
                          (cache (MaterialTools.options this)) (disk w)
  = (Return versionData, fetched).
Hypothesis Hmain : mainFilename (MaterialTools.options this) = Some entryName.
Hypothesis Hdeps :
  DependencyResolver_resolve (path_join [moduleRoot versionData; entryName])
                             (modules (MaterialTools.options this)) fetched
  = Return resolved.
Hypothesis Hlocal :
  LocalResolver_resolve (_flat resolved) (path_resolve [moduleRoot versionData; "../"]) fetched
  = Return found.
Hypothesis Hdest : destination (MaterialTools.options this) = Some dest.

Local Abbreviation this1 :=
  {| MaterialTools.options :=
       MaterialTools.set_version (resolvedVersion versionData) (MaterialTools.options this);
     MaterialTools.themeBuilder := MaterialTools.themeBuilder this |}.
Local Abbreviation data := {| files := found; dependencies := resolved |}.

Lemma getData_run :
  MaterialTools._getData this w =
    (Return (this1, data),
     {| disk := fetched; now := now w;
        trace := trace w ++
                 resolution_calls (MaterialTools.options this) versionData entryName
                                  resolved |}).
Proof.
  unfold MaterialTools._getData.
  erewrite bind_continues by reflexivity.
  erewrite bind_continues
    by (unfold updating; cbn [disk record]; rewrite Hpkg; reflexivity).
  cbv zeta.
  erewrite bind_continues by (rewrite Hmain; reflexivity).
  erewrite bind_continues by reflexivity.
  erewrite bind_continues
    by (unfold reading; cbn [disk record with_disk fst snd]; rewrite Hdeps; reflexivity).
  erewrite bind_continues by reflexivity.
  erewrite bind_continues
    by (unfold reading; cbn [disk record with_disk fst snd]; rewrite Hlocal; reflexivity).
  unfold ret, resolution_calls. f_equal. apply world_eq; fields; cbn [fst snd];
    rewrite <- ?app_assoc; reflexivity.
Qed.

Lemma build_no_destination :
  destination (MaterialTools.options this) = None ->
  MaterialTools.build this w =
    (Throw (TypeError "Path must be a string."),
     {| disk := fetched; now := now w;
        trace := trace w ++
                 resolution_calls (MaterialTools.options this) versionData entryName
                                  resolved |}).
Proof.
  intros Hnone. unfold MaterialTools.build.
  erewrite bind_continues by exact getData_run.
  cbn [fst snd MaterialTools.options MaterialTools.set_version destination].
  rewrite Hnone. reflexivity.
Qed.

Lemma build_mkdirp_fails (e : error) :
  fse_mkdirp dest = Some e ->
  MaterialTools.build this w =
    (Throw e,
     {| disk := fetched; now := now w;
        trace := trace w ++
                 resolution_calls (MaterialTools.options this) versionData entryName
                                  resolved ++ [Mkdirp dest] |}).
Proof.
  intros Hmkdirp. unfold MaterialTools.build.
  erewrite bind_continues by exact getData_run.
  cbn [fst snd MaterialTools.options MaterialTools.set_version destination].
  rewrite Hdest.
  erewrite bind_continues by reflexivity.
  erewrite bind_throws
    by (unfold MaterialTools._makeDirectory;
        erewrite bind_continues by reflexivity; rewrite Hmkdirp; reflexivity).
  f_equal. apply world_eq; fields; rewrite <- ?app_assoc; reflexivity.
Qed.

Section Prepared.

Hypothesis Hmkdirp : fse_mkdirp dest = None.

Local Abbreviation license_source := (path_join [root found; "module"; "LICENSE"]).
Local Abbreviation license_path := (path_join [dest; "LICENSE"]).
Local Abbreviation resolution :=
  (resolution_calls (MaterialTools.options this) versionData entryName resolved).
Local Abbreviation started :=
  [Mkdirp dest; Copy license_source license_path (fetched !! license_source)].
Local Abbreviation prepared :=
  {| disk := fetched; now := now w; trace := trace w ++ resolution ++ started |}.

Lemma build_no_name :
  destinationFilename (MaterialTools.options this) = None ->
  MaterialTools.build this w = (Throw (TypeError "Path must be a string."), prepared).
Proof.
  intros Hnone. unfold MaterialTools.build.
  erewrite bind_continues by exact getData_run.
  cbn [fst snd MaterialTools.options MaterialTools.set_version destination
       destinationFilename theme files dependencies].
  rewrite Hdest, Hnone.
  erewrite bind_continues by reflexivity.
  erewrite bind_continues
    by (unfold MaterialTools._makeDirectory;
        erewrite bind_continues by reflexivity; rewrite Hmkdirp; reflexivity).
  erewrite bind_continues by reflexivity.
  unfold and_then, path_arg, throw. f_equal.
  apply world_eq; fields; rewrite <- ?app_assoc; reflexivity.
Qed.

Variable name : string.

Hypothesis Hname : destinationFilename (MaterialTools.options this) = Some name.

Local Abbreviation base := (path_join [dest; name]).
Local Abbreviation license :=
  (banner (Some (resolvedVersion versionData)) (_flat resolved) (fullYear (now w))).

(** The build up to the builders: nothing is written yet, and the copy of
    the LICENSE is started. *)
Lemma build_prepared :
  MaterialTools.build this w =
    (let* js := reading (JSBuilder_build data (base +:+ ".min.js")) in
     let* css := reading (CSSBuilder_build data) in
     let* license := MaterialTools._getLicense this1 (_flat resolved) in
     MaterialTools._writeFile (base +:+ ".js") (Some (source js)) (Some license) ;;
     MaterialTools._writeFile (base +:+ ".min.js") (Some (compressed js)) (Some license) ;;
     MaterialTools._writeFile ((base +:+ ".min.js") +:+ ".map") (map js) None ;;
     MaterialTools._writeFile (base +:+ ".css") (Some (source (layout css))) (Some license) ;;
     MaterialTools._writeFile (base +:+ ".min.css") (Some (compressed (layout css)))
                              (Some license) ;;
     MaterialTools._writeFile (base +:+ "-no-layout.css") (Some (source (noLayout css)))
                              (Some license) ;;
     MaterialTools._writeFile (base +:+ "-no-layout.min.css")
                              (Some (compressed (noLayout css))) (Some license) ;;
     match theme (MaterialTools.options this) with
     | Some _ =>
         let* compiledCSS := MaterialTools._buildStaticTheme this1 found in
         let* themeStylesheet := lift (CSSBuilder_buildStylesheet compiledCSS) in
         MaterialTools._writeFile (base +:+ "-theme.min.css")
                                  (Some (compressed themeStylesheet)) (Some license) ;;
         MaterialTools._writeFile (base +:+ "-theme.css")
                                  (Some (source themeStylesheet)) (Some license) ;;
         ret (this1, data)
     | None => ret (this1, data)
     end) prepared.
Proof.
  unfold MaterialTools.build.
  erewrite bind_continues by exact getData_run.
  cbn [fst snd MaterialTools.options MaterialTools.set_version destination
       destinationFilename theme files dependencies].
  rewrite Hdest, Hname.
  erewrite bind_continues by reflexivity.
  erewrite bind_continues
    by (unfold MaterialTools._makeDirectory;
        erewrite bind_continues by reflexivity; rewrite Hmkdirp; reflexivity).
  erewrite bind_continues by reflexivity.
  erewrite bind_continues by reflexivity.
  match goal with
  | |- _ ?w1 = _ ?w2 => replace w1 with w2; [reflexivity|]
  end.
  apply world_eq; fields; rewrite <- ?app_assoc; reflexivity.
Qed.

(** A builder that fails ends the build before anything is written. *)
Lemma build_builder_fails (e : error) :
  (JSBuilder_build data (base +:+ ".min.js") fetched = Throw e \/
   exists js,
     JSBuilder_build data (base +:+ ".min.js") fetched = Return js /\
     CSSBuilder_build data fetched = Throw e) ->
  MaterialTools.build this w = (Throw e, prepared).
Proof.
  intros H. rewrite build_prepared. unfold and_then, reading. cbn [disk].
  destruct H as [->|(js & -> & ->)]; reflexivity.
Qed.

Section Bundled.

Variables (js : MaterialToolsOutput) (css : CSSBuildOutput).

Hypothesis Hjs : JSBuilder_build data (base +:+ ".min.js") fetched = Return js.
Hypothesis Hcss : CSSBuilder_build data fetched = Return css.

Local Abbreviation bundle := (bundle_files base license js css).
Local Abbreviation bundled :=
  {| disk := write_all bundle fetched; now := now w;
     trace := trace w ++ resolution ++ started ++ writes bundle |}.

(** The build from the first write on: the files of the bundle, then the
    theme. *)
Lemma build_bundled :
  MaterialTools.build this w =
    (write_files bundle ;;
     match theme (MaterialTools.options this) with
     | Some _ =>
         let* compiledCSS := MaterialTools._buildStaticTheme this1 found in
         let* themeStylesheet := lift (CSSBuilder_buildStylesheet compiledCSS) in
         write_files (theme_files base license themeStylesheet) ;;
         ret (this1, data)
     | None => ret (this1, data)
     end) prepared.
Proof.
  rewrite build_prepared.
  erewrite bind_continues by (unfold reading; cbn [disk]; rewrite Hjs; reflexivity).
  erewrite bind_continues by (unfold reading; cbn [disk]; rewrite Hcss; reflexivity).
  erewrite bind_continues by apply getLicense_run.
  cbn [MaterialTools.options MaterialTools.set_version version now].
  unfold bundle_files.
  do 7 (rewrite write_files_cons_then; apply and_then_ext; intros [] ?).
  rewrite write_files_nil_then.
  destruct (theme (MaterialTools.options this)); [|reflexivity].
  apply and_then_ext. intros compiledCSS ?.
  apply and_then_ext. intros themeStylesheet ?.
  unfold theme_files.
  do 2 (rewrite write_files_cons_then; apply and_then_ext; intros [] ?).
  reflexivity.
Qed.

(** How a build ends once the builders have returned: it returns, without
    or with a theme; or a file of the bundle is refused; or the theme
    cannot be made; or a theme file is refused.  What was written before
    the failure stays written. *)
Lemma build_outcome :
  exists o bdone paths tdone tail,
    MaterialTools.build this w =
      (o, {| disk := write_all (bdone ++ tdone) fetched; now := now w;
             trace := trace w ++ resolution ++ started ++ writes bdone ++
                      List.map ReadFile paths ++ writes tdone ++ tail |}) /\
    (forall path, In path paths ->
       (In path (scss found) /\ is_base_name true (path_basename path) = true) \/
       In path (themes found)) /\
    ((theme (MaterialTools.options this) = None /\ o = Return (this1, data) /\
      bdone = bundle /\ paths = [] /\ tdone = [] /\ tail = []) \/
     (theme (MaterialTools.options this) <> None /\ o = Return (this1, data) /\
      bdone = bundle /\ tail = [] /\
      exists compiled sheet,
        fst (MaterialTools._buildStaticTheme this1 found bundled) = Return compiled /\
        CSSBuilder_buildStylesheet compiled = Return sheet /\
        tdone = theme_files base license sheet) \/
     (exists failed rest e,
        o = Throw e /\ bundle = bdone ++ failed :: rest /\
        fse_writeFileSync (write_all bdone fetched) (fst failed) = Some e /\
        paths = [] /\ tdone = [] /\ tail = [FailedWrite (fst failed)]) \/
     (theme (MaterialTools.options this) <> None /\
      bdone = bundle /\ tdone = [] /\ tail = [] /\
      exists e,
        o = Throw e /\
        (fst (MaterialTools._buildStaticTheme this1 found bundled) = Throw e \/
         exists compiled,
           fst (MaterialTools._buildStaticTheme this1 found bundled) = Return compiled /\
           CSSBuilder_buildStylesheet compiled = Throw e)) \/
     (theme (MaterialTools.options this) <> None /\ bdone = bundle /\
      exists compiled sheet failed rest e,
        fst (MaterialTools._buildStaticTheme this1 found bundled) = Return compiled /\
        CSSBuilder_buildStylesheet compiled = Return sheet /\
        o = Throw e /\ theme_files base license sheet = tdone ++ failed :: rest /\
        fse_writeFileSync (write_all (bundle ++ tdone) fetched) (fst failed) = Some e /\
        tail = [FailedWrite (fst failed)])).
Proof.
  rewrite build_bundled. unfold and_then at 1.
  destruct (write_files_run bundle prepared)
    as [Hall|(done & failed & rest & e & Hsplit & Hrefused & Hrun)]; cbn [disk now trace] in *.
  2:{ rewrite Hrun. exists (Throw e), done, [], [], [FailedWrite (fst failed)].
      rewrite app_nil_r, <- !app_assoc. split; [reflexivity|]. split; [intros path []|].
      right. right. left. exists failed, rest, e. repeat split; assumption. }
  rewrite Hall, <- !app_assoc.
  destruct (theme (MaterialTools.options this)) as [configured|] eqn:Htheme.
  2:{ exists (Return (this1, data)), bundle, [], [], [].
      rewrite !app_nil_r. split; [reflexivity|]. split; [intros path []|].
      left. repeat split; reflexivity. }
  unfold and_then at 1.
  destruct (buildStaticTheme_effects this1 found bundled)
    as (Hd & Hn & paths & Ht & Hpaths & _).
  destruct (MaterialTools._buildStaticTheme this1 found bundled) as [static w1] eqn:Hstatic.
  cbn [fst snd disk now trace] in Hd, Hn, Ht.
  assert (w1 = {| disk := write_all bundle fetched; now := now w;
                  trace := trace w ++ resolution ++ started ++ writes bundle ++
                           List.map ReadFile paths |})
    as ->.
  { apply world_eq; cbn [disk now trace]; [exact Hd|exact Hn|].
    rewrite Ht, <- !app_assoc. reflexivity. }
  destruct static as [compiled|e].
  2:{ exists (Throw e), bundle, paths, [], [].
      rewrite !app_nil_r. split; [reflexivity|]. split; [exact Hpaths|].
      right. right. right. left. repeat split; try discriminate.
      exists e. split; [reflexivity|]. left. reflexivity. }
  unfold and_then at 1. unfold lift at 1.
  destruct (CSSBuilder_buildStylesheet compiled) as [sheet|e] eqn:Hsheet.
  2:{ exists (Throw e), bundle, paths, [], [].
      rewrite !app_nil_r. split; [reflexivity|]. split; [exact Hpaths|].
      right. right. right. left. repeat split; try discriminate.
      exists e. split; [reflexivity|]. right. exists compiled.
      split; [reflexivity|exact Hsheet]. }
  unfold and_then at 1.
  match goal with
  | |- context [write_files ?files ?w0] =>
      destruct (write_files_run files w0)
        as [Hall'|(done & failed & rest & e & Hsplit & Hrefused & Hrun)];
      cbn [disk now trace] in *
  end.
  - rewrite Hall'. exists (Return (this1, data)), bundle, paths.
    exists (theme_files base license sheet), [].
    rewrite write_all_app, app_nil_r, <- !app_assoc.
    split; [reflexivity|]. split; [exact Hpaths|].
    right. left. repeat split; try discriminate.
    exists compiled, sheet. repeat split; assumption || reflexivity.
  - rewrite Hrun. exists (Throw e), bundle, paths, done, [FailedWrite (fst failed)].
    rewrite write_all_app, <- !app_assoc.
    split; [reflexivity|]. split; [exact Hpaths|].
    right. right. right. right. repeat split; try discriminate.
    exists compiled, sheet, failed, rest, e.
    rewrite ?write_all_app. repeat split; assumption || reflexivity.
Qed.

End Bundled.

End Prepared.

End Steps.

(** *** The ways a build can go *)

(** Whatever its outcome, [_getData] makes resolver calls only, and
    leaves the disk as the package resolver leaves it. *)
Lemma getData_effects (this : MaterialTools.t) (w : World) :
  exists events,
    snd (MaterialTools._getData this w) =
      {| disk := snd (PackageResolver_resolve (version (MaterialTools.options this))
                                              (cache (MaterialTools.options this)) (disk w));
         now := now w;
         trace := trace w ++ events |} /\
    forallb is_resolution events = true.
Proof.
  unfold MaterialTools._getData, and_then, emit, updating, reading, path_arg, ret, throw.
  cbn [disk record].
  destruct (PackageResolver_resolve _ _ _) as [[versionData|e] fetched]; cbn [fst snd];
    [destruct (mainFilename _) as [entryName|]; cbn [fst snd with_disk disk record];
     [destruct (DependencyResolver_resolve _ _ _) as [resolved|e];
      cbn [fst snd with_disk disk record];
      [destruct (LocalResolver_resolve _ _ _) as [found|e]|]|]|].
  all: cbn [fst snd]; eexists; split;
    [apply world_eq; cbn [disk now trace record with_disk]; rewrite <- ?app_assoc;
     reflexivity|reflexivity].
Qed.

Lemma build_getData_throws (this : MaterialTools.t) (w : World) (e : error) :
  fst (MaterialTools._getData this w) = Throw e ->
  MaterialTools.build this w = (Throw e, snd (MaterialTools._getData this w)).
Proof.
  intros H. unfold MaterialTools.build.
  apply bind_throws. rewrite <- H. apply surjective_pairing.
Qed.

(** What a returning [_getData] was given by the resolvers. *)
Lemma getData_returned (this this' : MaterialTools.t) (found : LocalBuildFiles)
      (resolved : Dependencies) (w w' : World) :
  MaterialTools._getData this w =
    (Return (this', {| files := found; dependencies := resolved |}), w') ->
  exists versionData fetched entryName,
    PackageResolver_resolve (version (MaterialTools.options this))
                            (cache (MaterialTools.options this)) (disk w)
    = (Return versionData, fetched) /\
    mainFilename (MaterialTools.options this) = Some entryName /\
    DependencyResolver_resolve (path_join [moduleRoot versionData; entryName])
                               (modules (MaterialTools.options this)) fetched
    = Return resolved /\
    LocalResolver_resolve (_flat resolved) (path_resolve [moduleRoot versionData; "../"])
                          fetched
    = Return found.
Proof.
  unfold MaterialTools._getData. intros H. returned.
  cbn [disk record with_disk] in *.
  lazymatch goal with
  | Hpkg : fst (PackageResolver_resolve ?v ?c ?d) = Return ?versionData,
    Hmain : mainFilename _ = Some ?entryName |- _ =>
      exists versionData, (snd (PackageResolver_resolve v c d)), entryName;
      split; [rewrite <- Hpkg; apply surjective_pairing|]
  end.
  repeat split; assumption.
Qed.

(** A build fails before it writes, or it reaches the writes: then the
    three resolvers, [mkdirp] and the two builders have returned. *)
Lemma build_cases (this : MaterialTools.t) (w : World) :
  (exists e events,
     MaterialTools.build this w =
       (Throw e,
        {| disk := snd (PackageResolver_resolve (version (MaterialTools.options this))
                                                (cache (MaterialTools.options this))
                                                (disk w));
           now := now w;
           trace := trace w ++ events |}) /\
     written events = [] /\
     forall src dst found, In (Copy src dst found) events ->
       exists dest, destination (MaterialTools.options this) = Some dest /\
                    dst = path_join [dest; "LICENSE"]) \/
  (exists versionData fetched entryName dest name resolved found js css,
     PackageResolver_resolve (version (MaterialTools.options this))
                             (cache (MaterialTools.options this)) (disk w)
     = (Return versionData, fetched) /\
     mainFilename (MaterialTools.options this) = Some entryName /\
     DependencyResolver_resolve (path_join [moduleRoot versionData; entryName])
                                (modules (MaterialTools.options this)) fetched
     = Return resolved /\
     LocalResolver_resolve (_flat resolved) (path_resolve [moduleRoot versionData; "../"])
                           fetched
     = Return found /\
     destination (MaterialTools.options this) = Some dest /\
     fse_mkdirp dest = None /\
     destinationFilename (MaterialTools.options this) = Some name /\
     JSBuilder_build {| files := found; dependencies := resolved |}
                     (path_join [dest; name] +:+ ".min.js") fetched = Return js /\
     CSSBuilder_build {| files := found; dependencies := resolved |} fetched = Return css).
Proof.
  destruct (MaterialTools._getData this w) as [[[this1 [found resolved]]|e] w0] eqn:Hdata.
  2:{ left. destruct (getData_effects this w) as (events & Hworld & Hcalls).
      rewrite (build_getData_throws this w e) by (rewrite Hdata; reflexivity).
      rewrite Hworld. exists e, events. split; [reflexivity|].
      clear Hworld Hdata. induction events as [|event events IH]; [split; [reflexivity|]|].
      - intros src dst copied [].
      - cbn [forallb] in Hcalls. apply andb_prop in Hcalls as [Hcall Hcalls].
        destruct (IH Hcalls) as [Hwritten Hcopies].
        destruct event; try discriminate Hcall.
        all: split; [exact Hwritten|].
        all: intros src dst copied [Heq|Hin]; [discriminate Heq|].
        all: exact (Hcopies src dst copied Hin). }
  apply getData_returned in Hdata
    as (versionData & fetched & entryName & Hpkg & Hmain & Hdeps & Hlocal).
  rewrite Hpkg. cbn [snd].
  destruct (destination (MaterialTools.options this)) as [dest|] eqn:Hdest.
  2:{ left. rewrite (build_no_destination this w entryName versionData fetched resolved found
                       Hpkg Hmain Hdeps Hlocal Hdest).
      do 2 eexists. split; [reflexivity|]. split; [reflexivity|].
      intros src dst copied Hin. unfold resolution_calls in Hin.
      repeat (destruct Hin as [Heq|Hin]; [discriminate Heq|]). destruct Hin. }
  destruct (fse_mkdirp dest) as [e|] eqn:Hmkdirp.
  { left. rewrite (build_mkdirp_fails this w entryName dest versionData fetched resolved found
                     Hpkg Hmain Hdeps Hlocal Hdest e Hmkdirp).
    do 2 eexists. split; [reflexivity|]. split; [reflexivity|].
    intros src dst copied Hin. unfold resolution_calls in Hin. cbn [app] in Hin.
    repeat (destruct Hin as [Heq|Hin]; [discriminate Heq|]). destruct Hin. }
  assert (forall events,
            events = resolution_calls (MaterialTools.options this) versionData entryName
                                      resolved ++
                     [Mkdirp dest;
                      Copy (path_join [root found; "module"; "LICENSE"])
                           (path_join [dest; "LICENSE"])
                           (fetched !! path_join [root found; "module"; "LICENSE"])] ->
            written events = [] /\
            forall src dst copied, In (Copy src dst copied) events ->
              exists dest', Some dest = Some dest' /\ dst = path_join [dest'; "LICENSE"])
    as Hstarted.
  { intros events ->. split; [reflexivity|].
    intros src dst copied Hin. unfold resolution_calls in Hin. cbn [app] in Hin.
    repeat (destruct Hin as [Heq|Hin]; [try discriminate Heq|]); [|destruct Hin].
    injection Heq as _ <- _. exists dest. split; reflexivity. }
  destruct (destinationFilename (MaterialTools.options this)) as [name|] eqn:Hname.
  2:{ left. rewrite (build_no_name this w entryName dest versionData fetched resolved found
                       Hpkg Hmain Hdeps Hlocal Hdest Hmkdirp Hname).
      do 2 eexists. split; [reflexivity|]. apply Hstarted. reflexivity. }
  destruct (JSBuilder_build {| files := found; dependencies := resolved |}
                            (path_join [dest; name] +:+ ".min.js") fetched)
    as [js|e] eqn:Hjs.
  2:{ left. rewrite (build_builder_fails this w entryName dest versionData fetched resolved
                       found Hpkg Hmain Hdeps Hlocal Hdest Hmkdirp name Hname e)
        by (left; exact Hjs).
      do 2 eexists. split; [reflexivity|]. apply Hstarted. reflexivity. }
  destruct (CSSBuilder_build {| files := found; dependencies := resolved |} fetched)
    as [css|e] eqn:Hcss.
  2:{ left. rewrite (build_builder_fails this w entryName dest versionData fetched resolved
                       found Hpkg Hmain Hdeps Hlocal Hdest Hmkdirp name Hname e)
        by (right; exists js; split; assumption).
      do 2 eexists. split; [reflexivity|]. apply Hstarted. reflexivity. }
  right. exists versionData, fetched, entryName, dest, name, resolved, found, js, css.
  repeat split; assumption || reflexivity.
Qed.

(** *** A build that returns *)

(** A build that returns has gone through every step: the world it
    leaves holds the bundle, and the theme files when a theme is
    configured, on top of what the package resolver left. *)
Lemma build_returns (this this' : MaterialTools.t) (data : MaterialToolsData) (w w' : World) :
  MaterialTools.build this w = (Return (this', data), w') ->
  exists versionData fetched entryName dest name js css paths themed,
    PackageResolver_resolve (version (MaterialTools.options this))
                            (cache (MaterialTools.options this)) (disk w)
    = (Return versionData, fetched) /\
    mainFilename (MaterialTools.options this) = Some entryName /\
    DependencyResolver_resolve (path_join [moduleRoot versionData; entryName])
                               (modules (MaterialTools.options this)) fetched
    = Return (dependencies data) /\
    LocalResolver_resolve (_flat (dependencies data))
                          (path_resolve [moduleRoot versionData; "../"]) fetched
    = Return (files data) /\
    destination (MaterialTools.options this) = Some dest /\
    fse_mkdirp dest = None /\
    destinationFilename (MaterialTools.options this) = Some name /\
    JSBuilder_build data (path_join [dest; name] +:+ ".min.js") fetched = Return js /\
    CSSBuilder_build data fetched = Return css /\
    this' = {| MaterialTools.options :=
                 MaterialTools.set_version (resolvedVersion versionData)
                                           (MaterialTools.options this);
               MaterialTools.themeBuilder := MaterialTools.themeBuilder this |} /\
    let base := path_join [dest; name] in
    let license := banner (Some (resolvedVersion versionData))
                          (_flat (dependencies data)) (fullYear (now w)) in
    let bundle := bundle_files base license js css in
    let started :=
      resolution_calls (MaterialTools.options this) versionData entryName
                       (dependencies data) ++
      [Mkdirp dest;
       Copy (path_join [root (files data); "module"; "LICENSE"])
            (path_join [dest; "LICENSE"])
            (fetched !! path_join [root (files data); "module"; "LICENSE"])] in
    w' = {| disk := write_all (bundle ++ themed) fetched;
            now := now w;
            trace := trace w ++ started ++ writes bundle ++
                     List.map ReadFile paths ++ writes themed |} /\
    (forall path, In path paths ->
       (In path (scss (files data)) /\ is_base_name true (path_basename path) = true) \/
       In path (themes (files data))) /\
    match theme (MaterialTools.options this) with
    | None => paths = [] /\ themed = []
    | Some _ =>
        exists compiled sheet,
          fst (MaterialTools._buildStaticTheme this' (files data)
                 {| disk := write_all bundle fetched;
                    now := now w;
                    trace := trace w ++ started ++ writes bundle |}) = Return compiled /\
          CSSBuilder_buildStylesheet compiled = Return sheet /\
          themed = theme_files base license sheet
    end.
Proof.
  intros H.
  destruct (build_cases this w)
    as [(e & events & Hfails & _)
       |(versionData & fetched & entryName & dest & name & resolved & found & js & css
         & Hpkg & Hmain & Hdeps & Hlocal & Hdest & Hmkdirp & Hname & Hjs & Hcss)].
  { rewrite Hfails in H. discriminate H. }
  destruct (build_outcome this w entryName dest versionData fetched resolved found
              Hpkg Hmain Hdeps Hlocal Hdest Hmkdirp name Hname js css Hjs Hcss)
    as (o & bdone & paths & tdone & tail & Hbuild & Hpaths & Hcases).
  rewrite H in Hbuild. injection Hbuild as Ho Hw'.
  assert (o = Return (this', data) ->
          this' = {| MaterialTools.options :=
                       MaterialTools.set_version (resolvedVersion versionData)
                                                 (MaterialTools.options this);
                     MaterialTools.themeBuilder := MaterialTools.themeBuilder this |} ->
          data = {| files := found; dependencies := resolved |} ->
          bdone = bundle_files (path_join [dest; name])
                               (banner (Some (resolvedVersion versionData))
                                       (_flat resolved) (fullYear (now w))) js css ->
          tail = [] ->
          match theme (MaterialTools.options this) with
          | None => paths = [] /\ tdone = []
          | Some _ =>
              exists compiled sheet,
                fst (MaterialTools._buildStaticTheme this' found
                       {| disk := write_all bdone fetched;
                          now := now w;
                          trace := trace w ++
                                   (resolution_calls (MaterialTools.options this) versionData
                                                     entryName resolved ++
                                    [Mkdirp dest;
                                     Copy (path_join [root found; "module"; "LICENSE"])
                                          (path_join [dest; "LICENSE"])
                                          (fetched !! path_join [root found; "module";
                                                                 "LICENSE"])]) ++
                                   writes bdone |}) = Return compiled /\
                CSSBuilder_buildStylesheet compiled = Return sheet /\
                tdone = theme_files (path_join [dest; name])
                                    (banner (Some (resolvedVersion versionData))
                                            (_flat resolved) (fullYear (now w))) sheet
          end ->
          exists versionData fetched entryName dest name js css paths themed,
            PackageResolver_resolve (version (MaterialTools.options this))
                                    (cache (MaterialTools.options this)) (disk w)
            = (Return versionData, fetched) /\
            mainFilename (MaterialTools.options this) = Some entryName /\
            DependencyResolver_resolve (path_join [moduleRoot versionData; entryName])
                                       (modules (MaterialTools.options this)) fetched
            = Return (dependencies data) /\
            LocalResolver_resolve (_flat (dependencies data))
                                  (path_resolve [moduleRoot versionData; "../"]) fetched
            = Return (files data) /\
            destination (MaterialTools.options this) = Some dest /\
            fse_mkdirp dest = None /\
            destinationFilename (MaterialTools.options this) = Some name /\
            JSBuilder_build data (path_join [dest; name] +:+ ".min.js") fetched = Return js /\
            CSSBuilder_build data fetched = Return css /\
            this' = {| MaterialTools.options :=
                         MaterialTools.set_version (resolvedVersion versionData)
                                                   (MaterialTools.options this);
                       MaterialTools.themeBuilder := MaterialTools.themeBuilder this |} /\
            let base := path_join [dest; name] in
            let license := banner (Some (resolvedVersion versionData))
                                  (_flat (dependencies data)) (fullYear (now w)) in
            let bundle := bundle_files base license js css in
            let started :=
              resolution_calls (MaterialTools.options this) versionData entryName
                               (dependencies data) ++
              [Mkdirp dest;
               Copy (path_join [root (files data); "module"; "LICENSE"])
                    (path_join [dest; "LICENSE"])
                    (fetched !! path_join [root (files data); "module"; "LICENSE"])] in
            w' = {| disk := write_all (bundle ++ themed) fetched;
                    now := now w;
                    trace := trace w ++ started ++ writes bundle ++
                             List.map ReadFile paths ++ writes themed |} /\
            (forall path, In path paths ->
               (In path (scss (files data)) /\
                is_base_name true (path_basename path) = true) \/
               In path (themes (files data))) /\
            match theme (MaterialTools.options this) with
            | None => paths = [] /\ themed = []
            | Some _ =>
                exists compiled sheet,
                  fst (MaterialTools._buildStaticTheme this' (files data)
                         {| disk := write_all bundle fetched;
                            now := now w;
                            trace := trace w ++ started ++ writes bundle |})
                  = Return compiled /\
                  CSSBuilder_buildStylesheet compiled = Return sheet /\
                  themed = theme_files base license sheet
            end)
    as Hdone.
  { intros _ Hthis -> -> -> Htheme. cbn [files dependencies].
    exists versionData, fetched, entryName, dest, name, js, css, paths, tdone.
    do 9 (split; [assumption|]). split; [exact Hthis|]. cbv zeta.
    split; [rewrite Hw', app_nil_r, <- !app_assoc; reflexivity|].
    split; [exact Hpaths|].
    destruct (theme (MaterialTools.options this)); [|exact Htheme].
    destruct Htheme as (compiled & sheet & Hstatic & Hsheet & Hthemed).
    exists compiled, sheet. rewrite <- !app_assoc in Hstatic |- *.
    repeat split; assumption. }
  destruct Hcases
    as [(Htheme & -> & Hb & -> & -> & Ht)
       |[(Htheme & -> & Hb & Ht & compiled & sheet & Hstatic & Hsheet & Hthemed)
        |[(failed & rest & e & -> & _)
         |[(_ & _ & _ & _ & e & -> & _)
          |(_ & _ & compiled & sheet & failed & rest & e & _ & _ & -> & _)]]]];
    try discriminate Ho.
  - injection Ho as -> ->. apply Hdone; try reflexivity; try assumption.
    rewrite Htheme. split; reflexivity.
  - injection Ho as Hthis Hdata. apply Hdone; try assumption; try (symmetry; assumption).
    { rewrite Hthis, Hdata. reflexivity. }
    destruct (theme (MaterialTools.options this)); [|contradiction Htheme; reflexivity].
    exists compiled, sheet. rewrite Hthis, Hb, <- !app_assoc.
    repeat split; assumption.
Qed.





(** C6, as amended: of the files a build that returns has written or
    set out to copy, the LICENSE file is the copy of the one in the
    package, the source map is the map of the JS builder as it is, and
    every other file starts with the banner; the banner contains the
    product name, the repository, the license, the resolved version, the
    tool, the modules included and the copyright line with the year of
    the clock. *)
Theorem build_banner (this this' : MaterialTools.t) (data : MaterialToolsData)
        (w w' : World) :
  MaterialTools.build this w = (Return (this', data), w') ->
  exists versionData fetched dest name js events artifacts,
    PackageResolver_resolve (version (MaterialTools.options this))
                            (cache (MaterialTools.options this)) (disk w)
    = (Return versionData, fetched) /\
    version (MaterialTools.options this') = Some (resolvedVersion versionData) /\
    destination (MaterialTools.options this) = Some dest /\
    destinationFilename (MaterialTools.options this) = Some name /\
    JSBuilder_build data (path_join [dest; name] +:+ ".min.js") fetched = Return js /\
    trace w' = trace w ++ events /\
    let license := banner (Some (resolvedVersion versionData))
                          (_flat (dependencies data)) (fullYear (now w)) in
    let map_name := (path_join [dest; name] +:+ ".min.js") +:+ ".map" in
    outputs events =
      match fetched !! path_join [root (files data); "module"; "LICENSE"] with
      | Some text => [(path_join [dest; "LICENSE"], text)]
      | None => []
      end ++ artifacts /\
    In (map_name, to_string (map js)) artifacts /\
    Forall (fun file => file = (map_name, to_string (map js)) \/
                        starts_with license (snd file)) artifacts /\
    has_infix "Angular Material Design" license /\
    has_infix "https://github.com/angular/material" license /\
    has_infix "@license MIT" license /\
    has_infix ("v" +:+ resolvedVersion versionData) license /\
    has_infix "Built with: material-tools" license /\
    has_infix ("Includes modules: " +:+ join ", " (_flat (dependencies data))) license /\
    has_infix ("Copyright " +:+ N_to_string (fullYear (now w))
               +:+ " Google Inc. All Rights Reserved.") license.
Proof.
  intros H.
  apply build_returns in H
    as (versionData & fetched & entryName & dest & name & js & css & paths & themed
        & Hpkg & _ & _ & _ & Hdest & _ & Hname & Hjs & _ & Hthis & Hw' & _ & Htheme).
  cbv zeta in Hw', Htheme.
  eexists versionData, fetched, dest, name, js, _, _.
  split; [exact Hpkg|]. split; [rewrite Hthis; reflexivity|].
  split; [exact Hdest|]. split; [exact Hname|]. split; [exact Hjs|].
  split; [rewrite Hw'; cbn [trace]; reflexivity|]. cbv zeta.
  split.
  { rewrite !outputs_app, outputs_writes, outputs_reads, outputs_writes.
    unfold resolution_calls. cbn [outputs omap list_omap output app].
    destruct (fetched !! _); cbn [app]; reflexivity. }
  split; [right; right; left; reflexivity|].
  split.
  { cbn [bundle_files app]. repeat (apply Forall_cons; split);
      try (right; eexists; reflexivity); try (left; reflexivity).
    destruct (theme (MaterialTools.options this)).
    - destruct Htheme as (compiled & sheet & _ & _ & ->).
      repeat (apply Forall_cons; split); try (right; eexists; reflexivity).
      constructor.
    - destruct Htheme as [_ ->]. constructor. }
  repeat split; apply banner_has_line; cbn [MaterialTools.license_lines In to_string]; tauto.
Qed.

End Build.
(** ** When a build returns *)

Section Succeeds.

Context {collaborators : Collaborators}.

Lemma write_all_is_Some (files : list (string * string)) (d : gmap string string)
      (path : string) :
  is_Some (d !! path) -> is_Some (write_all files d !! path).
Proof.
  revert d. induction files as [|file files IH]; intros d Hpath; [exact Hpath|].
  cbn [write_all List.fold_left]. apply IH.
  apply lookup_insert_is_Some'. right. exact Hpath.
Qed.

Lemma bundle_under_base (base license : string) (js : MaterialToolsOutput)
      (css : CSSBuildOutput) (file : string * string) :
  In file (bundle_files base license js css) -> exists suffix, fst file = base +:+ suffix.
Proof.
  intros Hin. cbn [bundle_files In] in Hin.
  destruct Hin as [<-|[<-|[<-|Hin]]]; [eexists; reflexivity|eexists; reflexivity| |].
  { exists (".min.js" +:+ ".map"). cbn [fst]. rewrite append_assoc. reflexivity. }
  repeat (destruct Hin as [<-|Hin]; [eexists; reflexivity|]). destruct Hin.
Qed.

Lemma theme_under_base (base license : string) (sheet : MaterialToolsOutput)
      (file : string * string) :
  In file (theme_files base license sheet) -> exists suffix, fst file = base +:+ suffix.
Proof.
  intros Hin. cbn [theme_files In] in Hin.
  repeat (destruct Hin as [<-|Hin]; [eexists; reflexivity|]). destruct Hin.
Qed.

(** X18: a build returns as soon as the options name the destination and
    the two file names, the three resolvers, [mkdirp] and the two
    builders return, the file system accepts the nine files named after
    [<base>], and, when a theme is configured, the resolved version
    has a key, the resolved SCSS and theme files are on the disk the
    package resolver leaves and the theme collaborators return. *)
Lemma build_succeeds (this : MaterialTools.t) (w : World) (dest name entryName : string)
      (versionData : VersionData) (fetched : gmap string string)
      (resolved : Dependencies) (found : LocalBuildFiles)
      (js : MaterialToolsOutput) (css : CSSBuildOutput) :
  destination (MaterialTools.options this) = Some dest ->
  destinationFilename (MaterialTools.options this) = Some name ->
  mainFilename (MaterialTools.options this) = Some entryName ->
  PackageResolver_resolve (version (MaterialTools.options this))
                          (cache (MaterialTools.options this)) (disk w)
  = (Return versionData, fetched) ->
  DependencyResolver_resolve (path_join [moduleRoot versionData; entryName])
                             (modules (MaterialTools.options this)) fetched
  = Return resolved ->
  LocalResolver_resolve (_flat resolved) (path_resolve [moduleRoot versionData; "../"])
                        fetched
  = Return found ->
  fse_mkdirp dest = None ->
  JSBuilder_build {| files := found; dependencies := resolved |}
                  (path_join [dest; name] +:+ ".min.js") fetched = Return js ->
  CSSBuilder_build {| files := found; dependencies := resolved |} fetched = Return css ->
  (forall d path,
      In path (bundle_names (path_join [dest; name]) ++ theme_names (path_join [dest; name])) ->
      fse_writeFileSync d path = None) ->
  (theme (MaterialTools.options this) = None \/
   (exists key,
       MaterialTools._getVersionNumber this (Some (resolvedVersion versionData)) = Return key) /\
   (forall path, In path (scss found ++ themes found) -> is_Some (fetched !! path)) /\
   (forall text, exists compiledCSS, CSSBuilder_compileSCSS text = Return compiledCSS) /\
   (forall builder compiledCSS,
       exists sheet, ThemingBuilder_build builder compiledCSS = Return sheet) /\
   (forall compiled, exists sheet, CSSBuilder_buildStylesheet compiled = Return sheet)) ->
  exists this' w',
    MaterialTools.build this w =
      (Return (this', {| files := found; dependencies := resolved |}), w').
Proof.
  intros Hdest Hname Hmain Hpkg Hdeps Hlocal Hmkdirp Hjs Hcss Haccepted Htheme.
  destruct (build_outcome this w entryName dest versionData fetched resolved found
              Hpkg Hmain Hdeps Hlocal Hdest Hmkdirp name Hname js css Hjs Hcss)
    as (o & bdone & paths & tdone & tail & Hbuild & _ & Hcases).
  rewrite Hbuild.
  destruct Hcases
    as [(_ & -> & _)
       |[(_ & -> & _)
        |[(failed & rest & e & _ & Hsplit & Hrefused & _)
         |[(Hconfigured & -> & _ & _ & e & _ & Hfails)
          |(Hconfigured & -> & compiled & sheet & failed & rest & e & _ & _ & _
            & Hsplit & Hrefused & _)]]]].
  - do 2 eexists. reflexivity.
  - do 2 eexists. reflexivity.
  - rewrite Haccepted in Hrefused; [discriminate Hrefused|].
    apply in_or_app. left.
    change (In (fst failed)
               (List.map fst (bundle_files (path_join [dest; name])
                                (banner (Some (resolvedVersion versionData)) (_flat resolved)
                                        (fullYear (now w))) js css))).
    apply in_map. rewrite Hsplit. apply in_or_app. right. left. reflexivity.
  - destruct Htheme as [Hnone|((key & Hkey) & Hpresent & Hcompile & Hthemed & Hsheet)];
      [contradiction|].
    lazymatch type of Hfails with
    | fst (MaterialTools._buildStaticTheme ?t ?f ?wcur) = _ \/ _ =>
        destruct (buildStaticTheme_succeeds t f wcur key) as (compiled & w1 & Hstatic);
          [exact Hkey| |exact Hcompile|exact Hthemed|]
    end.
    + intros path Hin. cbn [disk]. apply write_all_is_Some, Hpresent, Hin.
    + rewrite Hstatic in Hfails. cbn [fst] in Hfails.
      destruct Hfails as [Hthrows|(compiled' & Hreturns & Hthrows)];
        [discriminate Hthrows|].
      destruct (Hsheet compiled') as [sheet Hsheet'].
      rewrite Hsheet' in Hthrows. discriminate Hthrows.
  - rewrite Haccepted in Hrefused; [discriminate Hrefused|].
    apply in_or_app. right.
    change (In (fst failed)
               (List.map fst (theme_files (path_join [dest; name])
                                (banner (Some (resolvedVersion versionData)) (_flat resolved)
                                        (fullYear (now w))) sheet))).
    apply in_map. rewrite Hsplit. apply in_or_app. right. left. reflexivity.
Qed.

End Succeeds.
(** ** The quirk on releases with single digits *)

Section Quirk.

Context {collaborators : Collaborators}.

Lemma lt_of_N (x y : N) : lt (of_N x) (of_N y) = (x <? y)%N.
Proof.
  unfold lt, of_N, Qle_bool. cbn [Qnum Qden inject_Z]. rewrite !Z.mul_1_r.
  destruct (N.ltb_spec x y) as [H|H].
  - apply negb_true_iff, Z.leb_gt. lia.
  - apply negb_false_iff, Z.leb_le. lia.
Qed.

(** With a release-candidate number between 1 and 99, the key lies
    below an integer threshold exactly when the integer of the three
    digits is at most the threshold. *)
Lemma lt_rc_key_threshold (V T n : N) :
  (1 <= n <= 99)%N -> lt (rc_key V (of_N n)) (of_N T) = (V <=? T)%N.
Proof.
  intros [Hlo Hhi]. unfold rc_key, truthy, gt, lt, add, sub, div, of_N.
  assert (Hq1 : (1 <= inject_Z (Z.of_N n))%Q) by (rewrite <- (Zle_Qle 1); lia).
  assert (Hq2 : (inject_Z (Z.of_N n) <= 99)%Q) by (rewrite <- (Zle_Qle _ 99); lia).
  assert (Hvt : if (V <=? T)%N
                then (inject_Z (Z.of_N V) <= inject_Z (Z.of_N T))%Q
                else (inject_Z (Z.of_N T) + 1 <= inject_Z (Z.of_N V))%Q).
  { destruct (N.leb_spec V T).
    - rewrite <- Zle_Qle. lia.
    - change 1%Q with (inject_Z 1). rewrite <- inject_Z_plus, <- Zle_Qle. lia. }
  set (q := inject_Z (Z.of_N n)) in *. set (v := inject_Z (Z.of_N V)) in *.
  set (t := inject_Z (Z.of_N T)) in *.
  change (inject_Z (Z.of_N 1)) with 1%Q. change (inject_Z (Z.of_N 9)) with 9%Q.
  change (inject_Z (Z.of_N 100)) with 100%Q. change (inject_Z (Z.of_N 1000)) with 1000%Q.
  destruct (Qeq_bool q 0) eqn:E0.
  { apply Qeq_bool_iff in E0. lra. }
  cbn [negb].
  destruct (Qle_bool q 9) eqn:E9; cbn [negb];
    match goal with
    | |- context [Qeq_bool ?c 0] => change (Qeq_bool c 0) with false
    end; cbv iota;
    destruct (V <=? T)%N;
    match goal with
    | |- negb (Qle_bool ?a ?b) = true =>
        destruct (Qle_bool a b) eqn:E; [apply Qle_bool_iff in E|reflexivity]
    | |- negb (Qle_bool ?a ?b) = false =>
        assert (E : (a <= b)%Q); [|apply Qle_bool_iff in E; rewrite E; reflexivity]
    end;
    unfold Qdiv in *;
    try change (/ 1000)%Q with (1 # 1000)%Q in *;
    try change (/ 100)%Q with (1 # 100)%Q in *; lra.
Qed.

Lemma digit_value_bound (c : ascii) : is_digit c = true -> (digit_value c <= 9)%N.
Proof.
  unfold is_digit, digit_value. intros [_ H]%andb_prop.
  apply Nat.leb_le in H. lia.
Qed.

(** On releases written with single digits, with a release-candidate
    number between 1 and 99 or none, [themes.scss] joins the base set
    exactly for the releases that precede [1.1.0]. *)
Lemma themes_scss_quirk_single_digits (this : MaterialTools.t) (a b c : ascii)
      (suffix : string) (candidate : option N) :
  is_digit a = true -> is_digit b = true -> is_digit c = true ->
  (suffix = "" /\ candidate = None) \/
  (exists sep ds n,
      suffix = rc_text sep ds /\ (sep = "."%char \/ sep = "-"%char) /\
      all_digits ds = true /\ parseInt (Some ds) = of_N n /\ (1 <= n <= 99)%N /\
      candidate = Some n) ->
  version (MaterialTools.options this) = Some (version_text a b c suffix) ->
  MaterialTools.baseSCSSFiles this =
    Return (if precedes {| release_major := digit_value a;
                           release_minor := digit_value b;
                           release_patch := digit_value c;
                           release_candidate := candidate |}
                        {| release_major := 1; release_minor := 1; release_patch := 0;
                           release_candidate := None |}
            then ["variables.scss"; "mixins.scss"; "themes.scss"]
            else ["variables.scss"; "mixins.scss"]).
Proof.
  intros Ha Hb Hc Hsuffix Hversion.
  assert (Hkey : MaterialTools._getVersionNumber this None =
                 Return (rc_key (plain_key a b c)
                                (parseInt (snd (VersionRegex.rc_suffix suffix))))).
  { rewrite <- (getVersionNumber_version_text this) by assumption.
    unfold MaterialTools._getVersionNumber. rewrite Hversion. reflexivity. }
  rewrite (baseSCSSFiles_key this _ Hkey). do 2 f_equal.
  pose proof (digit_value_bound a Ha) as HA.
  pose proof (digit_value_bound b Hb) as HB.
  pose proof (digit_value_bound c Hc) as HC.
  unfold precedes, plain_key. cbn [release_major release_minor release_patch release_candidate].
  destruct Hsuffix as [[-> ->]|(sep & ds & n & -> & Hsep & Hds & Hn & Hrange & ->)].
  - change (parseInt (snd (VersionRegex.rc_suffix ""))) with NaN.
    change (rc_key ?V NaN) with (of_N V). rewrite lt_of_N.
    destruct (N.ltb_spec (10 * (10 * digit_value a + digit_value b) + digit_value c) 110);
      destruct (N.compare_spec (digit_value a) 1);
      destruct (N.compare_spec (digit_value b) 1);
      destruct (N.compare_spec (digit_value c) 0); reflexivity || lia.
  - assert (Hne : ds <> "") by (intros ->; discriminate Hn).
    rewrite rc_suffix_rc_text
      by (try assumption; destruct Hsep as [->| ->]; reflexivity).
    cbn [snd]. rewrite Hn, lt_rc_key_threshold by assumption.
    destruct (N.leb_spec (10 * (10 * digit_value a + digit_value b) + digit_value c) 110);
      destruct (N.compare_spec (digit_value a) 1);
      destruct (N.compare_spec (digit_value b) 1);
      destruct (N.compare_spec (digit_value c) 0); reflexivity || lia.
Qed.

End Quirk.

(** The release candidate [1.1.0-rc.5] precedes [1.1.0]: the legacy file is
    in the base set. *)
Example themes_scss_quirk_rc_5 :
  MaterialTools.baseSCSSFiles (Fixture.instance "1.1.0-rc.5" (Some "indigo"))
  = Return ["variables.scss"; "mixins.scss"; "themes.scss"].
Proof.
  rewrite (themes_scss_quirk_single_digits (Fixture.instance "1.1.0-rc.5" (Some "indigo"))
             "1" "1" "0" (rc_text "." "5") (Some 5%N)); try reflexivity.
  right. exists "."%char, "5", 5%N.
  repeat split; try reflexivity; try lia. left. reflexivity.
Qed.

(** ** Two builds of the same files *)

Section Reproducible.

Context {collaborators : Collaborators}.

Lemma agree_on_sym (paths : list string) (d1 d2 : gmap string string) :
  agree_on paths d1 d2 -> agree_on paths d2 d1.
Proof. intros H path Hin. symmetry. apply H, Hin. Qed.



End Reproducible.
(** ** The build of the package on disk *)

Section FixtureBuild.

Existing Instance Fixture.collaborators.



(** Version 1.0.9 of the package, with a theme, is built. *)
Lemma fixture_build_returns (w : World) :
  fst (MaterialTools.build (Fixture.instance "1.0.9" (Some "indigo")) w)
  = Return (Fixture.built "1.0.9" (Some "indigo"), Fixture.data) ->
  MaterialTools.build (Fixture.instance "1.0.9" (Some "indigo")) w
  = (Return (Fixture.built "1.0.9" (Some "indigo"), Fixture.data),
     snd (MaterialTools.build (Fixture.instance "1.0.9" (Some "indigo")) w)).
Proof. intros H. rewrite <- H. apply surjective_pairing. Qed.

Lemma fixture_build_2016 :
  fst (MaterialTools.build (Fixture.instance "1.0.9" (Some "indigo")) (Fixture.world 2016))
  = Return (Fixture.built "1.0.9" (Some "indigo"), Fixture.data).
Proof. vm_compute. reflexivity. Qed.


End FixtureBuild.



(** The same build: the map is written as the JS builder made it, and the
    bundle starts with the banner of version 1.0.9. *)
Lemma build_banner_witness :
  exists this' data w',
    MaterialTools.build (Fixture.instance "1.0.9" (Some "indigo")) (Fixture.world 2016)
      = (Return (this', data), w') /\
    In ("/out/angular-material.min.js.map", "{file:/out/angular-material.min.js}")
       (outputs (trace w')) /\
    has_infix "v1.0.9" (banner (Some "1.0.9") ["core"; "tooltip"] 2016).
Proof.
  pose proof (fixture_build_returns _ fixture_build_2016) as Hbuild.
  eexists _, _, _. split; [exact Hbuild|].
  destruct (build_banner _ _ _ _ _ Hbuild)
    as (versionData & fetched & dest & name & js & events & artifacts
        & Hpkg & _ & Hdest & Hname & Hjs & Htrace & Houtputs & Hmap & _
        & _ & _ & _ & Hversion & _).
  vm_compute in Hdest, Hname. injection Hdest as <-. injection Hname as <-.
  apply (f_equal fst) in Hpkg. vm_compute in Hpkg. injection Hpkg as <-.
  apply (f_equal (fun built => match built with
                               | Return js => map js
                               | Throw _ => None
                               end)) in Hjs.
  cbn in Hjs.
  split.
  - rewrite Htrace. cbn [Fixture.world trace app]. rewrite Houtputs.
    apply in_or_app. right. rewrite <- Hjs in Hmap. exact Hmap.
  - exact Hversion.
Defined.

(** C6 as stated fails: the build copies the LICENSE file of the package
    as it is, and its text does not start with the banner. *)
Lemma license_copy_has_no_banner :
  let w' := snd (MaterialTools.build (Fixture.instance "1.0.9" (Some "indigo"))
                                     (Fixture.world 2016)) in
  In ("/out/LICENSE", "The MIT License") (outputs (trace w')) /\
  ~ starts_with (banner (Some "1.0.9") ["core"; "tooltip"] 2016) "The MIT License".
Proof.
  split.
  - vm_compute. left. reflexivity.
  - intros [rest Hrest]. vm_compute in Hrest. discriminate Hrest.
Qed.


(** ** The constructor *)

Section Constructor.

Context {collaborators : Collaborators}.

(** C9: without options, or without a destination in them, the
    constructor throws one of its two configuration errors, and so does
    [new MaterialTools(...).build()]; the disk is as before and no
    resolver has been called. *)
Theorem constructor_rejects_without_destination (arg : MaterialTools.argument) (w : World) :
  without_destination arg ->
  exists message w' events,
    MaterialTools.constructor arg w = (Throw (Error message), w') /\
    MaterialTools.run arg w = (Throw (Error message), w') /\
    (message = "No options have been specified." \/
     message = "You have to specify a destination.") /\
    disk w' = disk w /\
    trace w' = trace w ++ events /\
    List.filter is_resolution events = [].
Proof.
  intros Hwithout.
  assert (Hctor : exists message w' events,
    MaterialTools.constructor arg w = (Throw (Error message), w') /\
    (message = "No options have been specified." \/
     message = "You have to specify a destination.") /\
    disk w' = disk w /\
    trace w' = trace w ++ events /\
    List.filter is_resolution events = []).
  { unfold MaterialTools.constructor.
    destruct arg as [|path|o]; cbn [without_destination] in Hwithout.
    - exists "No options have been specified.", w, [].
      rewrite app_nil_r. repeat split. left. reflexivity.
    - destruct (String.eqb path "") eqn:Hempty.
      + exists "No options have been specified.", w, [].
        rewrite app_nil_r. repeat split. left. reflexivity.
      + destruct Hwithout as [->|(o & Hloaded & Hfalsy)]; [discriminate Hempty|].
        exists "You have to specify a destination.",
               (record (Require (path_resolve [path])) w),
               [Require (path_resolve [path])].
        split; [|repeat split; right; reflexivity].
        erewrite bind_continues.
        2:{ erewrite bind_continues; [|reflexivity].
            unfold lift. rewrite Hloaded. reflexivity. }
        cbv zeta. cbn [MaterialTools.with_defaults destination]. rewrite Hfalsy.
        reflexivity.
    - exists "You have to specify a destination.", w, [].
      rewrite app_nil_r. split; [|repeat split; right; reflexivity].
      erewrite bind_continues; [|reflexivity].
      cbv zeta. cbn [MaterialTools.with_defaults destination]. rewrite Hwithout.
      reflexivity. }
  destruct Hctor as (message & w' & events & Hctor & Hrest).
  exists message, w', events. split; [exact Hctor|]. split; [|exact Hrest].
  unfold MaterialTools.run. apply bind_throws, Hctor.
Qed.

End Constructor.

(** No options at all, and options that lack nothing but a destination:
    the constructor throws and the trace has no call to a resolver. *)
Lemma constructor_rejects_without_destination_witness :
  (exists message w' events,
      MaterialTools.constructor (collaborators := Fixture.collaborators)
        MaterialTools.Missing (Fixture.world 2016) = (Throw (Error message), w') /\
      MaterialTools.run (collaborators := Fixture.collaborators)
        MaterialTools.Missing (Fixture.world 2016) = (Throw (Error message), w') /\
      (message = "No options have been specified." \/
       message = "You have to specify a destination.") /\
      disk w' = disk (Fixture.world 2016) /\
      trace w' = trace (Fixture.world 2016) ++ events /\
      List.filter is_resolution events = []) /\
  (exists message w' events,
      MaterialTools.constructor
        (MaterialTools.Given (collaborators := Fixture.collaborators)
                             Fixture.options_without_destination)
        (Fixture.world 2016) = (Throw (Error message), w') /\
      MaterialTools.run
        (MaterialTools.Given (collaborators := Fixture.collaborators)
                             Fixture.options_without_destination)
        (Fixture.world 2016) = (Throw (Error message), w') /\
      (message = "No options have been specified." \/
       message = "You have to specify a destination.") /\
      disk w' = disk (Fixture.world 2016) /\
      trace w' = trace (Fixture.world 2016) ++ events /\
      List.filter is_resolution events = []).
Proof.
  split.
  - apply (constructor_rejects_without_destination (collaborators := Fixture.collaborators)
             MaterialTools.Missing (Fixture.world 2016)).
    exact I.
  - apply (constructor_rejects_without_destination
             (MaterialTools.Given (collaborators := Fixture.collaborators)
                                  Fixture.options_without_destination)
             (Fixture.world 2016)).
    reflexivity.
Defined.

(** ** The local resolver *)

Section LocalResolverFacts.

Import LocalResolver.

Context {conventions : Conventions}.
Variable tree : gmap string (list string).

Lemma prefix_before_slash (pat a name : string) :
  no_slash pat = true ->
  String.prefix pat (a +:+ String "/" name) = String.prefix pat a.
Proof.
  revert a. induction pat as [|p pat IH]; intros a Hpat; [destruct a; reflexivity|].
  cbn [no_slash] in Hpat. apply andb_prop in Hpat as [Hp Hpat].
  destruct a as [|c a].
  - rewrite append_nil. cbn [String.prefix].
    destruct (ascii_dec p "/") as [->|_]; [discriminate Hp|reflexivity].
  - rewrite append_cons. cbn [String.prefix].
    destruct (ascii_dec p c); [apply IH, Hpat|reflexivity].
Qed.

Lemma contains_before_slash (pat a name : string) :
  no_slash pat = true -> pat <> "" ->
  contains pat (a +:+ String "/" name) = contains pat a || contains pat name.
Proof.
  intros Hpat Hne. induction a as [|c a IH].
  - rewrite append_nil. cbn [contains].
    rewrite <- (append_nil (String "/" name)), prefix_before_slash by assumption.
    destruct pat; [contradiction|reflexivity].
  - rewrite append_cons. cbn [contains]. rewrite IH.
    rewrite <- append_cons, prefix_before_slash by assumption.
    rewrite orb_assoc. reflexivity.
Qed.

(** The marker is in a path exactly when it is in the directory or in
    the file name. *)
Lemma minified_in_directory (dir name : string) :
  minified (in_directory dir name) = minified dir || minified name.
Proof.
  unfold minified, in_directory.
  change ("/" +:+ name) with (String "/" name).
  apply contains_before_slash; [reflexivity|discriminate].
Qed.

Lemma plain_spec (names : list string) (name : string) :
  In name (plain names) <-> In name names /\ minified name = false.
Proof.
  unfold plain. rewrite filter_In.
  destruct (minified name); cbn [negb]; intuition congruence.
Qed.

Lemma scripts_plain (names : list string) (name : string) :
  In name (scripts names) -> In name names /\ minified name = false.
Proof. unfold scripts. intros [H _]%filter_In. apply plain_spec, H. Qed.

Lemma styles_plain (names : list string) (name : string) :
  In name (styles names) -> In name names /\ minified name = false.
Proof. unfold styles. intros [H _]%filter_In. apply plain_spec, H. Qed.

(** What one module contributes when it resolves. *)
Lemma resolve_module_returns (root id : string) (resolved : ResolvedModuleFiles) :
  resolve_module tree root id = Return resolved ->
  exists names script,
    tree !! module_directory root id = Some names /\
    scripts names = [script] /\
    js resolved = [in_directory (module_directory root id) script] /\
    css resolved = List.map (in_directory (module_directory root id))
                     (List.filter (fun name => negb (is_theme name)) (styles names)) /\
    themes resolved = List.map (in_directory (module_directory root id))
                        (List.filter is_theme (styles names)).
Proof.
  unfold resolve_module.
  destruct (tree !! module_directory root id) as [names|]; [|discriminate].
  destruct (scripts names) as [|script [|more rest]] eqn:Hscripts; try discriminate.
  intros H. injection H as <-. exists names, script.
  repeat split; assumption || reflexivity.
Qed.

Lemma resolve_module_paths (root id path : string) (resolved : ResolvedModuleFiles) :
  resolve_module tree root id = Return resolved ->
  In path (js resolved ++ css resolved ++ themes resolved) ->
  exists names name,
    tree !! module_directory root id = Some names /\ In name names /\
    path = in_directory (module_directory root id) name /\
    minified name = false.
Proof.
  intros H Hin.
  apply resolve_module_returns in H as (names & script & Hdir & Hscripts & Hjs & Hcss & Hthemes).
  exists names. rewrite Hjs, Hcss, Hthemes in Hin.
  apply in_app_or in Hin as [Hin|Hin]; [|apply in_app_or in Hin as [Hin|Hin]].
  - destruct Hin as [<-|[]]. exists script.
    destruct (scripts_plain names script) as [? ?]; [rewrite Hscripts; left; reflexivity|].
    repeat split; assumption.
  - apply in_map_iff in Hin as (name & <- & [Hin _]%filter_In). exists name.
    destruct (styles_plain names name Hin) as [? ?]. repeat split; assumption.
  - apply in_map_iff in Hin as (name & <- & [Hin _]%filter_In). exists name.
    destruct (styles_plain names name Hin) as [? ?]. repeat split; assumption.
Qed.

Lemma resolve_modules_paths (root path : string) (ids : list string)
      (resolved : ResolvedModuleFiles) :
  resolve_modules tree root ids = Return resolved ->
  In path (js resolved ++ css resolved ++ themes resolved) ->
  exists id names name,
    In id ids /\
    tree !! module_directory root id = Some names /\ In name names /\
    path = in_directory (module_directory root id) name /\
    minified name = false.
Proof.
  revert resolved. induction ids as [|id ids IH]; intros resolved H Hin.
  - injection H as <-. contradiction.
  - cbn [resolve_modules] in H.
    destruct (resolve_module tree root id) as [first|] eqn:Hfirst; [|discriminate H].
    destruct (resolve_modules tree root ids) as [others|] eqn:Hothers; [|discriminate H].
    injection H as <-. cbn [merge js css themes] in Hin.
    assert (Hsplit : In path (js first ++ css first ++ themes first) \/
                     In path (js others ++ css others ++ themes others)).
    { rewrite !in_app_iff in *. tauto. }
    destruct Hsplit as [Hhere|Hthere].
    + destruct (resolve_module_paths root id path first Hfirst Hhere)
        as (names & name & ? & ? & ? & ?).
      exists id, names, name. repeat split; try assumption. left. reflexivity.
    + destruct (IH others eq_refl Hthere) as (id' & names & name & ? & ? & ? & ? & ?).
      exists id', names, name. repeat split; try assumption. right. assumption.
Qed.

(** C5, as amended: every path the resolver returns, in any of its three
    lists, is a file of the directory of one of the modules whose name
    does not contain [.min.]; the path as a whole contains the marker
    exactly when the path of the directory of the module does. *)
Theorem resolve_excludes_minified (ids : list string) (root path : string)
        (resolved : ResolvedModuleFiles) :
  resolve tree ids root = Return resolved ->
  In path (js resolved ++ css resolved ++ themes resolved) ->
  exists id names name,
    In id ids /\
    tree !! module_directory root id = Some names /\ In name names /\
    path = in_directory (module_directory root id) name /\
    minified name = false /\
    minified path = minified (module_directory root id).
Proof.
  unfold resolve. destruct (tree !! root); [|discriminate].
  intros H Hin.
  destruct (resolve_modules_paths root path ids resolved H Hin)
    as (id & names & name & Hid & Hdir & Hname & -> & Hplain).
  exists id, names, name. repeat split; try assumption.
  rewrite minified_in_directory, Hplain, orb_false_r. reflexivity.
Qed.

(** A module whose directory is missing, or holds no script that is not
    minified, makes the whole resolution fail. *)
Lemma resolve_modules_rejects (root id : string) (ids : list string) :
  In id ids ->
  (forall names, tree !! module_directory root id = Some names -> scripts names = []) ->
  exists e, resolve_modules tree root ids = Throw e.
Proof.
  intros Hin Hnone. induction ids as [|id' ids IH]; [contradiction|].
  cbn [resolve_modules].
  destruct (resolve_module tree root id') as [first|e] eqn:Hfirst; [|exists e; reflexivity].
  destruct Hin as [->|Hin].
  - apply resolve_module_returns in Hfirst as (names & script & Hdir & Hscripts & _).
    rewrite (Hnone names Hdir) in Hscripts. discriminate Hscripts.
  - destruct (IH Hin) as [e He]. exists e. cbn [bind]. rewrite He. reflexivity.
Qed.

(** Style files play no part in whether the resolution succeeds. *)
Lemma resolve_modules_succeeds (root : string) (ids : list string) :
  (forall id, In id ids ->
     exists names script,
       tree !! module_directory root id = Some names /\ scripts names = [script]) ->
  exists resolved, resolve_modules tree root ids = Return resolved.
Proof.
  induction ids as [|id ids IH]; intros Hall; [eexists; reflexivity|].
  destruct (Hall id) as (names & script & Hdir & Hscripts); [left; reflexivity|].
  destruct IH as [others Hothers]; [intros id' Hin; apply Hall; right; exact Hin|].
  cbn [resolve_modules]. unfold resolve_module. rewrite Hdir, Hscripts.
  cbn [bind]. rewrite Hothers. eexists. reflexivity.
Qed.

(** Each module contributes its one script, in the order of the modules. *)
Lemma resolve_modules_scripts (root : string) (ids : list string)
      (resolved : ResolvedModuleFiles) :
  resolve_modules tree root ids = Return resolved ->
  Forall2 (fun id path =>
             exists names script,
               tree !! module_directory root id = Some names /\
               scripts names = [script] /\
               path = in_directory (module_directory root id) script)
          ids (js resolved).
Proof.
  revert resolved. induction ids as [|id ids IH]; intros resolved H.
  - injection H as <-. constructor.
  - cbn [resolve_modules] in H.
    destruct (resolve_module tree root id) as [first|] eqn:Hfirst; [|discriminate H].
    destruct (resolve_modules tree root ids) as [others|] eqn:Hothers; [|discriminate H].
    injection H as <-. cbn [merge js].
    apply resolve_module_returns in Hfirst as (names & script & Hdir & Hscripts & -> & _).
    constructor; [|apply IH; reflexivity].
    exists names, script. repeat split; assumption.
Qed.

(** C4: the resolution succeeds as soon as the package root exists and
    every module has a directory with exactly one script that is not
    minified, whatever its style files; a module without any style file
    that is not minified resolves to its script, no style and no theme; a
    module without any script that is not minified makes the resolution
    fail; and a resolution that succeeds has one script for each module,
    in order. *)
Theorem resolve_requires_script_not_style :
  (forall ids root,
      is_Some (tree !! root) ->
      (forall id, In id ids ->
         exists names script,
           tree !! module_directory root id = Some names /\ scripts names = [script]) ->
      exists resolved, resolve tree ids root = Return resolved) /\
  (forall id root names script,
      is_Some (tree !! root) ->
      tree !! module_directory root id = Some names ->
      scripts names = [script] -> styles names = [] ->
      resolve tree [id] root =
        Return {| js := [in_directory (module_directory root id) script];
                  css := []; themes := [] |}) /\
  (forall ids root id names,
      In id ids ->
      tree !! module_directory root id = Some names -> scripts names = [] ->
      exists e, resolve tree ids root = Throw e) /\
  (forall ids root resolved,
      resolve tree ids root = Return resolved ->
      Forall2 (fun id path =>
                 exists names script,
                   tree !! module_directory root id = Some names /\
                   scripts names = [script] /\
                   path = in_directory (module_directory root id) script)
              ids (js resolved)).
Proof.
  repeat split.
  - intros ids root [listing Hroot] Hall. unfold resolve. rewrite Hroot.
    apply resolve_modules_succeeds, Hall.
  - intros id root names script [listing Hroot] Hdir Hscripts Hstyles.
    unfold resolve. rewrite Hroot. cbn [resolve_modules]. unfold resolve_module.
    rewrite Hdir, Hscripts, Hstyles. reflexivity.
  - intros ids root id names Hin Hdir Hscripts. unfold resolve.
    destruct (tree !! root); [|eexists; reflexivity].
    apply (resolve_modules_rejects root id); [exact Hin|].
    intros names' Hdir'. rewrite Hdir in Hdir'. injection Hdir' as <-. exact Hscripts.
  - intros ids root resolved. unfold resolve.
    destruct (tree !! root); [|discriminate]. apply resolve_modules_scripts.
Qed.

End LocalResolverFacts.

Section LocalResolverExamples.

Existing Instance Fixture.conventions.

(** The fixture of the tests: [tooltip] with its minified twins, [noCSS]
    and [noJS]. *)
Lemma resolve_excludes_minified_witness :
  LocalResolver.resolve Fixture.tree ["tooltip"; "noCSS"] "/fixtures" =
    Return {| LocalResolver.js := ["/fixtures/tooltip/tooltip.js"; "/fixtures/noCSS/noCSS.js"];
              LocalResolver.css := ["/fixtures/tooltip/tooltip.css"];
              LocalResolver.themes := ["/fixtures/tooltip/tooltip-default-theme.css"] |} /\
  exists id names name,
    In id ["tooltip"; "noCSS"] /\
    Fixture.tree !! LocalResolver.module_directory "/fixtures" id = Some names /\
    In name names /\
    "/fixtures/tooltip/tooltip.css"
      = LocalResolver.in_directory (LocalResolver.module_directory "/fixtures" id) name /\
    LocalResolver.minified name = false /\
    LocalResolver.minified "/fixtures/tooltip/tooltip.css"
      = LocalResolver.minified (LocalResolver.module_directory "/fixtures" id).
Proof.
  assert (Hresolved :
    LocalResolver.resolve Fixture.tree ["tooltip"; "noCSS"] "/fixtures" =
      Return {| LocalResolver.js := ["/fixtures/tooltip/tooltip.js"; "/fixtures/noCSS/noCSS.js"];
                LocalResolver.css := ["/fixtures/tooltip/tooltip.css"];
                LocalResolver.themes := ["/fixtures/tooltip/tooltip-default-theme.css"] |})
    by (vm_compute; reflexivity).
  split; [exact Hresolved|].
  apply (resolve_excludes_minified Fixture.tree ["tooltip"; "noCSS"] "/fixtures"
           "/fixtures/tooltip/tooltip.css" _ Hresolved).
  cbn. tauto.
Defined.

(** C5 as stated fails: under a package root whose name holds the marker
    the resolver returns the plain script of the module, and its path
    contains [.min.]. *)
Lemma marked_root_returns_marked_path :
  LocalResolver.resolve Fixture.marked_tree ["tooltip"] "/pkg.min.d" =
    Return {| LocalResolver.js := ["/pkg.min.d/tooltip/tooltip.js"];
              LocalResolver.css := ["/pkg.min.d/tooltip/tooltip.css"];
              LocalResolver.themes := [] |} /\
  LocalResolver.minified "/pkg.min.d/tooltip/tooltip.js" = true.
Proof. split; vm_compute; reflexivity. Qed.

(** [noCSS] resolves without style, [noJS] does not resolve. *)
Lemma resolve_requires_script_not_style_witness :
  LocalResolver.resolve Fixture.tree ["noCSS"] "/fixtures" =
    Return {| LocalResolver.js := ["/fixtures/noCSS/noCSS.js"];
              LocalResolver.css := []; LocalResolver.themes := [] |} /\
  exists e, LocalResolver.resolve Fixture.tree ["tooltip"; "noJS"] "/fixtures" = Throw e.
Proof.
  split.
  - assert (H := proj1 (proj2 (resolve_requires_script_not_style Fixture.tree))
                   "noCSS" "/fixtures" ["noCSS.js"; "noCSS.min.js"] "noCSS.js").
    rewrite H; [reflexivity|vm_compute; eexists; reflexivity|vm_compute; reflexivity..].
  - apply (proj1 (proj2 (proj2 (resolve_requires_script_not_style Fixture.tree)))
             ["tooltip"; "noJS"] "/fixtures" "noJS" ["noJS.css"; "noJS.min.js"]).
    + right. left. reflexivity.
    + vm_compute. reflexivity.
    + vm_compute. reflexivity.
Defined.

End LocalResolverExamples.

(** * Further properties *)

(** ** The version key as an order *)

Section KeyOrder.

Context {collaborators : Collaborators}.
Variable this : MaterialTools.t.

Lemma lt_Num (x y : Q) : lt (Num x) (Num y) = true <-> (x < y)%Q.
Proof.
  unfold lt. destruct (Qle_bool y x) eqn:E; cbn [negb].
  - apply Qle_bool_iff in E. split; [discriminate|]. intros H.
    exfalso. apply (Qlt_not_le _ _ H E).
  - split; [intros _|reflexivity].
    apply Qnot_le_lt. intros H. apply Qle_bool_iff in H. congruence.
Qed.

(** The key of a candidate, as a rational. *)
Lemma rc_key_fraction (V n : N) :
  (1 <= n)%N ->
  rc_key V (of_N n) = Num (inject_Z (Z.of_N V) - 1 + rc_fraction n).
Proof.
  intros Hn. unfold rc_key, rc_fraction, truthy, gt, lt, add, sub, div, of_N.
  assert (Hq : (1 <= inject_Z (Z.of_N n))%Q) by (rewrite <- (Zle_Qle 1); lia).
  destruct (Qeq_bool (inject_Z (Z.of_N n)) 0) eqn:E0.
  { apply Qeq_bool_iff in E0. lra. }
  cbn [negb].
  assert (E9 : Qle_bool (inject_Z (Z.of_N n)) (inject_Z (Z.of_N 9)) = negb (9 <? n)%N).
  { destruct (N.ltb_spec 9 n) as [H|H]; cbn [negb].
    - destruct (Qle_bool _ _) eqn:E; [|reflexivity].
      apply Qle_bool_iff in E. rewrite <- Zle_Qle in E. lia.
    - apply Qle_bool_iff. rewrite <- Zle_Qle. lia. }
  rewrite E9. destruct (9 <? n)%N; reflexivity.
Qed.

Lemma rc_fraction_positive (n : N) : (1 <= n)%N -> (0 < rc_fraction n)%Q.
Proof.
  intros Hn. unfold rc_fraction.
  assert (Hq : (1 <= inject_Z (Z.of_N n))%Q) by (rewrite <- (Zle_Qle 1); lia).
  unfold Qdiv. destruct (9 <? n)%N.
  - change (/ inject_Z 100)%Q with (1 # 100)%Q. lra.
  - change (/ inject_Z 1000)%Q with (1 # 1000)%Q. lra.
Qed.

Lemma rc_fraction_below_one (n : N) : (n <= 99)%N -> (rc_fraction n < 1)%Q.
Proof.
  intros Hn. unfold rc_fraction.
  assert (Hq : (inject_Z (Z.of_N n) <= 99)%Q) by (rewrite <- (Zle_Qle _ 99); lia).
  unfold Qdiv. destruct (N.ltb_spec 9 n).
  - change (/ inject_Z 100)%Q with (1 # 100)%Q. lra.
  - change (/ inject_Z 1000)%Q with (1 # 1000)%Q.
    assert (inject_Z (Z.of_N n) <= 9)%Q by (rewrite <- (Zle_Qle _ 9); lia). lra.
Qed.

(** The divisor changes from 1000 to 100 at ten, and the fraction still
    grows with the number, without bound. *)
Lemma rc_fraction_increasing (m n : N) :
  (1 <= m)%N -> (m < n)%N -> (rc_fraction m < rc_fraction n)%Q.
Proof.
  intros Hm Hmn. unfold rc_fraction.
  assert (Hq : (inject_Z (Z.of_N m) + 1 <= inject_Z (Z.of_N n))%Q).
  { change 1%Q with (inject_Z 1). rewrite <- inject_Z_plus, <- Zle_Qle. lia. }
  assert (Hq1 : (1 <= inject_Z (Z.of_N m))%Q) by (rewrite <- (Zle_Qle 1); lia).
  unfold Qdiv. destruct (N.ltb_spec 9 m), (N.ltb_spec 9 n); try lia.
  - change (/ inject_Z 100)%Q with (1 # 100)%Q. lra.
  - change (/ inject_Z 100)%Q with (1 # 100)%Q. change (/ inject_Z 1000)%Q with (1 # 1000)%Q.
    assert (inject_Z (Z.of_N m) <= 9)%Q by (rewrite <- (Zle_Qle _ 9); lia).
    assert (10 <= inject_Z (Z.of_N n))%Q by (rewrite <- (Zle_Qle 10); lia).
    lra.
  - change (/ inject_Z 1000)%Q with (1 # 1000)%Q. lra.
Qed.

Lemma rc_suffix_of (n : N) (suffix : string) :
  suffix_of (Some n) suffix ->
  parseInt (snd (VersionRegex.rc_suffix suffix)) = of_N n.
Proof.
  intros (sep & ds & -> & Hsep & Hds & Hn).
  assert (Hne : ds <> "") by (intros ->; discriminate Hn).
  rewrite rc_suffix_rc_text by (try assumption; destruct Hsep as [->| ->]; reflexivity).
  exact Hn.
Qed.

(** The key of a release written with single digits. *)
Lemma getVersionNumber_release (a b c : ascii) (candidate : option N) (suffix : string) :
  is_digit a = true -> is_digit b = true -> is_digit c = true ->
  suffix_of candidate suffix ->
  MaterialTools._getVersionNumber this (Some (version_text a b c suffix)) =
    Return match candidate with
           | Some n => rc_key (plain_key a b c) (of_N n)
           | None => of_N (plain_key a b c)
           end.
Proof.
  intros Ha Hb Hc Hsuffix. rewrite getVersionNumber_version_text by assumption.
  destruct candidate as [n|].
  - rewrite (rc_suffix_of n suffix Hsuffix). reflexivity.
  - cbn [suffix_of] in Hsuffix. subst suffix. reflexivity.
Qed.

Lemma precedes_key (a b c a' b' c' : ascii) (r r' : option N) :
  is_digit a = true -> is_digit b = true -> is_digit c = true ->
  is_digit a' = true -> is_digit b' = true -> is_digit c' = true ->
  precedes (release_of a b c r) (release_of a' b' c' r') = true <->
  (plain_key a b c < plain_key a' b' c')%N \/
  (plain_key a b c = plain_key a' b' c' /\
   match r, r' with
   | Some n, Some m => (n < m)%N
   | Some _, None => True
   | None, _ => False
   end).
Proof.
  intros Ha Hb Hc Ha' Hb' Hc'.
  pose proof (digit_value_bound a Ha). pose proof (digit_value_bound b Hb).
  pose proof (digit_value_bound c Hc). pose proof (digit_value_bound a' Ha').
  pose proof (digit_value_bound b' Hb'). pose proof (digit_value_bound c' Hc').
  unfold precedes, release_of, plain_key.
  cbn [release_major release_minor release_patch release_candidate].
  destruct (N.compare_spec (digit_value a) (digit_value a'));
    destruct (N.compare_spec (digit_value b) (digit_value b'));
    destruct (N.compare_spec (digit_value c) (digit_value c'));
    try (split; [intros _; left; lia|reflexivity]);
    try (split; [discriminate|intros [?|[? _]]; lia]).
  destruct r as [n|], r' as [m|].
  - rewrite N.ltb_lt. split; [intros ?; right; split; [lia|assumption]|].
    intros [?|[_ ?]]; [lia|assumption].
  - split; [intros _; right; split; [lia|exact I]|reflexivity].
  - split; [discriminate|intros [?|[_ []]]; lia].
  - split; [discriminate|intros [?|[_ []]]; lia].
Qed.

(** X1: on releases written with single digits, whose candidate numbers lie
    between 1 and 99, comparing keys is comparing releases: the key of
    one lies below the key of the other exactly when the first release
    precedes the second. *)
Theorem key_order_single_digits (a b c a' b' c' : ascii) (r r' : option N)
        (suffix suffix' : string) :
  is_digit a = true -> is_digit b = true -> is_digit c = true ->
  is_digit a' = true -> is_digit b' = true -> is_digit c' = true ->
  suffix_of r suffix -> suffix_of r' suffix' ->
  (forall n, r = Some n -> (1 <= n <= 99)%N) ->
  (forall n, r' = Some n -> (1 <= n <= 99)%N) ->
  exists key key',
    MaterialTools._getVersionNumber this (Some (version_text a b c suffix)) = Return key /\
    MaterialTools._getVersionNumber this (Some (version_text a' b' c' suffix')) = Return key' /\
    lt key key' = precedes (release_of a b c r) (release_of a' b' c' r').
Proof.
  intros Ha Hb Hc Ha' Hb' Hc' Hsuffix Hsuffix' Hr Hr'.
  rewrite (getVersionNumber_release a b c r suffix) by assumption.
  rewrite (getVersionNumber_release a' b' c' r' suffix') by assumption.
  do 2 eexists. split; [reflexivity|]. split; [reflexivity|].
  apply Bool.eq_iff_eq_true. rewrite precedes_key by assumption.
  set (V := plain_key a b c). set (W := plain_key a' b' c').
  assert (HVW : ((V < W)%N /\ (inject_Z (Z.of_N V) + 1 <= inject_Z (Z.of_N W))%Q) \/
                (V = W) \/
                ((W < V)%N /\ (inject_Z (Z.of_N W) + 1 <= inject_Z (Z.of_N V))%Q)).
  { destruct (N.lt_trichotomy V W) as [H|[H|H]]; [left|right; left|right; right];
      try exact H; (split; [exact H|]);
      change 1%Q with (inject_Z 1); rewrite <- inject_Z_plus, <- Zle_Qle; lia. }
  destruct r as [n|], r' as [m|].
  - destruct (Hr n eq_refl) as [Hn1 Hn2]. destruct (Hr' m eq_refl) as [Hm1 Hm2].
    rewrite !rc_key_fraction by assumption. rewrite lt_Num.
    pose proof (rc_fraction_positive n Hn1). pose proof (rc_fraction_below_one n Hn2).
    pose proof (rc_fraction_positive m Hm1). pose proof (rc_fraction_below_one m Hm2).
    destruct HVW as [[HV1 HV2]|[HV1|[HV1 HV2]]].
    + split; [intros _; left; exact HV1|intros _; lra].
    + rewrite HV1. split.
      * intros H3. right. split; [reflexivity|].
        destruct (N.lt_ge_cases n m) as [Hlt|Hge]; [exact Hlt|exfalso].
        destruct (N.eq_dec m n) as [->|Hne]; [lra|].
        assert (rc_fraction m < rc_fraction n)%Q by (apply rc_fraction_increasing; lia).
        lra.
      * intros [Hlt|[_ Hlt]]; [lia|].
        assert (rc_fraction n < rc_fraction m)%Q by (apply rc_fraction_increasing; lia).
        lra.
    + split; [intros H3; exfalso; lra|intros [?|[? _]]; lia].
  - destruct (Hr n eq_refl) as [Hn1 Hn2].
    rewrite rc_key_fraction by assumption. unfold of_N at 1. rewrite lt_Num.
    pose proof (rc_fraction_positive n Hn1). pose proof (rc_fraction_below_one n Hn2).
    destruct HVW as [[HV1 HV2]|[HV1|[HV1 HV2]]].
    + split; [intros _; left; exact HV1|intros _; lra].
    + rewrite HV1. split; [intros _; right; split; [reflexivity|exact I]|intros _; lra].
    + split; [intros H3; exfalso; lra|intros [?|[? _]]; lia].
  - destruct (Hr' m eq_refl) as [Hm1 Hm2].
    rewrite rc_key_fraction by assumption. unfold of_N at 1. rewrite lt_Num.
    pose proof (rc_fraction_positive m Hm1). pose proof (rc_fraction_below_one m Hm2).
    destruct HVW as [[HV1 HV2]|[HV1|[HV1 HV2]]].
    + split; [intros _; left; exact HV1|intros _; lra].
    + rewrite HV1. split; [intros H3; exfalso; lra|intros [?|[_ []]]; lia].
    + split; [intros H3; exfalso; lra|intros [?|[? _]]; lia].
  - rewrite lt_of_N, N.ltb_lt. split; [intros ?; left; assumption|].
    intros [?|[_ []]]. assumption.
Qed.

End KeyOrder.

(** The releases [1.0.9], [1.1.0-rc.2] and [1.1.0], in this order. *)
Lemma key_order_single_digits_witness :
  (exists key key',
      MaterialTools._getVersionNumber (Fixture.instance "node" None)
        (Some (version_text "1" "0" "9" "")) = Return key /\
      MaterialTools._getVersionNumber (Fixture.instance "node" None)
        (Some (version_text "1" "1" "0" (rc_text "." "2"))) = Return key' /\
      lt key key' = true) /\
  (exists key key',
      MaterialTools._getVersionNumber (Fixture.instance "node" None)
        (Some (version_text "1" "1" "0" (rc_text "." "2"))) = Return key /\
      MaterialTools._getVersionNumber (Fixture.instance "node" None)
        (Some (version_text "1" "1" "0" "")) = Return key' /\
      lt key key' = true).
Proof.
  split.
  - apply (key_order_single_digits (Fixture.instance "node" None)
             "1" "0" "9" "1" "1" "0" None (Some 2%N) "" (rc_text "." "2"));
      try reflexivity; try discriminate.
    + exists "."%char, "2". repeat split. left. reflexivity.
    + intros n [= <-]. lia.
  - apply (key_order_single_digits (Fixture.instance "node" None)
             "1" "1" "0" "1" "1" "0" (Some 2%N) None (rc_text "." "2") "");
      try reflexivity; try discriminate.
    + exists "."%char, "2". repeat split. left. reflexivity.
    + intros n [= <-]. lia.
Defined.

Section Candidates.

Context {collaborators : Collaborators}.
Variable this : MaterialTools.t.

(** X2: among the candidates of one release a higher number has a higher
    key: the switch of the divisor at ten keeps the order, and so do
    numbers of three digits and more.  The numbers are taken below [10^9],
    where the keys, which lie at least a thousandth apart, are told apart by
    doubles as they are by the rationals of the model. *)
Theorem candidate_keys_increase (a b c : ascii) (m n : N) (suffix suffix' : string) :
  is_digit a = true -> is_digit b = true -> is_digit c = true ->
  suffix_of (Some m) suffix -> suffix_of (Some n) suffix' ->
  (1 <= m)%N -> (m < n)%N -> (n < 1000000000)%N ->
  exists key key',
    MaterialTools._getVersionNumber this (Some (version_text a b c suffix)) = Return key /\
    MaterialTools._getVersionNumber this (Some (version_text a b c suffix')) = Return key' /\
    lt key key' = true.
Proof.
  intros Ha Hb Hc Hsuffix Hsuffix' Hm Hmn _.
  rewrite (getVersionNumber_release this a b c (Some m) suffix) by assumption.
  rewrite (getVersionNumber_release this a b c (Some n) suffix') by assumption.
  do 2 eexists. split; [reflexivity|]. split; [reflexivity|].
  rewrite !rc_key_fraction by lia. apply lt_Num.
  pose proof (rc_fraction_increasing m n Hm Hmn). lra.
Qed.

(** X3: the candidate number zero is no candidate: [if (rcVersion)] takes it for
    absent, and the key is the key of the release. *)
Theorem candidate_zero_is_final (a b c : ascii) (suffix : string) :
  is_digit a = true -> is_digit b = true -> is_digit c = true ->
  suffix_of (Some 0%N) suffix ->
  MaterialTools._getVersionNumber this (Some (version_text a b c suffix))
    = Return (of_N (plain_key a b c)) /\
  MaterialTools._getVersionNumber this (Some (version_text a b c ""))
    = Return (of_N (plain_key a b c)).
Proof.
  intros Ha Hb Hc Hsuffix. split.
  - rewrite (getVersionNumber_release this a b c (Some 0%N) suffix) by assumption.
    reflexivity.
  - rewrite (getVersionNumber_release this a b c None "") by (assumption || reflexivity).
    reflexivity.
Qed.

Lemma rc_suffix_inv (suffix ds : string) :
  snd (VersionRegex.rc_suffix suffix) = Some ds ->
  exists sep rest, suffix = rc_text sep rest.
Proof.
  intros H.
  destruct suffix as [|c1 [|c2 [|c3 [|sep rest]]]]; try discriminate H.
  all: destruct c1 as [[] [] [] [] [] [] [] []]; try discriminate H.
  all: destruct c2 as [[] [] [] [] [] [] [] []]; try discriminate H.
  all: destruct c3 as [[] [] [] [] [] [] [] []]; try discriminate H.
  exists sep, rest. reflexivity.
Qed.

(** X4: what follows the patch digit counts only when it is [-rc], one
    character and a number: any other text is ignored, be it a further
    digit, a fourth number or another tag. *)
Theorem trailing_text_is_ignored (a b c : ascii) (suffix : string) :
  is_digit a = true -> is_digit b = true -> is_digit c = true ->
  (forall sep rest, suffix <> rc_text sep rest) ->
  MaterialTools._getVersionNumber this (Some (version_text a b c suffix))
    = Return (of_N (plain_key a b c)).
Proof.
  intros Ha Hb Hc Hsuffix. rewrite getVersionNumber_version_text by assumption.
  destruct (snd (VersionRegex.rc_suffix suffix)) as [ds|] eqn:Hrc; [|reflexivity].
  destruct (rc_suffix_inv suffix ds Hrc) as (sep & rest & Heq).
  destruct (Hsuffix sep rest Heq).
Qed.

Lemma exec_no_digit (p s : string) :
  no_digit p = true -> VersionRegex.exec (p +:+ s) = VersionRegex.exec s.
Proof.
  intros Hp. induction p as [|c p IH]; [reflexivity|].
  cbn [no_digit] in Hp. apply andb_prop in Hp as [Hc Hp].
  rewrite append_cons, exec_skip; [apply IH, Hp|].
  destruct (VersionRegex.match_here (String c (p +:+ s))) as [found|] eqn:E; [|reflexivity].
  apply match_here_inv in E as (a & b' & c' & rest & Heq & Ha & _).
  unfold version_text in Heq. injection Heq as -> _.
  rewrite Ha in Hc. discriminate Hc.
Qed.

(** X5: text in front of the version that holds no digit is skipped: the
    pattern has no anchor. *)
Theorem leading_text_is_skipped (p v : string) :
  no_digit p = true ->
  MaterialTools._getVersionNumber this (Some (p +:+ v))
    = MaterialTools._getVersionNumber this (Some v).
Proof.
  intros Hp. unfold MaterialTools._getVersionNumber. cbn [MaterialTools.or_default].
  rewrite exec_no_digit by assumption. reflexivity.
Qed.

(** X6: a version without any digit has no key: the call ends in the
    [TypeError] of [null.slice].  This is so for [node], the default of
    [options.version], as long as it has not been resolved. *)
Theorem version_without_digit_throws (v : string) :
  no_digit v = true ->
  MaterialTools._getVersionNumber this (Some v)
    = Throw (TypeError "Cannot read property 'slice' of null") /\
  (version (MaterialTools.options this) = Some v ->
   MaterialTools._getVersionNumber this None
     = Throw (TypeError "Cannot read property 'slice' of null")).
Proof.
  intros Hv.
  assert (Hexec : VersionRegex.exec v = None).
  { rewrite <- (append_nil_r v), exec_no_digit by assumption. reflexivity. }
  unfold MaterialTools._getVersionNumber. split.
  - cbn [MaterialTools.or_default]. rewrite Hexec. reflexivity.
  - intros ->. cbn [MaterialTools.or_default]. rewrite Hexec. reflexivity.
Qed.

End Candidates.

(** [1.1.0-rc.9], [1.1.0-rc.10] and [1.1.0-rc.250]. *)
Lemma candidate_keys_increase_witness :
  (exists key key',
      MaterialTools._getVersionNumber (Fixture.instance "node" None)
        (Some (version_text "1" "1" "0" (rc_text "." "9"))) = Return key /\
      MaterialTools._getVersionNumber (Fixture.instance "node" None)
        (Some (version_text "1" "1" "0" (rc_text "." "10"))) = Return key' /\
      lt key key' = true) /\
  (exists key key',
      MaterialTools._getVersionNumber (Fixture.instance "node" None)
        (Some (version_text "1" "1" "0" (rc_text "." "10"))) = Return key /\
      MaterialTools._getVersionNumber (Fixture.instance "node" None)
        (Some (version_text "1" "1" "0" (rc_text "-" "250"))) = Return key' /\
      lt key key' = true).
Proof.
  split.
  - apply (candidate_keys_increase (Fixture.instance "node" None) "1" "1" "0" 9 10);
      try reflexivity; try lia.
    + exists "."%char, "9". repeat split. left. reflexivity.
    + exists "."%char, "10". repeat split. left. reflexivity.
  - apply (candidate_keys_increase (Fixture.instance "node" None) "1" "1" "0" 10 250);
      try reflexivity; try lia.
    + exists "."%char, "10". repeat split. left. reflexivity.
    + exists "-"%char, "250". repeat split. right. reflexivity.
Defined.

(** [1.1.0-rc.0] has the key of [1.1.0]. *)
Lemma candidate_zero_is_final_witness :
  MaterialTools._getVersionNumber (Fixture.instance "node" None)
    (Some (version_text "1" "1" "0" (rc_text "." "0"))) = Return (of_N 110) /\
  MaterialTools._getVersionNumber (Fixture.instance "node" None)
    (Some (version_text "1" "1" "0" "")) = Return (of_N 110).
Proof.
  apply (candidate_zero_is_final (Fixture.instance "node" None) "1" "1" "0");
    try reflexivity.
  exists "."%char, "0". repeat split. left. reflexivity.
Defined.

(** [1.1.0-beta.3] has the key of [1.1.0]. *)
Lemma trailing_text_is_ignored_witness :
  MaterialTools._getVersionNumber (Fixture.instance "node" None)
    (Some (version_text "1" "1" "0" "-beta.3")) = Return (of_N 110).
Proof.
  apply (trailing_text_is_ignored (Fixture.instance "node" None) "1" "1" "0" "-beta.3");
    try reflexivity.
  intros sep rest H. discriminate H.
Defined.

(** [v1.0.9] has the key of [1.0.9]. *)
Lemma leading_text_is_skipped_witness :
  MaterialTools._getVersionNumber (Fixture.instance "node" None) (Some ("v" +:+ "1.0.9"))
    = MaterialTools._getVersionNumber (Fixture.instance "node" None) (Some "1.0.9").
Proof.
  apply (leading_text_is_skipped (Fixture.instance "node" None) "v" "1.0.9").
  reflexivity.
Defined.

(** The default version [node]. *)
Lemma version_without_digit_throws_witness :
  MaterialTools._getVersionNumber (Fixture.instance "node" None) None
    = Throw (TypeError "Cannot read property 'slice' of null").
Proof.
  apply (proj2 (version_without_digit_throws (Fixture.instance "node" None) "node" eq_refl)).
  reflexivity.
Defined.

(** ** The constructor, when it returns *)

Section ConstructorReturns.

Context {collaborators : Collaborators}.

Lemma truthy_string_spec (x : option string) :
  MaterialTools.truthy_string x = true <-> exists s, x = Some s /\ s <> "".
Proof.
  unfold MaterialTools.truthy_string. destruct x as [s|].
  - destruct (String.eqb_spec s ""); cbn [negb]; split.
    + discriminate.
    + intros (s' & [= <-] & Hne). contradiction.
    + intros _. exists s. split; [reflexivity|assumption].
    + reflexivity.
  - split; [discriminate|]. intros (s & H & _). discriminate H.
Qed.

Lemma constructor_given_returns (o : MaterialToolsOptions MdTheme) (this : MaterialTools.t)
      (w w' : World) :
  MaterialTools.constructor (MaterialTools.Given o) w = (Return this, w') ->
  exists dest,
    destination o = Some dest /\ dest <> "" /\ w' = w /\
    MaterialTools.options this
      = MaterialTools.set_destination (path_resolve [dest]) (MaterialTools.with_defaults o) /\
    match theme o with
    | Some configured =>
        exists builder, ThemingBuilder_new configured = Return builder /\
                        MaterialTools.themeBuilder this = Some builder
    | None => MaterialTools.themeBuilder this = None
    end.
Proof.
  unfold MaterialTools.constructor. intros H. returned.
  cbn [MaterialTools.with_defaults destination] in *.
  destruct (MaterialTools.truthy_string (destination o)) eqn:Hdest; returned.
  apply truthy_string_spec in Hdest as (dest & Hdest & Hne).
  exists dest. rewrite Hdest in *. cbn [to_string] in *.
  cbn [MaterialTools.set_destination MaterialTools.with_defaults theme] in *.
  destruct (theme o) as [configured|]; returned.
  - repeat split; try assumption. eexists. split; [eassumption|reflexivity].
  - repeat split; assumption.
Qed.

(** X7: when the constructor returns, it has touched neither the
    disk nor the trace; the destination is the given one made absolute;
    [version], [mainFilename], [destinationFilename] and [cache] are the
    given ones, and the defaults only where none was given; [modules] and
    [theme] are as given. *)
Theorem constructor_fills_defaults (o : MaterialToolsOptions MdTheme) (this : MaterialTools.t)
        (w w' : World) :
  MaterialTools.constructor (MaterialTools.Given o) w = (Return this, w') ->
  w' = w /\
  (exists dest, destination o = Some dest /\ dest <> "" /\
                destination (MaterialTools.options this) = Some (path_resolve [dest])) /\
  version (MaterialTools.options this) = Some (default "node" (version o)) /\
  mainFilename (MaterialTools.options this)
    = Some (default "angular-material.js" (mainFilename o)) /\
  destinationFilename (MaterialTools.options this)
    = Some (default "angular-material" (destinationFilename o)) /\
  cache (MaterialTools.options this) = Some (default "./.material-cache/" (cache o)) /\
  modules (MaterialTools.options this) = modules o /\
  theme (MaterialTools.options this) = theme o.
Proof.
  intros H.
  apply constructor_given_returns in H as (dest & Hdest & Hne & -> & -> & _).
  split; [reflexivity|]. split.
  { exists dest. repeat split; assumption. }
  cbn [MaterialTools.set_destination MaterialTools.with_defaults MaterialTools.DEFAULTS
       version mainFilename destinationFilename cache modules theme
       MaterialTools.or_default].
  destruct (version o), (mainFilename o), (destinationFilename o), (cache o);
    repeat split.
Qed.

(** X8: given options, the constructor returns exactly
    when the destination is a string that is not empty and, if a theme is
    given, the theming builder can be made for it. *)
Theorem constructor_returns_iff (o : MaterialToolsOptions MdTheme) (w : World) :
  (exists this w', MaterialTools.constructor (MaterialTools.Given o) w = (Return this, w')) <->
  (exists dest, destination o = Some dest /\ dest <> "") /\
  match theme o with
  | Some configured => exists builder, ThemingBuilder_new configured = Return builder
  | None => True
  end.
Proof.
  split.
  - intros (this & w' & H).
    apply constructor_given_returns in H as (dest & Hdest & Hne & _ & _ & Htheme).
    split; [exists dest; split; assumption|].
    destruct (theme o); [|exact I].
    destruct Htheme as (builder & Hbuilder & _). exists builder. exact Hbuilder.
  - intros [Hdest Htheme]. apply truthy_string_spec in Hdest.
    unfold MaterialTools.constructor.
    erewrite bind_continues by reflexivity. cbv zeta.
    cbn [MaterialTools.with_defaults destination]. rewrite Hdest.
    erewrite bind_continues by reflexivity.
    cbn [MaterialTools.set_destination MaterialTools.with_defaults theme].
    destruct (theme o) as [configured|].
    + destruct Htheme as [builder Hbuilder].
      erewrite bind_continues.
      2:{ erewrite bind_continues by (unfold lift; rewrite Hbuilder; reflexivity).
          reflexivity. }
      do 2 eexists. reflexivity.
    + erewrite bind_continues by reflexivity. do 2 eexists. reflexivity.
Qed.

(** Given the path of a configuration file, the constructor loads it
    with [require] at the absolute path and goes on as with the options the
    file exports; when [require] throws, the constructor throws the same. *)
Lemma constructor_requires (path : string) (w : World) :
  path <> "" ->
  match require_config (path_resolve [path]) with
  | Return o =>
      MaterialTools.constructor (MaterialTools.ConfigFile path) w
      = MaterialTools.constructor (MaterialTools.Given o)
                                  (record (Require (path_resolve [path])) w)
  | Throw e =>
      MaterialTools.constructor (MaterialTools.ConfigFile path) w
      = (Throw e, record (Require (path_resolve [path])) w)
  end.
Proof.
  intros Hpath. unfold MaterialTools.constructor.
  destruct (String.eqb_spec path ""); [contradiction|].
  destruct (require_config (path_resolve [path])) as [o|e] eqn:Hrequire.
  - erewrite bind_continues.
    2:{ erewrite bind_continues by reflexivity. reflexivity. }
    erewrite (bind_continues (ret o)) by reflexivity. reflexivity.
  - apply bind_throws. erewrite bind_continues by reflexivity. reflexivity.
Qed.

(** The constructor makes a theme builder exactly when the options have a
    theme. *)
Lemma constructor_theme_builder (arg : MaterialTools.argument) (this : MaterialTools.t)
      (w w' : World) :
  MaterialTools.constructor arg w = (Return this, w') ->
  (MaterialTools.themeBuilder this = None <-> theme (MaterialTools.options this) = None).
Proof.
  intros H.
  assert (Hgiven : exists o w0,
             MaterialTools.constructor (MaterialTools.Given o) w0 = (Return this, w')).
  { destruct arg as [|path|o].
    - discriminate H.
    - destruct (String.eqb_spec path "") as [->|Hne]; [discriminate H|].
      pose proof (constructor_requires path w Hne) as Hfile.
      destruct (require_config (path_resolve [path])) as [o|e].
      + rewrite Hfile in H. eauto.
      + rewrite Hfile in H. discriminate H.
    - eauto. }
  destruct Hgiven as (o & w0 & Hgiven).
  apply constructor_given_returns in Hgiven as (dest & _ & _ & _ & -> & Htheme).
  cbn [MaterialTools.set_destination MaterialTools.with_defaults theme].
  destruct (theme o).
  - destruct Htheme as (builder & _ & ->). split; discriminate.
  - rewrite Htheme. split; reflexivity.
Qed.

Lemma buildStaticTheme_returns_sheet (this : MaterialTools.t) (buildFiles : LocalBuildFiles)
      (compiled : option string) (w w' : World) :
  MaterialTools.themeBuilder this <> None ->
  MaterialTools._buildStaticTheme this buildFiles w = (Return compiled, w') ->
  exists sheet, compiled = Some sheet.
Proof.
  unfold MaterialTools._buildStaticTheme. intros Hbuilder H.
  destruct (MaterialTools.themeBuilder this); [|contradiction]. returned.
  eexists. reflexivity.
Qed.

Lemma build_keeps_theme (this this' : MaterialTools.t) (data : MaterialToolsData)
      (w w' : World) :
  MaterialTools.build this w = (Return (this', data), w') ->
  MaterialTools.themeBuilder this' = MaterialTools.themeBuilder this /\
  theme (MaterialTools.options this') = theme (MaterialTools.options this).
Proof.
  intros H.
  apply build_returns in H
    as (versionData & fetched & entryName & dest & name & js & css & paths & themed
        & _ & _ & _ & _ & _ & _ & _ & _ & _ & -> & _).
  split; reflexivity.
Qed.

(** X9: no stylesheet of [undefined].  In [new MaterialTools(_options).build()]
    that returns with a theme configured, [_buildStaticTheme] has not left
    by its early [return]: the stylesheet handed to
    [CSSBuilder._buildStylesheet] is one the theming builder returned. *)
Theorem run_theme_is_compiled (arg : MaterialTools.argument) (this' : MaterialTools.t)
        (data : MaterialToolsData) (w w' : World) :
  MaterialTools.run arg w = (Return (this', data), w') ->
  theme (MaterialTools.options this') <> None ->
  MaterialTools.themeBuilder this' <> None /\
  exists sheet out w1 w2,
    MaterialTools._buildStaticTheme this' (files data) w1 = (Return (Some sheet), w2) /\
    CSSBuilder_buildStylesheet (Some sheet) = Return out.
Proof.
  unfold MaterialTools.run. intros H Htheme.
  apply bind_returns in H as (this & w0 & Hctor & Hbuild).
  pose proof (constructor_theme_builder arg this w w0 Hctor) as Hinv.
  destruct (build_keeps_theme this this' data w0 w' Hbuild) as [Hbuilder Hsame].
  assert (Hhas : MaterialTools.themeBuilder this' <> None).
  { rewrite Hbuilder, Hinv, <- Hsame. exact Htheme. }
  split; [exact Hhas|].
  apply build_returns in Hbuild
    as (versionData & fetched & entryName & dest & name & js & css & paths & themed
        & _ & _ & _ & _ & _ & _ & _ & _ & _ & _ & _ & _ & Hthemed).
  cbv zeta in Hthemed. rewrite <- Hsame in Hthemed.
  destruct (theme (MaterialTools.options this')); [|contradiction].
  destruct Hthemed as (compiled & out & Hstatic & Hout & _).
  lazymatch type of Hstatic with
  | fst (MaterialTools._buildStaticTheme _ _ ?w1) = _ =>
      assert (MaterialTools._buildStaticTheme this' (files data) w1
              = (Return compiled, snd (MaterialTools._buildStaticTheme this' (files data) w1)))
        as Hrun by (rewrite <- Hstatic; apply surjective_pairing)
  end.
  destruct (buildStaticTheme_returns_sheet this' (files data) compiled _ _ Hhas Hrun)
    as [sheet ->].
  eexists sheet, out, _, _. split; [exact Hrun|exact Hout].
Qed.

End ConstructorReturns.

(** The options of the package on disk, with a theme and no file names. *)
Lemma constructor_fills_defaults_witness :
  MaterialTools.constructor
    (MaterialTools.Given (collaborators := Fixture.collaborators)
                         (Fixture.options "1.0.9" (Some "indigo")))
    (Fixture.world 2016)
  = (Return (Fixture.instance "1.0.9" (Some "indigo")), Fixture.world 2016) /\
  version (MaterialTools.options (Fixture.instance "1.0.9" (Some "indigo"))) = Some "1.0.9" /\
  mainFilename (MaterialTools.options (Fixture.instance "1.0.9" (Some "indigo")))
    = Some "angular-material.js" /\
  destinationFilename (MaterialTools.options (Fixture.instance "1.0.9" (Some "indigo")))
    = Some "angular-material" /\
  cache (MaterialTools.options (Fixture.instance "1.0.9" (Some "indigo")))
    = Some "./.material-cache/".
Proof.
  assert (Hctor :
    MaterialTools.constructor
      (MaterialTools.Given (collaborators := Fixture.collaborators)
                           (Fixture.options "1.0.9" (Some "indigo")))
      (Fixture.world 2016)
    = (Return (Fixture.instance "1.0.9" (Some "indigo")), Fixture.world 2016))
    by reflexivity.
  destruct (constructor_fills_defaults _ _ _ _ Hctor)
    as (_ & _ & Hversion & Hmain & Hname & Hcache & _).
  split; [exact Hctor|]. repeat split; assumption.
Defined.

(** The same options: the constructor returns. *)
Lemma constructor_returns_iff_witness :
  exists this w',
    MaterialTools.constructor
      (MaterialTools.Given (collaborators := Fixture.collaborators)
                           (Fixture.options "1.0.9" (Some "indigo")))
      (Fixture.world 2016) = (Return this, w').
Proof.
  apply (proj2 (constructor_returns_iff (collaborators := Fixture.collaborators)
                  (Fixture.options "1.0.9" (Some "indigo")) (Fixture.world 2016))).
  split; [exists "/out"; split; [reflexivity|discriminate]|].
  exists "indigo". reflexivity.
Defined.

(** The build of the package on disk with the theme [indigo]. *)
Lemma run_theme_is_compiled_witness :
  exists this' data,
    fst (MaterialTools.run
           (MaterialTools.Given (collaborators := Fixture.collaborators)
                                (Fixture.options "1.0.9" (Some "indigo")))
           (Fixture.world 2016)) = Return (this', data) /\
    MaterialTools.themeBuilder this' <> None.
Proof.
  assert (Hresult :
    exists this' data,
      fst (MaterialTools.run
             (MaterialTools.Given (collaborators := Fixture.collaborators)
                                  (Fixture.options "1.0.9" (Some "indigo")))
             (Fixture.world 2016)) = Return (this', data) /\
      theme (MaterialTools.options this') <> None).
  { do 2 eexists. split; [vm_compute; reflexivity|discriminate]. }
  destruct Hresult as (this' & data & Hresult & Htheme).
  exists this', data. split; [exact Hresult|].
  apply (run_theme_is_compiled
           (MaterialTools.Given (collaborators := Fixture.collaborators)
                                (Fixture.options "1.0.9" (Some "indigo")))
           this' data (Fixture.world 2016)
           (snd (MaterialTools.run
                   (MaterialTools.Given (collaborators := Fixture.collaborators)
                                        (Fixture.options "1.0.9" (Some "indigo")))
                   (Fixture.world 2016)))).
  - rewrite <- Hresult. apply surjective_pairing.
  - exact Htheme.
Defined.

(** ** What the static theme touches *)

Section StaticThemeEffects.

Context {collaborators : Collaborators}.

(** X10: whatever its outcome, [_buildStaticTheme] changes nothing on disk,
    and the only calls it makes to the file system are reads: of resolved
    SCSS files named [variables.scss], [mixins.scss] or [themes.scss], and
    of resolved theme files.  Without a theme builder it reads nothing. *)
Theorem static_theme_reads_only (this : MaterialTools.t) (buildFiles : LocalBuildFiles)
        (w : World) :
  disk (snd (MaterialTools._buildStaticTheme this buildFiles w)) = disk w /\
  exists paths,
    trace (snd (MaterialTools._buildStaticTheme this buildFiles w)) =
      trace w ++ List.map ReadFile paths /\
    (forall path, In path paths ->
       (In path (scss buildFiles) /\ is_base_name true (path_basename path) = true) \/
       In path (themes buildFiles)) /\
    (MaterialTools.themeBuilder this = None -> paths = []).
Proof.
  destruct (buildStaticTheme_effects this buildFiles w) as (Hdisk & _ & Hreads).
  split; assumption.
Qed.

End StaticThemeEffects.

(** ** How a build fails, and what it leaves *)

Section BuildFailures.

Context {collaborators : Collaborators}.

(** X11: when one of the three resolvers rejects, [build] rejects with the
    same error; by then it has made resolver calls only: no directory was
    made, nothing was copied, read or written, and the disk is as the
    package resolver left it. *)
Theorem resolution_failure_writes_nothing (this : MaterialTools.t) (w : World) (e : error) :
  (fst (PackageResolver_resolve (version (MaterialTools.options this))
                                (cache (MaterialTools.options this)) (disk w)) = Throw e \/
   exists versionData fetched entryName,
     PackageResolver_resolve (version (MaterialTools.options this))
                             (cache (MaterialTools.options this)) (disk w)
     = (Return versionData, fetched) /\
     mainFilename (MaterialTools.options this) = Some entryName /\
     (DependencyResolver_resolve (path_join [moduleRoot versionData; entryName])
                                 (modules (MaterialTools.options this)) fetched = Throw e \/
      exists resolved,
        DependencyResolver_resolve (path_join [moduleRoot versionData; entryName])
                                   (modules (MaterialTools.options this)) fetched
        = Return resolved /\
        LocalResolver_resolve (_flat resolved) (path_resolve [moduleRoot versionData; "../"])
                              fetched
        = Throw e)) ->
  fst (MaterialTools.build this w) = Throw e /\
  disk (snd (MaterialTools.build this w)) =
    snd (PackageResolver_resolve (version (MaterialTools.options this))
                                 (cache (MaterialTools.options this)) (disk w)) /\
  exists events,
    trace (snd (MaterialTools.build this w)) = trace w ++ events /\
    forallb is_resolution events = true.
Proof.
  intros H.
  assert (fst (MaterialTools._getData this w) = Throw e) as Hthrows.
  { unfold MaterialTools._getData, and_then, emit, updating, reading, path_arg, ret, throw.
    cbn [disk record].
    destruct H as [H|(versionData & fetched & entryName & Hpkg & Hmain & H)].
    - destruct (PackageResolver_resolve _ _ _) as [[versionData|e'] fetched];
        cbn [fst] in H |- *; [discriminate H|injection H as ->; reflexivity].
    - rewrite Hpkg. cbn [fst snd with_disk disk record]. rewrite Hmain.
      cbn [fst snd with_disk disk record].
      destruct H as [->|(resolved & -> & Hlocal)]; [reflexivity|].
      cbn [fst snd with_disk disk record]. rewrite Hlocal. reflexivity. }
  rewrite (build_getData_throws _ _ _ Hthrows). cbn [fst snd].
  destruct (getData_effects this w) as (events & -> & Hevents).
  split; [reflexivity|]. split; [reflexivity|].
  exists events. split; [reflexivity|exact Hevents].
Qed.

Section Resolved.

Variables (this : MaterialTools.t) (w : World).
Variables (entryName dest : string) (versionData : VersionData).
Variables (fetched : gmap string string) (resolved : Dependencies) (found : LocalBuildFiles).

Hypothesis Hpkg :
  PackageResolver_resolve (version (MaterialTools.options this))
                          (cache (MaterialTools.options this)) (disk w)
  = (Return versionData, fetched).
Hypothesis Hmain : mainFilename (MaterialTools.options this) = Some entryName.
Hypothesis Hdeps :
  DependencyResolver_resolve (path_join [moduleRoot versionData; entryName])
                             (modules (MaterialTools.options this)) fetched
  = Return resolved.
Hypothesis Hlocal :
  LocalResolver_resolve (_flat resolved) (path_resolve [moduleRoot versionData; "../"]) fetched
  = Return found.
Hypothesis Hdest : destination (MaterialTools.options this) = Some dest.

Local Abbreviation data := {| files := found; dependencies := resolved |}.
Local Abbreviation license_source := (path_join [root found; "module"; "LICENSE"]).
Local Abbreviation license_path := (path_join [dest; "LICENSE"]).
Local Abbreviation resolution :=
  (resolution_calls (MaterialTools.options this) versionData entryName resolved).
Local Abbreviation started :=
  [Mkdirp dest; Copy license_source license_path (fetched !! license_source)].

(** X12: when [mkdirp] fails on the destination, [build] rejects with its
    error after the three resolver calls; the disk is as the package
    resolver left it and the copy of the LICENSE was not started. *)
Theorem mkdirp_failure_writes_nothing (e : error) :
  fse_mkdirp dest = Some e ->
  fst (MaterialTools.build this w) = Throw e /\
  disk (snd (MaterialTools.build this w)) = fetched /\
  trace (snd (MaterialTools.build this w)) = trace w ++ resolution ++ [Mkdirp dest].
Proof.
  intros Hmkdirp.
  rewrite (build_mkdirp_fails this w entryName dest versionData fetched resolved found
             Hpkg Hmain Hdeps Hlocal Hdest e Hmkdirp).
  repeat split; reflexivity.
Qed.

Section Prepared.

Variable name : string.

Hypothesis Hmkdirp : fse_mkdirp dest = None.
Hypothesis Hname : destinationFilename (MaterialTools.options this) = Some name.

Local Abbreviation base := (path_join [dest; name]).
Local Abbreviation license :=
  (banner (Some (resolvedVersion versionData)) (_flat resolved) (fullYear (now w))).

(** X13: when the JS builder or the CSS builder fails, [build] rejects with
    its error before any bundle file is written: when it settles the disk
    is as the package resolver left it, the copy of the LICENSE being
    under way; once the copy has ended, the LICENSE of the package, if it
    has one, is all that was added. *)
Theorem builder_failure_leaves_license_only (e : error) :
  (JSBuilder_build data (base +:+ ".min.js") fetched = Throw e \/
   exists js,
     JSBuilder_build data (base +:+ ".min.js") fetched = Return js /\
     CSSBuilder_build data fetched = Throw e) ->
  fst (MaterialTools.build this w) = Throw e /\
  disk (snd (MaterialTools.build this w)) = fetched /\
  trace (snd (MaterialTools.build this w)) = trace w ++ resolution ++ started /\
  after_copies (resolution ++ started) fetched =
    match fetched !! license_source with
    | Some text => <[license_path := text]> fetched
    | None => fetched
    end.
Proof.
  intros H.
  rewrite (build_builder_fails this w entryName dest versionData fetched resolved found
             Hpkg Hmain Hdeps Hlocal Hdest Hmkdirp name Hname e H).
  repeat split; reflexivity.
Qed.

Section Bundled.

Variables (js : MaterialToolsOutput) (css : CSSBuildOutput).

Hypothesis Hjs : JSBuilder_build data (base +:+ ".min.js") fetched = Return js.
Hypothesis Hcss : CSSBuilder_build data fetched = Return css.

Local Abbreviation bundle := (bundle_files base license js css).

(** X14: [build] is not transactional.  When it rejects after the two
    builders returned, the files it wrote before stay written.  Either
    the file system has refused a file of the bundle, and the error is
    its error; or the bundle is complete, a theme is configured, and the
    theme could not be made or one of its two files was refused. *)
Theorem late_failure_keeps_written_files (e : error) :
  fst (MaterialTools.build this w) = Throw e ->
  exists done,
    disk (snd (MaterialTools.build this w)) = write_all done fetched /\
    written (trace (snd (MaterialTools.build this w))) = written (trace w) ++ done /\
    ((exists failed rest,
        bundle = done ++ failed :: rest /\
        fse_writeFileSync (write_all done fetched) (fst failed) = Some e) \/
     (theme (MaterialTools.options this) <> None /\
      (done = bundle \/
       exists sheet,
         done = bundle ++ [(base +:+ "-theme.min.css", license +:+ compressed sheet)]))).
Proof.
  intros Hthrows.
  destruct (build_outcome this w entryName dest versionData fetched resolved found
              Hpkg Hmain Hdeps Hlocal Hdest Hmkdirp name Hname js css Hjs Hcss)
    as (o & bdone & paths & tdone & tail & Hbuild & _ & Hcases).
  rewrite Hbuild in Hthrows |- *. cbn [fst snd disk trace] in Hthrows |- *.
  exists (bdone ++ tdone). split; [reflexivity|].
  assert (written resolution = []) as Hcalls by reflexivity.
  rewrite !written_app, Hcalls, !written_writes, written_reads.
  cbn [written omap list_omap app].
  destruct Hcases
    as [(_ & -> & _)
       |[(_ & -> & _)
        |[(failed & rest & e' & -> & Hsplit & Hrefused & _ & -> & ->)
         |[(Hconfigured & -> & -> & -> & _)
          |(Hconfigured & -> & compiled & sheet & failed & rest & e' & _ & _ & _
            & Hsplit & _ & ->)]]]];
    try discriminate Hthrows.
  - injection Hthrows as ->. rewrite !app_nil_r.
    split; [reflexivity|]. left. exists failed, rest. split; assumption.
  - rewrite !app_nil_r. split; [reflexivity|]. right. split; [exact Hconfigured|].
    left. reflexivity.
  - rewrite !app_nil_r. split; [rewrite app_assoc; reflexivity|].
    right. split; [exact Hconfigured|].
    destruct tdone as [|first [|second tdone]].
    + left. rewrite app_nil_r. reflexivity.
    + right. exists sheet. injection Hsplit as <- _. reflexivity.
    + exfalso. apply (f_equal (@List.length _)) in Hsplit.
      cbn [theme_files List.length] in Hsplit. rewrite length_app in Hsplit.
      cbn [List.length] in Hsplit. lia.
Qed.

(** X15: with a theme, a resolved version in which the pattern finds no
    three single digits separated by dots, as [0.10.0], makes [build]
    reject with a [TypeError] once the bundle is written, when the file
    system accepts the seven files of the bundle. *)
Theorem keyless_version_fails_theme (configured : MdTheme) (builder : ThemingBuilder) :
  theme (MaterialTools.options this) = Some configured ->
  MaterialTools.themeBuilder this = Some builder ->
  VersionRegex.exec (resolvedVersion versionData) = None ->
  (forall d path, In path (bundle_names base) -> fse_writeFileSync d path = None) ->
  fst (MaterialTools.build this w) = Throw (TypeError "Cannot read property 'slice' of null") /\
  disk (snd (MaterialTools.build this w)) = write_all bundle fetched /\
  trace (snd (MaterialTools.build this w)) =
    trace w ++ resolution ++ started ++ writes bundle.
Proof.
  intros Htheme Hbuilder Hexec Haccepted.
  rewrite (build_bundled this w entryName dest versionData fetched resolved found
             Hpkg Hmain Hdeps Hlocal Hdest Hmkdirp name Hname js css Hjs Hcss).
  rewrite Htheme.
  erewrite bind_continues; cycle 1.
  { apply write_files_accepted. intros d path Hin. apply Haccepted, Hin. }
  erewrite bind_throws; cycle 1.
  { unfold MaterialTools._buildStaticTheme. cbn [MaterialTools.themeBuilder].
    rewrite Hbuilder. apply bind_throws.
    unfold lift, MaterialTools.baseSCSSFiles, MaterialTools._getVersionNumber.
    cbn [MaterialTools.options MaterialTools.set_version version MaterialTools.or_default].
    rewrite Hexec. reflexivity. }
  cbn [fst snd disk trace]. rewrite <- !app_assoc. repeat split; reflexivity.
Qed.

End Bundled.

End Prepared.

End Resolved.

(** X16: the calls of a build that returns, in their order: the three
    resolvers, once each, with the configured version and cache, the entry
    file of the resolved module and the configured modules, and the flat
    dependency list; then [mkdirp] on the destination, the copy of the
    LICENSE, the seven bundle files; the theme sources are read only after
    the bundle is written, and the two theme files come last. *)
Theorem build_call_order (this this' : MaterialTools.t) (data : MaterialToolsData)
        (w w' : World) :
  MaterialTools.build this w = (Return (this', data), w') ->
  exists versionData fetched entryName dest name js css paths themed,
    PackageResolver_resolve (version (MaterialTools.options this))
                            (cache (MaterialTools.options this)) (disk w)
    = (Return versionData, fetched) /\
    mainFilename (MaterialTools.options this) = Some entryName /\
    destination (MaterialTools.options this) = Some dest /\
    destinationFilename (MaterialTools.options this) = Some name /\
    JSBuilder_build data (path_join [dest; name] +:+ ".min.js") fetched = Return js /\
    CSSBuilder_build data fetched = Return css /\
    trace w' =
      trace w ++
      (resolution_calls (MaterialTools.options this) versionData entryName
                        (dependencies data) ++
       [Mkdirp dest;
        Copy (path_join [root (files data); "module"; "LICENSE"])
             (path_join [dest; "LICENSE"])
             (fetched !! path_join [root (files data); "module"; "LICENSE"])]) ++
      writes (bundle_files (path_join [dest; name])
                           (banner (Some (resolvedVersion versionData))
                                   (_flat (dependencies data)) (fullYear (now w)))
                           js css) ++
      List.map ReadFile paths ++ writes themed /\
    (forall path, In path paths ->
       (In path (scss (files data)) /\ is_base_name true (path_basename path) = true) \/
       In path (themes (files data))) /\
    match theme (MaterialTools.options this) with
    | None => paths = [] /\ themed = []
    | Some _ =>
        exists sheet,
          themed = theme_files (path_join [dest; name])
                               (banner (Some (resolvedVersion versionData))
                                       (_flat (dependencies data)) (fullYear (now w)))
                               sheet
    end.
Proof.
  intros H.
  apply build_returns in H
    as (versionData & fetched & entryName & dest & name & js & css & paths & themed
        & Hpkg & Hmain & _ & _ & Hdest & _ & Hname & Hjs & Hcss & _ & Hw' & Hpaths & Htheme).
  cbv zeta in Hw', Htheme.
  exists versionData, fetched, entryName, dest, name, js, css, paths, themed.
  do 6 (split; [assumption|]).
  split; [rewrite Hw'; reflexivity|]. split; [exact Hpaths|].
  destruct (theme (MaterialTools.options this)); [|exact Htheme].
  destruct Htheme as (compiled & sheet & _ & _ & ->). exists sheet. reflexivity.
Qed.

(** X17: whatever the outcome of [build], the disk it leaves is the one
    the package resolver left with the files [build] wrote, in their
    order: nothing is removed and no other file is changed; each file
    written has a path that starts with the destination joined with the
    file name of the bundle; and the only copy started goes to the
    LICENSE file of the destination. *)
Theorem build_touches_destination_only (this : MaterialTools.t) (w : World) :
  exists events,
    trace (snd (MaterialTools.build this w)) = trace w ++ events /\
    disk (snd (MaterialTools.build this w)) =
      write_all (written events)
                (snd (PackageResolver_resolve (version (MaterialTools.options this))
                                              (cache (MaterialTools.options this))
                                              (disk w))) /\
    Forall (fun file => under_destination (MaterialTools.options this) (fst file))
           (written events) /\
    forall src dst copied,
      In (Copy src dst copied) events ->
      exists dest,
        destination (MaterialTools.options this) = Some dest /\
        dst = path_join [dest; "LICENSE"].
Proof.
  destruct (build_cases this w)
    as [(e & events & -> & Hwritten & Hcopies)
       |(versionData & fetched & entryName & dest & name & resolved & found & js & css
         & Hpkg & Hmain & Hdeps & Hlocal & Hdest & Hmkdirp & Hname & Hjs & Hcss)].
  { exists events. cbn [snd trace disk]. rewrite Hwritten.
    split; [reflexivity|]. split; [reflexivity|]. split; [constructor|exact Hcopies]. }
  destruct (build_outcome this w entryName dest versionData fetched resolved found
              Hpkg Hmain Hdeps Hlocal Hdest Hmkdirp name Hname js css Hjs Hcss)
    as (o & bdone & paths & tdone & tail & -> & _ & Hcases).
  rewrite Hpkg. cbn [snd trace disk].
  eexists. split; [reflexivity|].
  assert (forall rest, written (resolution_calls (MaterialTools.options this) versionData
                                                 entryName resolved ++ rest)
                       = written rest) as Hcalls by reflexivity.
  rewrite Hcalls. cbn [written omap list_omap app].
  change (omap _ ?events) with (written events).
  rewrite !written_app, !written_writes, written_reads. cbn [app].
  assert (written tail = []) as Htail.
  { destruct Hcases
      as [(_ & _ & _ & _ & _ & ->)
         |[(_ & _ & _ & -> & _)
          |[(failed & rest & e & _ & _ & _ & _ & _ & ->)
           |[(_ & _ & _ & -> & _)
            |(_ & _ & compiled & sheet & failed & rest & e & _ & _ & _ & _ & _ & ->)]]]];
      reflexivity. }
  rewrite Htail, app_nil_r.
  split; [reflexivity|]. split.
  - assert (forall file, In file bdone ->
              In file (bundle_files (path_join [dest; name])
                         (banner (Some (resolvedVersion versionData)) (_flat resolved)
                                 (fullYear (now w))) js css)) as Hbundle.
    { intros file Hin.
      destruct Hcases
        as [(_ & _ & -> & _)
           |[(_ & _ & -> & _)
            |[(failed & rest & e & _ & -> & _)
             |[(_ & -> & _)
              |(_ & -> & _)]]]];
        try exact Hin.
      apply in_or_app. left. exact Hin. }
    assert (forall file, In file tdone ->
              exists sheet,
                In file (theme_files (path_join [dest; name])
                           (banner (Some (resolvedVersion versionData)) (_flat resolved)
                                   (fullYear (now w))) sheet)) as Htheme.
    { intros file Hin.
      destruct Hcases
        as [(_ & _ & _ & _ & -> & _)
           |[(_ & _ & _ & _ & compiled & sheet & _ & _ & ->)
            |[(failed & rest & e & _ & _ & _ & _ & -> & _)
             |[(_ & _ & -> & _)
              |(_ & _ & compiled & sheet & failed & rest & e & _ & _ & _ & Hsplit & _)]]]].
      - destruct Hin.
      - exists sheet. exact Hin.
      - destruct Hin.
      - destruct Hin.
      - exists sheet. rewrite Hsplit. apply in_or_app. left. exact Hin. }
    apply Forall_forall. intros file Hin%list_elem_of_In. exists dest, name.
    split; [exact Hdest|]. split; [exact Hname|].
    apply in_app_or in Hin as [Hin|Hin].
    + apply Hbundle, bundle_under_base in Hin. exact Hin.
    + apply Htheme in Hin as [sheet Hin]. apply theme_under_base in Hin. exact Hin.
  - intros src dst copied Hin. exists dest. split; [exact Hdest|].
    apply in_app_or in Hin as [Hin|Hin].
    { unfold resolution_calls in Hin.
      repeat (destruct Hin as [Heq|Hin]; [discriminate Heq|]). destruct Hin. }
    destruct Hin as [Heq|[Heq|Hin]]; [discriminate Heq| |].
    { injection Heq as _ <- _. reflexivity. }
    rewrite !in_app_iff in Hin.
    destruct Hin as [Hin|[Hin|[Hin|Hin]]].
    + apply in_map_iff in Hin as (file & Heq & _). discriminate Heq.
    + apply in_map_iff in Hin as (path & Heq & _). discriminate Heq.
    + apply in_map_iff in Hin as (file & Heq & _). discriminate Heq.
    + destruct Hcases
        as [(_ & _ & _ & _ & _ & ->)
           |[(_ & _ & _ & -> & _)
            |[(failed & rest & e & _ & _ & _ & _ & _ & ->)
             |[(_ & _ & _ & -> & _)
              |(_ & _ & compiled & sheet & failed & rest & e & _ & _ & _ & _ & _ & ->)]]]];
        cbn [In] in Hin; intuition discriminate.
Qed.

End BuildFailures.
(** The package resolver does not find the version: the build stops
    there. *)
Lemma resolution_failure_writes_nothing_witness :
  fst (MaterialTools.build (Faulty.instance true false false) (Fixture.world 2016))
    = Throw (Rejected "VersionNotFoundError") /\
  disk (snd (MaterialTools.build (Faulty.instance true false false) (Fixture.world 2016)))
    = Fixture.package.
Proof.
  destruct (resolution_failure_writes_nothing
              (Faulty.instance true false false) (Fixture.world 2016)
              (Rejected "VersionNotFoundError")) as (Hthrows & Hdisk & _).
  - left. reflexivity.
  - split; assumption.
Defined.

(** The destination cannot be made: three resolver calls and the call
    of [mkdirp], nothing else. *)
Lemma mkdirp_failure_writes_nothing_witness :
  fst (MaterialTools.build (Faulty.instance false true false) (Fixture.world 2016))
    = Throw (Error "EACCES") /\
  trace (snd (MaterialTools.build (Faulty.instance false true false) (Fixture.world 2016)))
    = [PackageResolve (Some "1.0.9") (Some "./.material-cache/");
       DependencyResolve "/pkg/module/angular-material.js" (Some ["tooltip"]);
       LocalResolve ["core"; "tooltip"] "/pkg";
       Mkdirp "/out"].
Proof.
  destruct (mkdirp_failure_writes_nothing
              (Faulty.instance false true false) (Fixture.world 2016)
              "angular-material.js" "/out"
              {| resolvedVersion := "1.0.9"; moduleRoot := "/pkg/module" |}
              (Fixture.fetched "1.0.9")
              {| _flat := ["core"; "tooltip"] |} (Fixture.buildFiles "/pkg")
              eq_refl eq_refl eq_refl eq_refl eq_refl (Error "EACCES") eq_refl)
    as (Hthrows & _ & Htrace).
  split; [exact Hthrows|]. rewrite Htrace. reflexivity.
Defined.

(** The JS builder fails: no bundle file is written, and the LICENSE
    arrives once its copy has ended. *)
Lemma builder_failure_leaves_license_only_witness :
  let settled := MaterialTools.build (Faulty.instance false false true) (Fixture.world 2016) in
  fst settled = Throw (Rejected "MinificationError") /\
  disk (snd settled) = Fixture.fetched "1.0.9" /\
  after_copies (trace (snd settled)) (disk (snd settled)) !! "/out/LICENSE"
    = Some "The MIT License".
Proof.
  destruct (builder_failure_leaves_license_only
              (Faulty.instance false false true) (Fixture.world 2016)
              "angular-material.js" "/out"
              {| resolvedVersion := "1.0.9"; moduleRoot := "/pkg/module" |}
              (Fixture.fetched "1.0.9")
              {| _flat := ["core"; "tooltip"] |} (Fixture.buildFiles "/pkg")
              eq_refl eq_refl eq_refl eq_refl eq_refl
              "angular-material" eq_refl eq_refl
              (Rejected "MinificationError") (or_introl eq_refl))
    as (Hthrows & Hdisk & Htrace & Hafter).
  cbv zeta. split; [exact Hthrows|]. split; [exact Hdisk|].
  rewrite Htrace, Hdisk. cbn [Fixture.world trace app]. rewrite Hafter.
  vm_compute. reflexivity.
Defined.

(** The bundle is to go into a directory that was not made: the first
    write is refused, the build rejects with the error of the file
    system. *)
Lemma late_failure_keeps_written_files_witness :
  fst (MaterialTools.build (Fixture.nested "1.0.9" None) (Fixture.world 2016))
    = Throw (Error "ENOENT") /\
  exists done,
    disk (snd (MaterialTools.build (Fixture.nested "1.0.9" None) (Fixture.world 2016)))
    = write_all done (Fixture.fetched "1.0.9").
Proof.
  assert (Hthrows :
    fst (MaterialTools.build (Fixture.nested "1.0.9" None) (Fixture.world 2016))
      = Throw (Error "ENOENT"))
    by (vm_compute; reflexivity).
  split; [exact Hthrows|].
  destruct (late_failure_keeps_written_files
              (Fixture.nested "1.0.9" None) (Fixture.world 2016)
              "angular-material.js" "/out"
              {| resolvedVersion := "1.0.9"; moduleRoot := "/pkg/module" |}
              (Fixture.fetched "1.0.9")
              {| _flat := ["core"; "tooltip"] |} (Fixture.buildFiles "/pkg")
              eq_refl eq_refl eq_refl eq_refl eq_refl
              "sub/angular-material" eq_refl eq_refl
              _ _ eq_refl eq_refl _ Hthrows)
    as (done & Hdisk & _).
  exists done. exact Hdisk.
Defined.

(** Version 0.10.0 with a theme: the bundle is written, then the build
    rejects with the [TypeError] of the missing match. *)
Lemma keyless_version_fails_theme_witness :
  VersionRegex.exec "0.10.0" = None /\
  fst (MaterialTools.build (Fixture.instance "0.10.0" (Some "indigo")) (Fixture.world 2016))
    = Throw (TypeError "Cannot read property 'slice' of null") /\
  List.map fst
    (written (trace (snd (MaterialTools.build (Fixture.instance "0.10.0" (Some "indigo"))
                                              (Fixture.world 2016)))))
    = bundle_names "/out/angular-material".
Proof.
  split; [reflexivity|].
  destruct (keyless_version_fails_theme
              (Fixture.instance "0.10.0" (Some "indigo")) (Fixture.world 2016)
              "angular-material.js" "/out"
              {| resolvedVersion := "0.10.0"; moduleRoot := "/pkg/module" |}
              (Fixture.fetched "0.10.0")
              {| _flat := ["core"; "tooltip"] |} (Fixture.buildFiles "/pkg")
              eq_refl eq_refl eq_refl eq_refl eq_refl
              "angular-material" eq_refl eq_refl
              _ _ eq_refl eq_refl "indigo" "indigo" eq_refl eq_refl eq_refl)
    as (Hthrows & _ & Htrace).
  - intros d path Hin. cbn in Hin.
    repeat (destruct Hin as [<-|Hin]; [reflexivity|]). destruct Hin.
  - split; [exact Hthrows|]. rewrite Htrace.
    cbn [Fixture.world trace app]. unfold resolution_calls. cbn [app written omap list_omap].
    change (omap _ ?events) with (written events).
    rewrite written_writes. reflexivity.
Defined.

(** Version 1.0.9 of the package, with a theme: the first five calls. *)
Lemma build_call_order_witness :
  exists w' rest,
    MaterialTools.build (Fixture.instance "1.0.9" (Some "indigo")) (Fixture.world 2016)
      = (Return (Fixture.built "1.0.9" (Some "indigo"), Fixture.data), w') /\
    trace w' =
      [PackageResolve (Some "1.0.9") (Some "./.material-cache/");
       DependencyResolve "/pkg/module/angular-material.js" (Some ["tooltip"]);
       LocalResolve ["core"; "tooltip"] "/pkg";
       Mkdirp "/out";
       Copy "/pkg/module/LICENSE" "/out/LICENSE" (Some "The MIT License")] ++ rest.
Proof.
  pose proof (fixture_build_returns _ fixture_build_2016) as Hbuild.
  destruct (build_call_order _ _ _ _ _ Hbuild)
    as (versionData & fetched & entryName & dest & name & js & css & paths & themed &
        Hpkg & Hmain & Hdest & _ & _ & _ & Htrace & _).
  vm_compute in Hmain, Hdest. injection Hmain as <-. injection Hdest as <-.
  change (PackageResolver_resolve _ _ _)
    with (Return {| resolvedVersion := "1.0.9"; moduleRoot := "/pkg/module" |},
          Fixture.fetched "1.0.9") in Hpkg.
  injection Hpkg as <- <-.
  eexists _, _. split; [exact Hbuild|].
  rewrite Htrace. cbn [Fixture.world trace files dependencies Fixture.data].
  rewrite <- !app_assoc. unfold resolution_calls. cbn [app].
  repeat f_equal; vm_compute; reflexivity.
Defined.

(** Version 1.0.9 of the package on disk, with a theme: the build
    returns. *)
Lemma build_succeeds_witness :
  exists this' w',
    MaterialTools.build (Fixture.instance "1.0.9" (Some "indigo")) (Fixture.world 2016) =
      (Return (this', {| files := Fixture.buildFiles "/pkg";
                         dependencies := {| _flat := ["core"; "tooltip"] |} |}), w').
Proof.
  apply (build_succeeds
           (Fixture.instance "1.0.9" (Some "indigo")) (Fixture.world 2016)
           "/out" "angular-material" "angular-material.js"
           {| resolvedVersion := "1.0.9"; moduleRoot := "/pkg/module" |}
           (Fixture.fetched "1.0.9")
           {| _flat := ["core"; "tooltip"] |} (Fixture.buildFiles "/pkg") _ _
           eq_refl eq_refl eq_refl eq_refl eq_refl eq_refl eq_refl eq_refl eq_refl).
  - intros d path Hin. cbn in Hin.
    repeat (destruct Hin as [<-|Hin]; [reflexivity|]). destruct Hin.
  - right. split; [eexists; vm_compute; reflexivity|]. split.
    + intros path Hin. cbn [Fixture.buildFiles scss themes app In] in Hin.
      repeat (destruct Hin as [<-|Hin]; [eexists; vm_compute; reflexivity|]).
      contradiction.
    + repeat split; intros; eexists; reflexivity.
Defined.
